(** * v3io-go data plane: a shallow embedding and its verified properties

    The development follows the Go sources of the HTTP data-plane client
    ([pkg/dataplane/http/context.go], [pkg/dataplane/types.go]) and of the
    stream consumer group configuration
    ([pkg/dataplane/streamconsumergroup/config.go]).

    Conventions.
    - Go [string]s are [string]s (sequences of bytes), [[]byte] is
      [list byte], Go's [int], [int64] and [uint64] are [Z] with their
      ranges written out ([int] is 64 bits wide).
    - A Go [map] is a [gmap]; [interface{}] values are the tagged union
      [Value].
    - A function returning [(T, error)] returns a pair of options or a
      [Res]; a run-time panic (index out of range) is the outcome [Panic].
    - The parts of the Go standard library the code calls ([strings],
      [strconv], [path], [encoding/base64]) are modelled in modules of the
      same names; what is outside the repository and not modelled
      (JSON/XML/capnp decoding, URL parsing, float formatting, the HTTP
      transport) is a variable of the section [Dataplane]. *)

From Stdlib Require Import ZArith Lia String Ascii List Bool Floats.
From Stdlib.Strings Require Import Byte.
From stdpp Require Import base option gmap strings list.

Local Open Scope string_scope.
Local Open Scope Z_scope.

(* ===================================================================== *)
(** * Part I: definitions                                                 *)
(* ===================================================================== *)

(** ** Outcomes *)

(** The result of a Go function that returns [(T, error)] and may panic. *)
Inductive Res (E A : Type) : Type :=
| Ok (a : A)
| Err (e : E)
| Panic.
Arguments Ok {E A} a.
Arguments Err {E A} e.
Arguments Panic {E A}.

(** ** Package [strings] *)

Module strings.

(** [len(s)] *)
Definition len (s : string) : Z := Z.of_nat (String.length s).

(** [strings.HasPrefix(s, prefix)] *)
Definition HasPrefix (s pre : string) : bool := String.prefix pre s.

Fixpoint rev_acc (s acc : string) : string :=
  match s with
  | EmptyString => acc
  | String c s' => rev_acc s' (String c acc)
  end.

Definition rev (s : string) : string := rev_acc s "".

(** [strings.HasSuffix(s, suffix)] *)
Definition HasSuffix (s suf : string) : bool :=
  String.prefix (rev suf) (rev s).

(** [strings.Split(s, sep)] for a non-empty separator: [s] is cut at every
    occurrence of [sep], scanning from the left, occurrences not
    overlapping. [skip] counts the bytes of a matched separator still to
    be passed over, [cur] is the piece being read. *)
Fixpoint Split_go (sep : string) (skip : nat) (cur : string) (s : string)
  : list string :=
  match s with
  | EmptyString => [cur]
  | String c s' =>
      match skip with
      | S k => Split_go sep k cur s'
      | O =>
          if String.prefix sep s
          then cur :: Split_go sep (String.length sep - 1) "" s'
          else Split_go sep O (cur +:+ String c "") s'
      end
  end.

Definition Split (s sep : string) : list string := Split_go sep O "" s.

(** The bytes [strings.TrimSpace] removes from an ASCII string:
    ['\t'], ['\n'], ['\v'], ['\f'], ['\r'], [' ']. *)
Definition asciiSpace (c : ascii) : bool :=
  let n := N_of_ascii c in
  ((9 <=? n)%N && (n <=? 13)%N) || (n =? 32)%N.

Fixpoint TrimLeft (s : string) : string :=
  match s with
  | EmptyString => EmptyString
  | String c s' => if asciiSpace c then TrimLeft s' else s
  end.

(** [strings.TrimSpace(s)] on strings of ASCII bytes. (On a byte above
    0x7f Go falls back to Unicode white space; the statements about
    [TrimSpace] below are restricted to ASCII strings, see [is_ascii].) *)
Definition TrimSpace (s : string) : string :=
  rev (TrimLeft (rev (TrimLeft s))).

Definition ascii_byte (c : ascii) : bool := (N_of_ascii c <? 128)%N.

Fixpoint is_ascii (s : string) : bool :=
  match s with
  | EmptyString => true
  | String c s' => ascii_byte c && is_ascii s'
  end.

(** [strings.IndexByte(s, c) >= 0] *)
Fixpoint ContainsByte (s : string) (c : ascii) : bool :=
  match s with
  | EmptyString => false
  | String x s' => Ascii.eqb x c || ContainsByte s' c
  end.

(** [strings.Join(elems, sep)] *)
Fixpoint Join (elems : list string) (sep : string) : string :=
  match elems with
  | [] => ""
  | [e] => e
  | e :: rest => e +:+ sep +:+ Join rest sep
  end.

(** [strings.Replace(s, old, new, -1)] for a one-byte [old]. *)
Fixpoint ReplaceByte (s : string) (old : ascii) (new : string) : string :=
  match s with
  | EmptyString => EmptyString
  | String c s' =>
      if Ascii.eqb c old then new +:+ ReplaceByte s' old new
      else String c (ReplaceByte s' old new)
  end.

End strings.

(** ** Package [strconv] *)

Module strconv.

Inductive NumError : Type := ErrSyntax | ErrRange.

Definition maxUint64 : Z := 2 ^ 64 - 1.

Definition code (c : ascii) : Z := Z.of_N (N_of_ascii c).

Definition lower (c : Z) : Z := Z.lor c 32.

(** The digit a byte stands for in [ParseUint]: ['0'..'9'], then letters of
    either case from 10 on. *)
Definition digit_of (c : ascii) : option Z :=
  let n := code c in
  if (48 <=? n) && (n <=? 57) then Some (n - 48)
  else if (97 <=? lower n) && (lower n <=? 122) then Some (lower n - 97 + 10)
  else None.

(** The loop of [ParseUint]: [n] is the value read so far. On a result that
    does not fit, Go returns [maxVal] and a range error; on a byte that is
    no digit of the base, 0 and a syntax error. *)
Fixpoint ParseUint_loop (base maxVal : Z) (s : string) (n : Z)
  : Z * option NumError :=
  match s with
  | EmptyString => (n, None)
  | String c s' =>
      match digit_of c with
      | None => (0, Some ErrSyntax)
      | Some d =>
          if base <=? d then (0, Some ErrSyntax)
          else if maxUint64 / base + 1 <=? n then (maxVal, Some ErrRange)
          else
            let n0 := n * base in
            let n1 := (n0 + d) mod 2 ^ 64 in
            if (n1 <? n0) || (maxVal <? n1) then (maxVal, Some ErrRange)
            else ParseUint_loop base maxVal s' n1
      end
  end.

(** [strconv.ParseUint(s, base, bitSize)] for [2 <= base <= 36] and
    [0 < bitSize <= 64]. *)
Definition ParseUint (s : string) (base bitSize : Z) : Z * option NumError :=
  match s with
  | EmptyString => (0, Some ErrSyntax)
  | _ => ParseUint_loop base (2 ^ bitSize - 1) s 0
  end.

(** [strconv.ParseInt(s, base, bitSize)]: an optional sign, then
    [ParseUint], then the range check of the signed type. *)
Definition ParseInt (s : string) (base bitSize : Z) : Z * option NumError :=
  match s with
  | EmptyString => (0, Some ErrSyntax)
  | String c s' =>
      let neg := Ascii.eqb c "-" in
      let body := if Ascii.eqb c "+" || neg then s' else s in
      let '(un, err) := ParseUint body base bitSize in
      match err with
      | Some ErrSyntax => (0, Some ErrSyntax)
      | _ =>
          let cutoff := 2 ^ (bitSize - 1) in
          if negb neg && (cutoff <=? un) then (cutoff - 1, Some ErrRange)
          else if neg && (cutoff <? un) then (- cutoff, Some ErrRange)
          else ((if neg then - un else un), None)
      end
  end.

(** [strconv.Atoi(s)]: [ParseInt(s, 10, 0)] on a 64-bit [int] (Go's fast
    path for short strings computes the same result). *)
Definition Atoi (s : string) : Z * option NumError := ParseInt s 10 64.

Definition digit_char (d : Z) : ascii := ascii_of_N (Z.to_N (48 + d)).

(** Decimal digits of [n], least significant first. *)
Fixpoint digits_le (fuel : nat) (n : Z) : list Z :=
  match fuel with
  | O => [n mod 10]
  | S f => if n <? 10 then [n] else (n mod 10) :: digits_le f (n / 10)
  end.

Fixpoint string_of_digits_le (ds : list Z) (acc : string) : string :=
  match ds with
  | [] => acc
  | d :: ds' => string_of_digits_le ds' (String (digit_char d) acc)
  end.

(** [strconv.FormatUint(n, 10)] for [0 <= n < 2^64] (at most 20 digits). *)
Definition FormatUint (n : Z) : string :=
  string_of_digits_le (digits_le 20 n) "".

(** [strconv.FormatInt(n, 10)] for an [int64]. *)
Definition FormatInt (n : Z) : string :=
  if n <? 0 then String "-" (FormatUint (- n)) else FormatUint n.

(** [strconv.Itoa(n)] *)
Definition Itoa (n : Z) : string := FormatInt n.

(** The number a string of digits denotes in positional notation, most
    significant digit first; [None] when a byte is no digit of the base. *)
Fixpoint positional (base : Z) (s : string) : option Z :=
  match s with
  | EmptyString => Some 0
  | String c s' =>
      match digit_of c, positional base s' with
      | Some d, Some v =>
          if d <? base then Some (d * base ^ Z.of_nat (String.length s') + v)
          else None
      | _, _ => None
      end
  end.

(** [strconv.ParseBool(s)] *)
Definition ParseBool (s : string) : option bool :=
  if bool_decide (s ∈ ["1"; "t"; "T"; "true"; "TRUE"; "True"]) then Some true
  else if bool_decide (s ∈ ["0"; "f"; "F"; "false"; "FALSE"; "False"])
       then Some false
  else None.

End strconv.

(** ** Package [encoding/base64], [StdEncoding] *)

Module base64.

Definition byteZ (b : byte) : Z := Z.of_N (Byte.to_N b).

Definition Zbyte (z : Z) : byte :=
  match Byte.of_N (Z.to_N z) with
  | Some b => b
  | None => "000"%byte
  end.

(** The alphabet: [A-Z], [a-z], [0-9], [+], [/]. *)
Definition enc (i : Z) : ascii :=
  ascii_of_N (Z.to_N (
    if i <? 26 then 65 + i
    else if i <? 52 then 97 + (i - 26)
    else if i <? 62 then 48 + (i - 52)
    else if i =? 62 then 43 else 47)).

Definition dec (c : ascii) : option Z :=
  let n := Z.of_N (N_of_ascii c) in
  if (65 <=? n) && (n <=? 90) then Some (n - 65)
  else if (97 <=? n) && (n <=? 122) then Some (n - 97 + 26)
  else if (48 <=? n) && (n <=? 57) then Some (n - 48 + 52)
  else if n =? 43 then Some 62
  else if n =? 47 then Some 63
  else None.

Definition pad : ascii := "="%char.

(** [EncodeToString]: three bytes become four characters; a last group of
    one or two bytes is padded with [=]. The shifts and masks of the encoder
    are written as products, quotients and remainders by powers of two:
    [val] is the 24-bit group, cut into four 6-bit digits. *)
Fixpoint EncodeToString (src : list byte) : string :=
  match src with
  | [] => ""
  | [a] =>
      let val := byteZ a * 65536 in
      String (enc (val / 262144 mod 64))
        (String (enc (val / 4096 mod 64))
           (String pad (String pad "")))
  | [a; b] =>
      let val := byteZ a * 65536 + byteZ b * 256 in
      String (enc (val / 262144 mod 64))
        (String (enc (val / 4096 mod 64))
           (String (enc (val / 64 mod 64))
              (String pad "")))
  | a :: b :: c :: rest =>
      let val := byteZ a * 65536 + byteZ b * 256 + byteZ c in
      String (enc (val / 262144 mod 64))
        (String (enc (val / 4096 mod 64))
           (String (enc (val / 64 mod 64))
              (String (enc (val mod 64)) (EncodeToString rest))))
  end.

(** The decoder skips carriage returns and line feeds. *)
Fixpoint strip_newlines (s : string) : string :=
  match s with
  | EmptyString => EmptyString
  | String c s' =>
      if Ascii.eqb c "010" || Ascii.eqb c "013" then strip_newlines s'
      else String c (strip_newlines s')
  end.

(** The decoder on groups of four characters; padding is accepted in the
    last group only. *)
Fixpoint decode_quanta (s : string) : option (list byte) :=
  match s with
  | EmptyString => Some []
  | String c1 (String c2 (String c3 (String c4 rest))) =>
      match dec c1, dec c2 with
      | Some v1, Some v2 =>
          if Ascii.eqb c3 pad then
            if Ascii.eqb c4 pad then
              match rest with
              | EmptyString =>
                  let val := v1 * 262144 + v2 * 4096 in
                  Some [Zbyte (val / 65536 mod 256)]
              | _ => None
              end
            else None
          else
            match dec c3 with
            | None => None
            | Some v3 =>
                if Ascii.eqb c4 pad then
                  match rest with
                  | EmptyString =>
                      let val := v1 * 262144 + v2 * 4096 + v3 * 64 in
                      Some [Zbyte (val / 65536 mod 256); Zbyte (val / 256 mod 256)]
                  | _ => None
                  end
                else
                  match dec c4 with
                  | None => None
                  | Some v4 =>
                      let val := v1 * 262144 + v2 * 4096 + v3 * 64 + v4 in
                      match decode_quanta rest with
                      | None => None
                      | Some bs =>
                          Some (Zbyte (val / 65536 mod 256)
                                :: Zbyte (val / 256 mod 256)
                                :: Zbyte (val mod 256) :: bs)
                      end
                  end
            end
      | _, _ => None
      end
  | _ => None
  end.

(** [DecodeString]: [None] stands for a [CorruptInputError]. *)
Definition DecodeString (s : string) : option (list byte) :=
  decode_quanta (strip_newlines s).

End base64.

(** ** Package [path] *)

Module path.

(** One step of the lexical clean-up over the elements of a path: [stack]
    holds the elements kept so far, the last one first. An empty element
    (a doubled slash) and [.] are dropped; [..] removes the element before
    it when there is one, is dropped at the root of a rooted path, and is
    kept otherwise. *)
Definition clean_step (rooted : bool) (stack : list string) (seg : string)
  : list string :=
  if bool_decide (seg = "") || bool_decide (seg = ".") then stack
  else if bool_decide (seg = "..") then
    match stack with
    | top :: below =>
        if bool_decide (top = "..") then seg :: stack else below
    | [] => if rooted then [] else [seg]
    end
  else seg :: stack.

Definition clean_elems (rooted : bool) (segs : list string) : list string :=
  List.rev (fold_left (clean_step rooted) segs []).

(** [path.Clean(p)] *)
Definition Clean (p : string) : string :=
  let rooted := strings.HasPrefix p "/" in
  let out := (if rooted then "/" else "")
               +:+ strings.Join (clean_elems rooted (strings.Split p "/")) "/" in
  if bool_decide (out = "") then "." else out.

(** [path.Join(elem...)]: the elements are joined with slashes, leading
    empty elements ignored, and the result cleaned; no element or only
    empty ones give the empty string. *)
Definition join_buf (buf : string) (e : string) : string :=
  if negb (bool_decide (buf = "")) || negb (bool_decide (e = "")) then
    (if negb (bool_decide (buf = "")) then buf +:+ "/" else buf) +:+ e
  else buf.

Definition Join (elem : list string) : string :=
  if bool_decide (strings.Join elem "" = "") then ""
  else Clean (fold_left join_buf elem "").

(** The part of a reversed path from its first slash on. *)
Fixpoint from_slash (r : string) : string :=
  match r with
  | EmptyString => EmptyString
  | String c r' => if Ascii.eqb c "/" then r else from_slash r'
  end.

(** [path.Split(p)], first component: [p] up to and with its last slash. *)
Definition SplitDir (p : string) : string :=
  strings.rev (from_slash (strings.rev p)).

(** [path.Dir(p)] *)
Definition Dir (p : string) : string := Clean (SplitDir p).

End path.

(** Go's integer types as ranges of [Z]. *)
Definition is_int64 (z : Z) : Prop := - 2 ^ 63 <= z < 2 ^ 63.
Definition is_uint64 (z : Z) : Prop := 0 <= z < 2 ^ 64.
Definition is_int (z : Z) : Prop := is_int64 z.

(** ** [types.go]: the file mode of a directory entry *)

(** [os.FileMode] is a [uint32]; these are its type bits. *)
Module os.
Definition ModeDir : Z := Z.shiftl 1 31.
Definition ModeSymlink : Z := Z.shiftl 1 27.
Definition ModeDevice : Z := Z.shiftl 1 26.
Definition ModeNamedPipe : Z := Z.shiftl 1 25.
Definition ModeSocket : Z := Z.shiftl 1 24.
Definition ModeCharDevice : Z := Z.shiftl 1 21.
Definition ModeIrregular : Z := Z.shiftl 1 19.
Definition ModeType : Z :=
  Z.lor ModeDir (Z.lor ModeSymlink (Z.lor ModeNamedPipe (Z.lor ModeSocket
    (Z.lor ModeDevice (Z.lor ModeCharDevice ModeIrregular))))).
Definition ModePerm : Z := 511.

(** The conversion [os.FileMode(x)] of a [uint64]. *)
Definition FileMode (x : Z) : Z := x mod 2 ^ 32.
Definition IsRegular (m : Z) : bool := Z.land m ModeType =? 0.
Definition IsDir (m : Z) : bool := negb (Z.land m ModeDir =? 0).
Definition Perm (m : Z) : Z := Z.land m ModePerm.
End os.

Definition S_IFMT : Z := 0xf000.
Definition IP_OFFMASK : Z := 0x1fff.

(** [mode(v3ioFileMode)] *)
Definition mode (v3ioFileMode : string) : Z * option strconv.NumError :=
  let sFileMode := v3ioFileMode in
  if strings.HasPrefix sFileMode "0" then
    let '(m, err) := strconv.ParseUint sFileMode 8 32 in
    match err with
    | Some e => (os.FileMode S_IFMT, Some e)
    | None =>
        let golangFileMode :=
          Z.lor (Z.shiftl (Z.land m S_IFMT) 17) (Z.land m IP_OFFMASK) in
        (os.FileMode golangFileMode, None)
    end
  else
    let '(m, err) := strconv.ParseUint sFileMode 10 32 in
    match err with
    | Some e => (os.FileMode S_IFMT, Some e)
    | None => (os.FileMode m, None)
    end.

(** ** [streamconsumergroup/config.go] *)

(** The conversion of an integer to [int64] (or to the 64-bit [int]). *)
Definition wrap_int64 (z : Z) : Z := (z + 2 ^ 63) mod 2 ^ 64 - 2 ^ 63.

(** [time.Duration] is a count of nanoseconds. *)
Module time.
Definition Nanosecond : Z := 1.
Definition Millisecond : Z := 1000000.
Definition Second : Z := 1000000000.

Inductive Location := Local | UTC | Zone (name : string).

(** A [time.Time], by what the code reads of it: [Unix()] (an [int64]),
    [Nanosecond()] (in [0, 999999999]) and the location. *)
Record Time := { Unix_ : Z; Nanosecond_ : Z; Location_ : Location }.

(** [time.Unix(sec, nsec)]: nanoseconds outside [0, 999999999] are carried
    into the seconds; the result is in the local zone. *)
Definition Unix (sec nsec : Z) : Time :=
  if (nsec <? 0) || (1000000000 <=? nsec) then
    let n := Z.quot nsec 1000000000 in
    let sec1 := wrap_int64 (sec + n) in
    let nsec1 := nsec - n * 1000000000 in
    if nsec1 <? 0
    then {| Unix_ := wrap_int64 (sec1 - 1); Nanosecond_ := nsec1 + 1000000000;
            Location_ := Local |}
    else {| Unix_ := sec1; Nanosecond_ := nsec1; Location_ := Local |}
  else {| Unix_ := sec; Nanosecond_ := nsec; Location_ := Local |}.

(** [t.Equal(u)]: the same instant, at nanosecond resolution. *)
Definition Equal (t u : Time) : Prop :=
  Unix_ t = Unix_ u /\ Nanosecond_ t = Nanosecond_ u.

Definition wf (t : Time) : Prop :=
  - 2 ^ 63 <= Unix_ t < 2 ^ 63 /\ 0 <= Nanosecond_ t < 1000000000.
End time.

Record Backoff := { Min : Z; Max : Z; Factor : Z }.

Inductive SeekShardInputType :=
| SeekShardInputTypeTime
| SeekShardInputTypeSequence
| SeekShardInputTypeLatest
| SeekShardInputTypeEarliest.

Record Config := {
  Session_Timeout : Z;
  Session_HeartbeatInterval : Z;
  State_ModifyRetry_Attempts : Z;
  State_ModifyRetry_Backoff : Backoff;
  SequenceNumber_CommitInterval : Z;
  SequenceNumber_ShardWaitInterval : Z;
  Claim_RecordBatchChanSize : Z;
  Claim_RecordBatchFetch_Interval : Z;
  Claim_RecordBatchFetch_NumRecordsInBatch : Z;
  Claim_RecordBatchFetch_InitialLocation : SeekShardInputType;
  Claim_GetShardLocationRetry_Attempts : Z;
  Claim_GetShardLocationRetry_Backoff : Backoff
}.

(** [NewConfig()] *)
Definition NewConfig : Config := {|
  Session_Timeout := 10 * time.Second;
  Session_HeartbeatInterval := 3 * time.Second;
  State_ModifyRetry_Attempts := 100;
  State_ModifyRetry_Backoff :=
    {| Min := 50 * time.Millisecond; Max := 1 * time.Second; Factor := 4 |};
  SequenceNumber_CommitInterval := 10 * time.Second;
  SequenceNumber_ShardWaitInterval := 1 * time.Second;
  Claim_RecordBatchChanSize := 100;
  Claim_RecordBatchFetch_Interval := 250 * time.Millisecond;
  Claim_RecordBatchFetch_NumRecordsInBatch := 10;
  Claim_RecordBatchFetch_InitialLocation := SeekShardInputTypeEarliest;
  Claim_GetShardLocationRetry_Attempts := 100;
  Claim_GetShardLocationRetry_Backoff :=
    {| Min := 50 * time.Millisecond; Max := 1 * time.Second; Factor := 2 |}
|}.

(** ** [http/context.go]: values, errors and the attribute codec *)

Definition bytes := list byte.

(** A Go [interface{}] value, by dynamic type. [VOther] stands for a value of
    any type the encoder has no case for. *)
Inductive Value : Type :=
| VInt (n : Z)
| VUint64 (n : Z)
| VInt64 (n : Z)
| VFloat64 (f : float)
| VString (s : string)
| VBytes (b : bytes)
| VBool (b : bool)
| VTime (t : time.Time)
| VOther (type : string).

(** [v3io.Item], [map[string]interface{}] *)
Abbreviation Item := (gmap string Value).
(** [map[string]map[string]interface{}] *)
Abbreviation TypedItem := (gmap string (gmap string Value)).

(** A [fasthttp.Response], by what the code reads of it. *)
Record HttpResponse := {
  StatusCode : Z;
  Header : gmap string string;
  Body : bytes
}.

Definition emptyHttpResponse : HttpResponse :=
  {| StatusCode := 200; Header := ∅; Body := [] |}.

(** [response.HeaderPeek(key)], as a string *)
Definition HeaderPeek (r : HttpResponse) (key : string) : string :=
  default "" (Header r !! key).

(** The errors of the data plane. An error made by
    [NewErrorWithStatusCodeAndResponse] carries the response; the error of a
    capnp value that cannot be read names the section and the index of the
    value in it. *)
Inductive error : Type :=
| ErrContainerNameEmpty
| ErrFailedToAllocateResponse
| ErrUnexpectedAttributeType (attributeName : string)
| ErrAttributeTypeMismatch (attributeType attributeName : string)
| ErrNotIntOrFloat (attributeName numberValue : string)
| ErrCorruptBase64
| ErrTimestampFormat (timestampValue : string)
| ErrNum (e : strconv.NumError)
| ErrParseURL (urlString : string)
| ErrConnectionClosed
| ErrTransport (what : string)
| ErrStatusCode (statusCode : Z)
| ErrStatusCodeAndResponse (statusCode : Z) (response : HttpResponse)
| ErrUnmarshal (what : string)
| ErrMarshal (what : string)
| ErrCapnp (what : string)
| ErrCapnpValue (sectIdx valIdx : Z)
| ErrMtimeSymbol (mtimeType : string).

(** Errors raised on the caller's input, before a request is sent: no
    container name, an attribute of no supported type, an input that cannot
    be marshalled. *)
Definition is_input_validation (e : error) : bool :=
  match e with
  | ErrContainerNameEmpty | ErrUnexpectedAttributeType _ | ErrMarshal _ => true
  | _ => false
  end.

Section Codec.

(** [strconv.FormatFloat(f, 'E', -1, 64)] and [strconv.ParseFloat(s, 64)] *)
Variable FormatFloat : float -> string.
Variable ParseFloat : string -> option float.

(** One case of the type switch of [encodeTypedAttributes]. *)
Definition encodeValue (attributeName : string) (attributeValue : Value)
  : Res error (gmap string Value) :=
  match attributeValue with
  | VInt value => Ok {[ "N" := VString (strconv.Itoa value) ]}
  | VUint64 value => Ok {[ "N" := VString (strconv.FormatUint value) ]}
  | VInt64 value => Ok {[ "N" := VString (strconv.FormatInt value) ]}
  | VFloat64 value => Ok {[ "N" := VString (FormatFloat value) ]}
  | VString value => Ok {[ "S" := VString value ]}
  | VBytes value => Ok {[ "B" := VString (base64.EncodeToString value) ]}
  | VBool value => Ok {[ "BOOL" := VBool value ]}
  | VTime value =>
      Ok {[ "TS" := VString (strconv.FormatInt (time.Unix_ value) +:+ ":"
                               +:+ strconv.Itoa (time.Nanosecond_ value)) ]}
  | VOther _ => Err (ErrUnexpectedAttributeType attributeName)
  end.

(** One iteration of the loop of [encodeTypedAttributes]; an error ends the
    loop. *)
Definition encodeStep (acc : Res error TypedItem) (entry : string * Value)
  : Res error TypedItem :=
  match acc with
  | Ok typedAttributes =>
      match encodeValue (fst entry) (snd entry) with
      | Ok typed => Ok (<[fst entry := typed]> typedAttributes)
      | Err e => Err e
      | Panic => Panic
      end
  | _ => acc
  end.

(** [encodeTypedAttributes(attributes)]: the loop over the map returns at
    the first attribute it cannot encode. *)
Definition encodeTypedAttributes (attributes : Item) : Res error TypedItem :=
  fold_left encodeStep (map_to_list attributes) (Ok ∅).

(** The body of the loop of [decodeTypedAttributes]: the kinds are tried in
    the order [N], [S], [B], [BOOL], [TS]; an attribute of no known kind is
    left out of the result ([Ok None]). *)
Definition decodeValue (attributeName : string)
    (typedAttributeValue : gmap string Value) : Res error (option Value) :=
  match typedAttributeValue !! "N" with
  | Some value =>
      match value with
      | VString numberValue =>
          match strconv.Atoi numberValue with
          | (intValue, None) => Ok (Some (VInt intValue))
          | (_, Some _) =>
              match ParseFloat numberValue with
              | Some floatValue => Ok (Some (VFloat64 floatValue))
              | None => Err (ErrNotIntOrFloat attributeName numberValue)
              end
          end
      | _ => Err (ErrAttributeTypeMismatch "N" attributeName)
      end
  | None =>
  match typedAttributeValue !! "S" with
  | Some value =>
      match value with
      | VString stringValue => Ok (Some (VString stringValue))
      | _ => Err (ErrAttributeTypeMismatch "S" attributeName)
      end
  | None =>
  match typedAttributeValue !! "B" with
  | Some value =>
      match value with
      | VString byteSliceValue =>
          match base64.DecodeString byteSliceValue with
          | Some b => Ok (Some (VBytes b))
          | None => Err ErrCorruptBase64
          end
      | _ => Err (ErrAttributeTypeMismatch "B" attributeName)
      end
  | None =>
  match typedAttributeValue !! "BOOL" with
  | Some value =>
      match value with
      | VBool boolValue => Ok (Some (VBool boolValue))
      | _ => Err (ErrAttributeTypeMismatch "BOOL" attributeName)
      end
  | None =>
  match typedAttributeValue !! "TS" with
  | Some value =>
      match value with
      | VString timestampValue =>
          match strings.Split timestampValue ":" with
          | [part0; part1] =>
              match strconv.ParseInt part0 10 64 with
              | (_, Some e) => Err (ErrNum e)
              | (seconds, None) =>
                  match strconv.ParseInt part1 10 64 with
                  | (_, Some e) => Err (ErrNum e)
                  | (nanos, None) => Ok (Some (VTime (time.Unix seconds nanos)))
                  end
              end
          | _ => Err (ErrTimestampFormat timestampValue)
          end
      | _ => Err (ErrAttributeTypeMismatch "TS" attributeName)
      end
  | None => Ok None
  end end end end end.

(** One iteration of the loop of [decodeTypedAttributes]. *)
Definition decodeStep (acc : Res error Item)
    (entry : string * gmap string Value) : Res error Item :=
  match acc with
  | Ok attributes =>
      match decodeValue (fst entry) (snd entry) with
      | Ok (Some v) => Ok (<[fst entry := v]> attributes)
      | Ok None => Ok attributes
      | Err e => Err e
      | Panic => Panic
      end
  | _ => acc
  end.

(** [decodeTypedAttributes(typedAttributes)] *)
Definition decodeTypedAttributes (typedAttributes : TypedItem) : Res error Item :=
  fold_left decodeStep (map_to_list typedAttributes) (Ok ∅).

End Codec.

(** The values of the six kinds of attribute: integers ([int], [int64]),
    floats, strings, byte slices, booleans and times, within the ranges of
    their Go types. *)
Definition supported (v : Value) : Prop :=
  match v with
  | VInt n => is_int n
  | VInt64 n => is_int64 n
  | VFloat64 _ | VString _ | VBytes _ | VBool _ => True
  | VTime t => time.wf t
  | VUint64 _ | VOther _ => False
  end.

(** Two values of one kind with the same content: the same integer, float,
    string or boolean, the same bytes, the same instant. *)
Definition value_equal (v v' : Value) : Prop :=
  match v, v' with
  | VInt n, VInt n' | VInt64 n, VInt n'
  | VInt n, VInt64 n' | VInt64 n, VInt64 n' => n = n'
  | VFloat64 f, VFloat64 f' => f = f'
  | VString s, VString s' => s = s'
  | VBytes b, VBytes b' => b = b'
  | VBool b, VBool b' => b = b'
  | VTime t, VTime t' => time.Equal t t'
  | _, _ => False
  end.

(** ** [types.go]: inputs and outputs of the operations *)

(** [DataPlaneInput]. The [Ctx] field is left out: this code hands it to the
    logger only. *)
Record DataPlaneInput := {
  URL : string;
  ContainerName : string;
  AuthenticationToken : string;
  AccessKey : string;
  MtimeSec : string;
  MtimeNsec : string;
  Timeout : Z;
  IncludeResponseInError : bool
}.

Record GetClusterMDInput := { gcmd_dpi : DataPlaneInput }.
Record GetClusterMDOutput := { NumberOfVNs : Z }.

Record GetContainerContentsInput := {
  gcc_dpi : DataPlaneInput;
  gcc_Path : string;
  GetAllAttributes : bool;
  DirectoriesOnly : bool;
  gcc_Limit : Z;
  gcc_Marker : string
}.

Record Content := {
  Key : string;
  Size : option Z;
  LastSequenceID : option Z;
  LastModified : string;
  Mode : string
}.

Record CommonPrefix := { Prefix : string; cp_Mode : string }.

Record GetContainerContentsOutput := {
  Name : string;
  gcc_NextMarker : string;
  MaxKeys : string;
  Contents : list Content;
  CommonPrefixes : list CommonPrefix;
  IsTruncated : bool
}.

Record GetContainersInput := { gc_dpi : DataPlaneInput }.
Record ContainerInfo := { ci_Name : string; CreationDate : string; ci_ID : Z }.
Record GetContainersOutput := { Results : list ContainerInfo }.

Record GetObjectInput := {
  go_dpi : DataPlaneInput;
  go_Path : string;
  go_Offset : Z;
  NumBytes : Z;
  CtimeSec : Z;
  CtimeNsec : Z
}.

Record PutObjectInput := {
  po_dpi : DataPlaneInput;
  po_Path : string;
  po_Offset : Z;
  po_Body : bytes;
  Append : bool
}.

Record DeleteObjectInput := { do_dpi : DataPlaneInput; do_Path : string }.

Record DirAttributes := {
  da_Mode : Z; da_UID : Z; da_GID : Z;
  AtimeSec : Z; AtimeNSec : Z;
  da_CtimeSec : Z; da_CtimeNSec : Z;
  da_MtimeSec : Z; da_MtimeNSec : Z
}.

Record UpdateObjectInput := {
  uo_dpi : DataPlaneInput;
  uo_Path : string;
  uo_DirAttributes : option DirAttributes
}.

Record PutItemInput := {
  pi_dpi : DataPlaneInput;
  pi_Path : string;
  pi_Condition : string;
  pi_Attributes : Item;
  pi_UpdateMode : string
}.

Record PutItemOutput := { pi_MtimeSecs : Z; pi_MtimeNSecs : Z }.

Record PutItemsInput := {
  pis_dpi : DataPlaneInput;
  pis_Path : string;
  pis_Condition : string;
  Items : gmap string Item
}.

Record PutItemsOutput := { Success : bool; Errors : option (gmap string error) }.

(** [Attributes] is [None] for a nil map, [Expression] for a nil pointer. *)
Record UpdateItemInput := {
  ui_dpi : DataPlaneInput;
  ui_Path : string;
  ui_Attributes : option Item;
  ui_Expression : option string;
  ui_Condition : string;
  ui_UpdateMode : string
}.

Record UpdateItemOutput := { ui_MtimeSecs : Z; ui_MtimeNSecs : Z }.

Record GetItemInput := {
  gi_dpi : DataPlaneInput;
  gi_Path : string;
  gi_AttributeNames : list string
}.

Record GetItemOutput := { gio_Item : Item }.

(** [GetItemsInput]; the fields this file does not read ([ReturnAllInodes],
    [ChokeGetItemsMS], [Logger], [RetryAttempts], [RetryInterval]) are left
    out. *)
Record GetItemsInput := {
  gis_dpi : DataPlaneInput;
  gis_Path : string;
  TableName : string;
  AttributeNames : list string;
  Filter : string;
  gis_Marker : string;
  ShardingKey : string;
  gis_Limit : Z;
  Segment : Z;
  TotalSegments : Z;
  SortKeyRangeStart : string;
  SortKeyRangeEnd : string;
  AllowObjectScatter : string;
  ReturnData : string;
  DataMaxSize : Z;
  RequestJSONResponse : bool
}.

Record GetItemsOutput := {
  Last : bool;
  NextMarker : string;
  Scattered : bool;
  gio_Items : list Item
}.

Record StreamRecord := {
  sr_ShardID : option Z;
  sr_Data : bytes;
  sr_ClientInfo : option bytes;
  sr_PartitionKey : string;
  sr_SequenceNumber : Z
}.

Record CreateStreamInput := {
  cs_dpi : DataPlaneInput;
  cs_Path : string;
  cs_ShardCount : Z;
  cs_RetentionPeriodHours : Z
}.

Record CheckPathExistsInput := { cpe_dpi : DataPlaneInput; cpe_Path : string }.
Record DescribeStreamInput := { ds_dpi : DataPlaneInput; ds_Path : string }.
Record DescribeStreamOutput := { ShardCount : Z; RetentionPeriodHours : Z }.
Record DeleteStreamInput := { dls_dpi : DataPlaneInput; dls_Path : string }.

Record PutRecordsInput := {
  pr_dpi : DataPlaneInput;
  pr_Path : string;
  Records : list StreamRecord
}.

Record PutRecordResult := {
  prr_SequenceNumber : Z; prr_ShardID : Z; ErrorCode : Z; ErrorMessage : string
}.

Record PutRecordsOutput := {
  FailedRecordCount : Z;
  pro_Records : list PutRecordResult
}.

(** [PutChunkInput]: the chunk itself is marshalled as a whole. *)
Record PutChunkInput := {
  pc_dpi : DataPlaneInput;
  pc_Path : string;
  ChunkSeqNumber : Z;
  pc_Offset : Z;
  pc_Data : bytes
}.

Record SeekShardInput := {
  ss_dpi : DataPlaneInput;
  ss_Path : string;
  ss_Type : SeekShardInputType;
  StartingSequenceNumber : Z;
  Timestamp : Z
}.

Record SeekShardOutput := { Location : string }.

Record GetRecordsInput := {
  gr_dpi : DataPlaneInput;
  gr_Path : string;
  gr_Location : string;
  gr_Limit : Z
}.

Record GetRecordsResult := {
  ArrivalTimeSec : Z; ArrivalTimeNSec : Z; grr_SequenceNumber : Z;
  grr_ClientInfo : bytes; grr_PartitionKey : string; grr_Data : bytes
}.

Record GetRecordsOutput := {
  NextLocation : string;
  MSecBehindLatest : Z;
  RecordsBehindLatest : Z;
  gro_Records : list GetRecordsResult
}.

Record PutOOSObjectInput := {
  oos_dpi : DataPlaneInput;
  oos_Path : string;
  oos_Header : bytes;
  oos_Data : list bytes
}.

(** What [Response.Output] can hold. [OutGetItemsNil] is the nil
    [*GetItemsOutput] that [parseGetItemsResponse] stores after an error: an
    [Output] that is not nil, and holds no output. *)
Inductive Output : Type :=
| OutGetClusterMD (o : GetClusterMDOutput)
| OutGetContainers (o : GetContainersOutput)
| OutGetContainerContents (o : GetContainerContentsOutput)
| OutGetItem (o : GetItemOutput)
| OutGetItems (o : GetItemsOutput)
| OutGetItemsNil
| OutPutItem (o : PutItemOutput)
| OutPutItems (o : PutItemsOutput)
| OutUpdateItem (o : UpdateItemOutput)
| OutDescribeStream (o : DescribeStreamOutput)
| OutSeekShard (o : SeekShardOutput)
| OutPutRecords (o : PutRecordsOutput)
| OutGetRecords (o : GetRecordsOutput).

(** [v3io.Response]. [HTTPResponse] is [None] in the zero value. *)
Record Response := {
  resp_Output : option Output;
  resp_Context : option Value;
  resp_Error : option error;
  HTTPResponse : option HttpResponse;
  resp_ID : Z
}.

Definition zeroResponse : Response :=
  {| resp_Output := None; resp_Context := None; resp_Error := None;
     HTTPResponse := None; resp_ID := 0 |}.

(** What [Request.Input] can hold: a pointer to one of the input structs.
    [InOther] stands for a value of any other type. *)
Inductive Input : Type :=
| InPutObject (i : PutObjectInput)
| InGetObject (i : GetObjectInput)
| InDeleteObject (i : DeleteObjectInput)
| InUpdateObject (i : UpdateObjectInput)
| InGetItem (i : GetItemInput)
| InGetItems (i : GetItemsInput)
| InPutItem (i : PutItemInput)
| InPutItems (i : PutItemsInput)
| InUpdateItem (i : UpdateItemInput)
| InCreateStream (i : CreateStreamInput)
| InDescribeStream (i : DescribeStreamInput)
| InDeleteStream (i : DeleteStreamInput)
| InGetRecords (i : GetRecordsInput)
| InPutRecords (i : PutRecordsInput)
| InPutChunk (i : PutChunkInput)
| InSeekShard (i : SeekShardInput)
| InGetContainers (i : GetContainersInput)
| InGetContainerContents (i : GetContainerContentsInput)
| InGetClusterMD (i : GetClusterMDInput)
| InCheckPathExists (i : CheckPathExistsInput)
| InPutOOSObject (i : PutOOSObjectInput)
| InOther (type : string).

(** [v3io.Request]; the response channel is named by a number. *)
Record Request := {
  req_ID : Z;
  req_Input : Input;
  req_Context : option Value;
  ResponseChan : N;
  SendTimeNanoseconds : Z
}.

(** ** [http/context.go]: the transport and the state of the client *)

(** A parsed URL ([net/url.URL]), by the fields the code sets. *)
Record Uri := { Endpoint : string; uri_Path : string; RawQuery : string }.

(** A [fasthttp.Request] as the client fills it in. [req_Timeout] is [None]
    for [Do] and the time allowed for [DoTimeout]. *)
Record HttpRequest := {
  RequestURI : Uri;
  Method : string;
  req_Body : bytes;
  req_Header : list (string * string);
  req_Timeout : option Z
}.

(** What one call of [httpClient.Do] gives: a filled response or an error. *)
Inductive TransportResult : Type :=
| Answered (r : HttpResponse)
| Failed (e : error).

(** The state the client runs in. [transport n r] is the outcome of the
    round trip number [n] (from 0) when it carries the request [r];
    [roundTrips] lists the requests sent so far, oldest first. [acquired] and
    [released] count the responses taken from and given back to the pool.
    The request channel is a queue (its capacity is not modelled), the
    response channels are queues named by numbers. *)
Record World := {
  transport : nat -> HttpRequest -> TransportResult;
  roundTrips : list HttpRequest;
  acquired : nat;
  released : nat;
  logged : list string;
  requestID : Z;
  requestChan : list Request;
  responseChans : gmap N (list Response)
}.

(** A computation on the state that returns a value or panics ([None]). *)
Definition M (A : Type) : Type := World -> option A * World.

Definition ret {A} (a : A) : M A := fun w => (Some a, w).

Definition bind {A B} (m : M A) (k : A -> M B) : M B :=
  fun w => match m w with
           | (Some a, w') => k a w'
           | (None, w') => (None, w')
           end.

Definition panic {A} : M A := fun w => (None, w).

Notation "x <- m ;; k" := (bind m (fun x => k))
  (at level 100, m at next level, right associativity).
Notation "m ;;; k" := (bind m (fun _ => k))
  (at level 100, right associativity).

Fixpoint foldM {A B} (f : B -> A -> M B) (l : list A) (b : B) : M B :=
  match l with
  | [] => ret b
  | a :: l' => b' <- f b a ;; foldM f l' b'
  end.

(** The state after further round trips. *)
Definition sent (w : World) (requests : list HttpRequest) : World :=
  {| transport := transport w;
     roundTrips := roundTrips w ++ requests;
     acquired := acquired w; released := released w;
     logged := logged w; requestID := requestID w;
     requestChan := requestChan w; responseChans := responseChans w |}.

(** One call of [httpClient.Do] / [DoTimeout]. *)
Definition roundTrip (request : HttpRequest) : M TransportResult :=
  fun w => (Some (transport w (length (roundTrips w)) request), sent w [request]).

(** [fasthttp.AcquireResponse()] inside [allocateResponse] *)
Definition acquireResponse : M unit :=
  fun w =>
    (Some tt,
     {| transport := transport w; roundTrips := roundTrips w;
        acquired := S (acquired w); released := released w;
        logged := logged w; requestID := requestID w;
        requestChan := requestChan w; responseChans := responseChans w |}).

(** [response.Release()] *)
Definition release : M unit :=
  fun w =>
    (Some tt,
     {| transport := transport w; roundTrips := roundTrips w;
        acquired := acquired w; released := S (released w);
        logged := logged w; requestID := requestID w;
        requestChan := requestChan w; responseChans := responseChans w |}).

(** A call of the logger. *)
Definition log (message : string) : M unit :=
  fun w =>
    (Some tt,
     {| transport := transport w; roundTrips := roundTrips w;
        acquired := acquired w; released := released w;
        logged := logged w ++ [message]; requestID := requestID w;
        requestChan := requestChan w; responseChans := responseChans w |}).

(** [allocateResponse()] *)
Definition allocateResponse : M Response :=
  acquireResponse ;;;
  ret {| resp_Output := None; resp_Context := None; resp_Error := None;
         HTTPResponse := Some emptyHttpResponse; resp_ID := 0 |}.

Definition setOutput (r : Response) (o : Output) : Response :=
  {| resp_Output := Some o; resp_Context := resp_Context r;
     resp_Error := resp_Error r; HTTPResponse := HTTPResponse r;
     resp_ID := resp_ID r |}.

(** [response.Body()] and [response.HeaderPeek(key)]: a nil response or a
    response without HTTP part makes them panic. *)
Definition ResponseBody (r : option Response) : M bytes :=
  match r with
  | Some {| HTTPResponse := Some h |} => ret (Body h)
  | _ => panic
  end.

Definition ResponseHeaderPeek (r : option Response) (key : string) : M string :=
  match r with
  | Some {| HTTPResponse := Some h |} => ret (HeaderPeek h key)
  | _ => panic
  end.

Definition is_ErrConnectionClosed (r : TransportResult) : bool :=
  match r with
  | Failed ErrConnectionClosed => true
  | _ => false
  end.

(** The loop [for i := 0; i < 8; i++] of [sendRequest], [attempts] iterations
    left: the same request is sent again as long as the transport answers
    [ErrConnectionClosed]. [last] is what the variables [err] and
    [response.HTTPResponse] hold. *)
Fixpoint retryLoop (attempts : nat) (request : HttpRequest) (last : TransportResult)
  : M TransportResult :=
  match attempts with
  | O => ret last
  | S attempts' =>
      r <- roundTrip request ;;
      if is_ErrConnectionClosed r then retryLoop attempts' request r
      else ret r
  end.

(** [trimAndParseInt(str)] *)
Definition trimAndParseInt (str : string) : Z * option strconv.NumError :=
  strconv.Atoi (strings.TrimSpace str).

(** The body of the loop of [parseMtimeHeader] on one expression; [acc] holds
    [mtimeSecs] and [mtimeNSecs]. [mtimeParts[1]] panics when the expression
    has no [==]. *)
Definition parseMtimeExpression (acc : Z * Z) (expression : string)
  : Res error (Z * Z) :=
  match strings.Split expression "==" with
  | [] => Panic
  | part0 :: rest =>
      let mtimeType := strings.TrimSpace part0 in
      if bool_decide (mtimeType = "__mtime_secs") then
        match rest with
        | [] => Panic
        | part1 :: _ =>
            match trimAndParseInt part1 with
            | (mtimeSecs, None) => Ok (mtimeSecs, snd acc)
            | (_, Some e) => Err (ErrNum e)
            end
        end
      else if bool_decide (mtimeType = "__mtime_nsecs") then
        match rest with
        | [] => Panic
        | part1 :: _ =>
            match trimAndParseInt part1 with
            | (mtimeNSecs, None) => Ok (fst acc, mtimeNSecs)
            | (_, Some e) => Err (ErrNum e)
            end
        end
      else Err (ErrMtimeSymbol mtimeType)
  end.

(** The loop of [parseMtimeHeader] over the expressions; an error or a panic
    ends it. *)
Definition parseMtimeLoop (expressions : list string) (acc : Res error (Z * Z))
  : Res error (Z * Z) :=
  fold_left
    (fun acc expression =>
       match acc with
       | Ok vars => parseMtimeExpression vars expression
       | _ => acc
       end)
    expressions acc.

(** [parseMtimeHeader] on the value of the header
    [X-v3io-transaction-verifier]. *)
Definition parseMtimeHeaderValue (mtimeHeader : string) : Res error (Z * Z) :=
  parseMtimeLoop (strings.Split mtimeHeader "and") (Ok (0, 0)).

(** The literal shape of the header,
    [__mtime_secs==<n> and __mtime_nsecs==<n>], whatever stands for [<n>]. *)
Definition mtime_literal_shape (mtimeHeader : string) : Prop :=
  exists a b : string,
    mtimeHeader = "__mtime_secs==" +:+ a +:+ " and __mtime_nsecs==" +:+ b.

Definition mtime_key (part : string) : Prop :=
  strings.TrimSpace part = "__mtime_secs" \/ strings.TrimSpace part = "__mtime_nsecs".

(** An expression the loop accepts: cut at [==] it has two parts or more, the
    first a known key and the second an integer, white space apart. *)
Definition mtime_expression_ok (expression : string) : Prop :=
  exists key value rest,
    strings.Split expression "==" = key :: value :: rest
    /\ mtime_key key
    /\ snd (trimAndParseInt value) = None.

(** An expression that is a known key and nothing else. *)
Definition mtime_expression_bare (expression : string) : Prop :=
  exists key, strings.Split expression "==" = [key] /\ mtime_key key.

(** [parseMtimeHeader(response)] *)
Definition parseMtimeHeader (response : option Response)
  : M (Z * Z * option error) :=
  mtimeHeader <- ResponseHeaderPeek response "X-v3io-transaction-verifier" ;;
  match parseMtimeHeaderValue mtimeHeader with
  | Ok (mtimeSecs, mtimeNSecs) => ret (mtimeSecs, mtimeNSecs, None)
  | Err e => ret (0, 0, Some e)
  | Panic => panic
  end.

(** What the bodies marshalled by [json.Marshal] hold. *)
Inductive BodyValue : Type :=
| BString (s : string)
| BInt (n : Z)
| BTypedItem (t : TypedItem).

(** The struct [getItemsParseJSONResponse] unmarshals into. *)
Record GetItemsResponse := {
  gir_Items : list TypedItem;
  gir_NextMarker : string;
  LastItemIncluded : string;
  gir_Scattered : string
}.

(** The double quote, and a string between double quotes. *)
Definition dq : string := String (ascii_of_N 34) "".
Definition quoted (s : string) : string := dq +:+ s +:+ dq.

(** ** [http/context.go]: the binary framed (capnp) response of [GetItems] *)

(** The union [ExtAttrValue] by its tag [Which()]; the accessors that can
    fail hold an option. *)
Inductive ExtAttrValue : Type :=
| Which_qword (v : Z)
| Which_uqword (v : Z)
| Which_blob (v : option bytes)
| Which_str (v : option string)
| Which_dfloat (v : float)
| Which_boolean (v : bool)
| Which_time (v : option (Z * Z))
| Which_notExists
| Which_other (name : string).

(** A list of value pointers: [At(i).Value()] can fail. *)
Abbreviation ValueList := (list (option ExtAttrValue)).

(** An item of the metadata payload: its name, and per attribute the pair
    [(KeyMapIndex, ValueMapIndex)]. *)
Record CapnpItem := {
  item_Name : option string;
  item_Attrs : option (list (Z * Z))
}.

(** The metadata payload; a chain of accessors that failed is the name of
    the accessor ([inl]). *)
Record MetadataPayload := {
  md_KeyNames : string + list (option string);
  md_Values : string + ValueList;
  md_Items : option (list (option CapnpItem))
}.

(** A decoded [capnp.Message], read as a metadata payload or as a data
    payload. *)
Record CapnpMessage := {
  asMetadataPayload : option MetadataPayload;
  asDataPayload : option (string + ValueList)
}.

Record attributeValuesSection := {
  accumulatedPreviousSectionsLength : Z;
  data : ValueList
}.

(** The loop of [getSectionAndIndex] from index [i], [prev] being
    [values[i-1]]. *)
Fixpoint getSectionAndIndex_loop (i : Z) (prev : attributeValuesSection)
    (rest : list attributeValuesSection) (idx : Z) : Z * Z :=
  match rest with
  | [] => (0, idx)
  | v :: rest' =>
      if idx <? accumulatedPreviousSectionsLength v
      then (i, idx - accumulatedPreviousSectionsLength prev)
      else getSectionAndIndex_loop (i + 1) v rest' idx
  end.

(** [getSectionAndIndex(values, idx)]; [values[0]] of no section panics. *)
Definition getSectionAndIndex (values : list attributeValuesSection) (idx : Z)
  : option (Z * Z) :=
  match values with
  | [] => None
  | [_] => Some (0, idx)
  | v0 :: rest =>
      if idx <? accumulatedPreviousSectionsLength v0 then Some (0, idx)
      else Some (getSectionAndIndex_loop 1 v0 rest idx)
  end.

(** Indexing a slice with an [int]: out of range panics. *)
Definition index {A} (l : list A) (i : Z) : option A :=
  if i <? 0 then None else l !! Z.to_nat i.

(** One iteration of the loop of [decodeCapnpAttributes]. The attributes
    decoded so far, which the code returns beside an error, are not kept:
    [getItemsParseCAPNPResponse] drops them. *)
Definition decodeCapnpAttribute (values : list attributeValuesSection)
    (attributeNames : list string) (attributes : Item) (attrPtr : Z * Z)
  : Res error Item :=
  let valIdx := wrap_int64 (snd attrPtr) in
  let attrIdx := wrap_int64 (fst attrPtr) in
  match index attributeNames attrIdx with
  | None => Panic
  | Some attributeName =>
      match getSectionAndIndex values valIdx with
      | None => Panic
      | Some (sectIdx, valIdx) =>
          match index values sectIdx with
          | None => Panic
          | Some section =>
              match index (data section) valIdx with
              | None => Panic
              | Some None => Err (ErrCapnpValue sectIdx valIdx)
              | Some (Some value) =>
                  match value with
                  | Which_qword v => Ok (<[attributeName := VInt v]> attributes)
                  | Which_uqword v =>
                      Ok (<[attributeName := VInt (wrap_int64 v)]> attributes)
                  | Which_blob (Some b) => Ok (<[attributeName := VBytes b]> attributes)
                  | Which_blob None => Err (ErrCapnp "Blob")
                  | Which_str (Some str) => Ok (<[attributeName := VString str]> attributes)
                  | Which_str None => Err (ErrCapnp "Str")
                  | Which_dfloat f => Ok (<[attributeName := VFloat64 f]> attributes)
                  | Which_boolean b => Ok (<[attributeName := VBool b]> attributes)
                  | Which_time (Some (sec, nsec)) =>
                      Ok (<[attributeName := VTime (time.Unix sec nsec)]> attributes)
                  | Which_time None => Err (ErrCapnp "Time")
                  | Which_notExists => Ok attributes
                  | Which_other name => Err (ErrCapnp name)
                  end
              end
          end
      end
  end.

(** [decodeCapnpAttributes(keyValues, values, attributeNames)] *)
Definition decodeCapnpAttributes (keyValues : list (Z * Z))
    (values : list attributeValuesSection) (attributeNames : list string)
  : Res error Item :=
  fold_left
    (fun acc attrPtr =>
       match acc with
       | Ok attributes => decodeCapnpAttribute values attributeNames attributes attrPtr
       | _ => acc
       end)
    keyValues (Ok ∅).

(** The value sections of the data payloads between the first section and
    the metadata: each holds the number of values up to and with its own. *)
Fixpoint dataSections (accLength : Z) (sections : list CapnpMessage)
  : Res error (Z * list attributeValuesSection) :=
  match sections with
  | [] => Ok (accLength, [])
  | section :: rest =>
      match asDataPayload section with
      | None => Err (ErrCapnp "ReadRootVnObjectItemsGetResponseDataPayload")
      | Some (inl accessor) => Err (ErrCapnp accessor)
      | Some (inr dv) =>
          let accLength := accLength + Z.of_nat (length dv) in
          match dataSections accLength rest with
          | Ok (total, more) =>
              Ok (total, {| accumulatedPreviousSectionsLength := accLength;
                            data := dv |} :: more)
          | Err e => Err e
          | Panic => Panic
          end
      end
  end.

(** The loop that reads the attribute names. *)
Fixpoint readAttributeNames (attributeNamesPtr : list (option string))
  : Res error (list string) :=
  match attributeNamesPtr with
  | [] => Ok []
  | None :: _ => Err (ErrCapnp "attributeNamesPtr.At.Str")
  | Some name :: rest =>
      match readAttributeNames rest with
      | Ok names => Ok (name :: names)
      | other => other
      end
  end.

(** One iteration of the loop over the items of [getItemsParseCAPNPResponse]. *)
Definition decodeCapnpItem (valuesSections : list attributeValuesSection)
    (attributeNames : list string) (withWildcard : bool)
    (itemPtr : option CapnpItem) : Res error Item :=
  match itemPtr with
  | None => Err (ErrCapnp "itemPtr.Item")
  | Some item =>
      match item_Attrs item with
      | None => Err (ErrCapnp "item.Attrs")
      | Some itemAttributes =>
          match decodeCapnpAttributes itemAttributes valuesSections attributeNames with
          | Ok ditem =>
              if withWildcard then
                match item_Name item with
                | None => Err (ErrCapnp "item.Name")
                | Some name => Ok (<["__name" := VString name]> ditem)
                end
              else Ok ditem
          | Err e => Err e
          | Panic => Panic
          end
      end
  end.

Fixpoint decodeCapnpItems (valuesSections : list attributeValuesSection)
    (attributeNames : list string) (withWildcard : bool)
    (items : list (option CapnpItem)) : Res error (list Item) :=
  match items with
  | [] => Ok []
  | itemPtr :: rest =>
      match decodeCapnpItem valuesSections attributeNames withWildcard itemPtr with
      | Ok ditem =>
          match decodeCapnpItems valuesSections attributeNames withWildcard rest with
          | Ok ditems => Ok (ditem :: ditems)
          | other => other
          end
      | Err e => Err e
      | Panic => Panic
      end
  end.

(** A decoded item holds under [__name] the name of the item it was decoded
    from. *)
Definition carries_name (itemPtr : option CapnpItem) (ditem : Item) : Prop :=
  exists item name,
    itemPtr = Some item /\ item_Name item = Some name
    /\ ditem !! "__name" = Some (VString name).

(** [getItemsParseCAPNPResponse(response, withWildcard)] on the sections read
    from the body and the two headers it looks at. *)
Definition getItemsParseCAPNPSections (capnpSections : list CapnpMessage)
    (cookie scattered : string) (withWildcard : bool) : Res error GetItemsOutput :=
  if Z.of_nat (length capnpSections) <? 2 then Err (ErrCapnp "sections")
  else
    match List.last (map asMetadataPayload capnpSections) None with
    | None => Err (ErrCapnp "ReadRootVnObjectItemsGetResponseMetadataPayload")
    | Some metadataPayload =>
        match md_KeyNames metadataPayload with
        | inl accessor => Err (ErrCapnp accessor)
        | inr attributeNamesPtr =>
        match md_Values metadataPayload with
        | inl accessor => Err (ErrCapnp accessor)
        | inr values =>
        match md_Items metadataPayload with
        | None => Err (ErrCapnp "metadataPayload.Items")
        | Some items =>
        match dataSections 0 (tail (removelast capnpSections)) with
        | Err e => Err e
        | Panic => Panic
        | Ok (accLength, sections) =>
        let valuesSections :=
          (sections ++ [{| accumulatedPreviousSectionsLength :=
                             accLength + Z.of_nat (length values);
                           data := values |}])%list in
        match readAttributeNames attributeNamesPtr with
        | Err e => Err e
        | Panic => Panic
        | Ok attributeNames =>
        match decodeCapnpItems valuesSections attributeNames withWildcard items with
        | Err e => Err e
        | Panic => Panic
        | Ok ditems =>
            Ok {| Last := bool_decide (String.length cookie = 0%nat);
                  NextMarker := cookie;
                  Scattered := bool_decide (scattered = "TRUE");
                  gio_Items := ditems |}
        end end end end end end
    end.

(** ** What lies outside this file

    The functions of other packages and the tables of [headers.go] the code
    uses, without a model of their own here. *)
Class External := {
  (** [net/url.Parse] *)
  url_Parse : string -> option Uri;
  (** [url.QueryEscape] *)
  url_QueryEscape : string -> string;
  (** [strconv.FormatFloat(f, 'E', -1, 64)] and [strconv.ParseFloat(s, 64)] *)
  FormatFloat : float -> string;
  ParseFloat : string -> option float;
  (** [json.Marshal] of a request body, of [DirAttributes] and of a
      [PutChunkInput]; [None] when it returns an error *)
  json_Marshal : gmap string BodyValue -> option bytes;
  json_Marshal_DirAttributes : option DirAttributes -> option bytes;
  json_Marshal_PutChunkInput : PutChunkInput -> option bytes;
  (** [json.Unmarshal] and [xml.Unmarshal] into the struct an [Output] holds,
      into the item of [GetItem] and into the response of [GetItems] *)
  json_Unmarshal : bytes -> Output -> Output * option error;
  xml_Unmarshal : bytes -> Output -> Output * option error;
  json_Unmarshal_Item : bytes -> TypedItem * option error;
  json_Unmarshal_GetItemsResponse : bytes -> GetItemsResponse * option error;
  (** [readAllCapnpMessages]: the frames of a body, up to the first framing
      error *)
  readAllCapnpMessages : bytes -> list CapnpMessage;
  (** [time.Now().UnixNano()] *)
  time_Now_UnixNano : World -> Z;
  (** the header tables and names of [headers.go] *)
  getClusterMDHeaders : gmap string string;
  getItemHeaders : gmap string string;
  getItemsHeaders : gmap string string;
  getItemsHeadersCapnp : gmap string string;
  putItemHeaders : gmap string string;
  updateItemHeaders : gmap string string;
  createStreamHeaders : gmap string string;
  describeStreamHeaders : gmap string string;
  seekShardsHeaders : gmap string string;
  putRecordsHeaders : gmap string string;
  putChunkHeaders : gmap string string;
  getRecordsHeaders : gmap string string;
  putOOSObjectHeaders : gmap string string;
  putItemFunctionName : string;
  updateItemFunctionName : string;
  seekShardsInputTypeToString : SeekShardInputType -> string
}.

(** The path [buildRequestURI] gives the URI: the container and the path of
    the request joined and cleaned, the trailing slash of the path kept. *)
Definition requestPath (containerName pathStr : string) : string :=
  let p := path.Clean (path.Join ["/"; containerName; pathStr]) in
  if strings.HasSuffix pathStr "/" then p +:+ "/" else p.

(** The path of the last deletion of [DeleteStreamSync]. *)
Definition deleteStreamPath (streamPath : string) : string :=
  "/" +:+ path.Dir streamPath +:+ "/".

(** The elements of a path that [path.Clean] keeps when none is [..]: the
    ones that are neither empty nor [.]. *)
Definition kept (elems : list string) : list string :=
  List.filter (fun elem => negb (bool_decide (elem = "") || bool_decide (elem = ".")))
              elems.

(** What [path.Clean] has on its stack, the last element first, after the
    elements of the container and of the path of a request. *)
Definition stack_of (containerName pathStr : string) : list string :=
  fold_left (path.clean_step true) (strings.Split pathStr "/")
            (fold_left (path.clean_step true) (strings.Split containerName "/") []).

(** A path none of whose elements is [..]. *)
Definition no_dotdot (p : string) : Prop :=
  Forall (fun elem => elem <> "..") (strings.Split p "/").

(** A name that can be an element of a cleaned path. *)
Definition plain_name (name : string) : Prop :=
  name <> "" /\ name <> "." /\ name <> ".."
  /\ strings.ContainsByte name "/" = false.

(** The last error of a run of operations, when one of them failed. *)
Fixpoint last_error (errs : list (option error)) : option error :=
  match errs with
  | [] => None
  | err :: rest =>
      match last_error rest with
      | Some e => Some e
      | None => err
      end
  end.

Section Dataplane.

Context `{External}.

(** [buildRequestURI(urlString, containerName, query, pathStr)] *)
Definition buildRequestURI (urlString containerName query pathStr : string)
  : Res error Uri :=
  match url_Parse urlString with
  | None => Err (ErrParseURL urlString)
  | Some uri =>
      Ok {| Endpoint := Endpoint uri;
            uri_Path := requestPath containerName pathStr;
            RawQuery := strings.ReplaceByte query " " "%20" |}
  end.

(** The request [sendRequest] fills in: the URI, the method and the body,
    the authorization headers when the input has them, then the headers of
    the operation. *)
Definition initRequest (dataPlaneInput : DataPlaneInput) (method : string)
    (uri : Uri) (headers : gmap string string) (body : bytes) : HttpRequest :=
  {| RequestURI := uri;
     Method := method;
     req_Body := body;
     req_Header :=
       (if 0 <? strings.len (AuthenticationToken dataPlaneInput)
        then [("Authorization", AuthenticationToken dataPlaneInput)]
        else [])
       ++ (if 0 <? strings.len (AccessKey dataPlaneInput)
           then [("X-v3io-session-key", AccessKey dataPlaneInput)]
           else [])
       ++ map_to_list headers;
     req_Timeout :=
       if Timeout dataPlaneInput <=? 0 then None
       else Some (Timeout dataPlaneInput) |}.

(** The label [cleanup] of [sendRequest] when [err] is set. *)
Definition cleanupWithError (dataPlaneInput : DataPlaneInput) (err : error)
  : M (option Response * option error) :=
  (if IncludeResponseInError dataPlaneInput then ret tt else release) ;;;
  ret (None, Some err).

(** [sendRequest(dataPlaneInput, method, path, query, headers, body,
    releaseResponse)]. The connection semaphore, when there is one, is
    acquired before the loop and released after it; with one caller its
    [Acquire] does not fail, and it is not part of the state. *)
Definition sendRequest (dataPlaneInput : DataPlaneInput)
    (method path query : string) (headers : gmap string string)
    (body : bytes) (releaseResponse : bool)
  : M (option Response * option error) :=
  if bool_decide (ContainerName dataPlaneInput = "") then
    ret (None, Some ErrContainerNameEmpty)
  else
    response <- allocateResponse ;;
    match buildRequestURI (URL dataPlaneInput) (ContainerName dataPlaneInput)
                          query path with
    | Err e => ret (None, Some e)
    | Panic => panic
    | Ok uri =>
        let request := initRequest dataPlaneInput method uri headers body in
        r <- retryLoop 8 request (Answered emptyHttpResponse) ;;
        match r with
        | Failed err => cleanupWithError dataPlaneInput err
        | Answered http =>
            let statusCode := StatusCode http in
            let success := (200 <=? statusCode) && (statusCode <? 300) in
            if negb success then
              cleanupWithError dataPlaneInput
                (if IncludeResponseInError dataPlaneInput
                 then ErrStatusCodeAndResponse statusCode http
                 else ErrStatusCode statusCode)
            else if releaseResponse then
              release ;;; ret (None, None)
            else
              ret (Some {| resp_Output := None; resp_Context := None;
                           resp_Error := None; HTTPResponse := Some http;
                           resp_ID := 0 |}, None)
        end
    end.

(** [extractResponseFromError(dataPlaneInput, err)]. In Go the response
    returned is the one the error points to. *)
Definition extractResponseFromError (dataPlaneInput : DataPlaneInput)
    (err : error) : option Response :=
  if negb (IncludeResponseInError dataPlaneInput) then None
  else match err with
       | ErrStatusCodeAndResponse _ http =>
           Some {| resp_Output := None; resp_Context := None;
                   resp_Error := None; HTTPResponse := Some http;
                   resp_ID := 0 |}
       | _ => None
       end.

Definition bytes_of (s : string) : bytes := list_byte_of_string s.

(** *** Containers *)

(** [sendRequestAndXMLUnmarshal] *)
Definition sendRequestAndXMLUnmarshal (dataPlaneInput : DataPlaneInput)
    (method path query : string) (headers : gmap string string)
    (body : bytes) (output : Output) : M (option Response * option error) :=
  r <- sendRequest dataPlaneInput method path query headers body false ;;
  match r with
  | (_, Some err) =>
      match extractResponseFromError dataPlaneInput err with
      | Some response =>
          b <- ResponseBody (Some response) ;;
          ret (Some (setOutput response (fst (xml_Unmarshal b output))), Some err)
      | None => ret (None, Some err)
      end
  | (response, None) =>
      b <- ResponseBody response ;;
      match xml_Unmarshal b output, response with
      | (_, Some err), _ => release ;;; ret (None, Some err)
      | (output', None), Some response => ret (Some (setOutput response output'), None)
      | (_, None), None => panic
      end
  end.

(** [GetContainersSync] *)
Definition GetContainersSync (getContainersInput : GetContainersInput)
  : M (option Response * option error) :=
  sendRequestAndXMLUnmarshal (gc_dpi getContainersInput) "GET" "" "" ∅ []
    (OutGetContainers {| Results := [] |}).

(** The tail shared by the operations that unmarshal a JSON body into their
    output: on an error of the request or of the decoding, no response. *)
Definition unmarshalOutput (r : option Response * option error) (zero : Output)
  : M (option Response * option error) :=
  match r with
  | (_, Some err) => ret (None, Some err)
  | (response, None) =>
      b <- ResponseBody response ;;
      match json_Unmarshal b zero, response with
      | (_, Some err), _ => ret (None, Some err)
      | (output, None), Some response => ret (Some (setOutput response output), None)
      | (_, None), None => panic
      end
  end.

(** [GetClusterMDSync] *)
Definition GetClusterMDSync (getClusterMDInput : GetClusterMDInput)
  : M (option Response * option error) :=
  r <- sendRequest (gcmd_dpi getClusterMDInput) "PUT" "" "" getClusterMDHeaders
         [] false ;;
  unmarshalOutput r (OutGetClusterMD {| NumberOfVNs := 0 |}).

(** [GetContainerContentsSync] *)
Definition GetContainerContentsSync
    (getContainerContentsInput : GetContainerContentsInput)
  : M (option Response * option error) :=
  let query :=
    (if bool_decide (gcc_Path getContainerContentsInput = "") then ""
     else "prefix=" +:+
          strings.ReplaceByte (url_QueryEscape (gcc_Path getContainerContentsInput))
                              "+" "%20")
    +:+ (if DirectoriesOnly getContainerContentsInput then "&prefix-only=1" else "")
    +:+ (if GetAllAttributes getContainerContentsInput then "&prefix-info=1" else "")
    +:+ (if bool_decide (gcc_Marker getContainerContentsInput = "") then ""
         else "&marker=" +:+ gcc_Marker getContainerContentsInput)
    +:+ (if 0 <? gcc_Limit getContainerContentsInput
         then "&max-keys=" +:+ strconv.Itoa (gcc_Limit getContainerContentsInput)
         else "") in
  sendRequestAndXMLUnmarshal (gcc_dpi getContainerContentsInput) "GET" "" query ∅ []
    (OutGetContainerContents
       {| Name := ""; gcc_NextMarker := ""; MaxKeys := ""; Contents := [];
          CommonPrefixes := []; IsTruncated := false |}).

(** *** Items *)

(** [GetItemSync] *)
Definition GetItemSync (getItemInput : GetItemInput)
  : M (option Response * option error) :=
  let body := "{" +:+ quoted "AttributesToGet" +:+ ": "
              +:+ quoted (strings.Join (gi_AttributeNames getItemInput) ",")
              +:+ "}" in
  r <- sendRequest (gi_dpi getItemInput) "PUT" (gi_Path getItemInput) ""
         getItemHeaders (bytes_of body) false ;;
  match r with
  | (_, Some err) => ret (None, Some err)
  | (response, None) =>
      b <- ResponseBody response ;;
      match json_Unmarshal_Item b, response with
      | (_, Some err), _ => ret (None, Some err)
      | (item, None), Some response =>
          match decodeTypedAttributes ParseFloat item with
          | Err err => ret (None, Some err)
          | Panic => panic
          | Ok attributes =>
              ret (Some (setOutput response (OutGetItem {| gio_Item := attributes |})),
                   None)
          end
      | (_, None), None => panic
      end
  end.

(** The loop over the items of [getItemsParseJSONResponse]. *)
Fixpoint decodeTypedItems (items : list TypedItem) : Res error (list Item) :=
  match items with
  | [] => Ok []
  | typedItem :: rest =>
      match decodeTypedAttributes ParseFloat typedItem with
      | Ok item =>
          match decodeTypedItems rest with
          | Ok more => Ok (item :: more)
          | other => other
          end
      | Err e => Err e
      | Panic => Panic
      end
  end.

(** [getItemsParseJSONResponse(response, getItemsInput)] *)
Definition getItemsParseJSONResponse (response : option Response)
    (getItemsInput : GetItemsInput) : M (option Output * option error) :=
  b <- ResponseBody response ;;
  match json_Unmarshal_GetItemsResponse b with
  | (_, Some err) => ret (None, Some err)
  | (getItemsResponse, None) =>
      let lastItemIncluded :=
        default false (strconv.ParseBool (LastItemIncluded getItemsResponse)) in
      let scattered :=
        default false (strconv.ParseBool (gir_Scattered getItemsResponse)) in
      (if negb lastItemIncluded
          && (bool_decide (gir_NextMarker getItemsResponse = "")
              || bool_decide (gir_NextMarker getItemsResponse
                              = gis_Marker getItemsInput))
       then log "Invalid getItems response" else ret tt) ;;;
      match decodeTypedItems (gir_Items getItemsResponse) with
      | Err err => ret (None, Some err)
      | Panic => panic
      | Ok items =>
          ret (Some (OutGetItems
                       {| Last := lastItemIncluded;
                          NextMarker := gir_NextMarker getItemsResponse;
                          Scattered := scattered;
                          gio_Items := items |}), None)
      end
  end.

(** [getItemsParseCAPNPResponse(response, withWildcard)] *)
Definition getItemsParseCAPNPResponse (response : option Response)
    (withWildcard : bool) : M (option Output * option error) :=
  b <- ResponseBody response ;;
  cookie <- ResponseHeaderPeek response "X-v3io-cookie" ;;
  scattered <- ResponseHeaderPeek response "X-v3io-scattered" ;;
  match getItemsParseCAPNPSections (readAllCapnpMessages b) cookie scattered
                                   withWildcard with
  | Ok getItemsOutput => ret (Some (OutGetItems getItemsOutput), None)
  | Err err => ret (None, Some err)
  | Panic => panic
  end.

(** The loop of [parseGetItemsResponse] over the attribute names. *)
Definition withWildcard_of (attributeNames : list string) : bool :=
  existsb (fun attributeName =>
             bool_decide (attributeName = "*") || bool_decide (attributeName = "**"))
          attributeNames.

(** [parseGetItemsResponse(getItemsInput, response)]: the response with its
    output set, and the error. What the parser returned is stored in
    [Output] also after an error: the nil [*GetItemsOutput]. *)
Definition parseGetItemsResponse (getItemsInput : GetItemsInput)
    (response : option Response) : M (option Response * option error) :=
  contentType <- ResponseHeaderPeek response "Content-Type" ;;
  r <- (if negb (bool_decide (contentType = "application/octet-capnp"))
        then getItemsParseJSONResponse response getItemsInput
        else getItemsParseCAPNPResponse response
               (withWildcard_of (AttributeNames getItemsInput))) ;;
  match response with
  | None => panic
  | Some response =>
      ret (Some {| resp_Output := Some (default OutGetItemsNil (fst r));
                   resp_Context := resp_Context response;
                   resp_Error := resp_Error response;
                   HTTPResponse := HTTPResponse response;
                   resp_ID := resp_ID response |}, snd r)
  end.

(** The body of [GetItemsSync]: a key is set when its field is not the zero
    value. *)
Definition getItemsBody (getItemsInput : GetItemsInput) : gmap string BodyValue :=
  let set (cond : bool) (key : string) (v : BodyValue)
          (body : gmap string BodyValue) :=
    if cond then <[key := v]> body else body in
  let nonempty (str : string) := negb (bool_decide (str = "")) in
  set (negb (DataMaxSize getItemsInput =? 0)) "DataMaxSize"
      (BInt (DataMaxSize getItemsInput))
  (set (nonempty (ReturnData getItemsInput)) "ReturnData"
       (BString (ReturnData getItemsInput))
  (set (nonempty (AllowObjectScatter getItemsInput)) "AllowObjectScatter"
       (BString (AllowObjectScatter getItemsInput))
  (set (nonempty (SortKeyRangeEnd getItemsInput)) "SortKeyRangeEnd"
       (BString (SortKeyRangeEnd getItemsInput))
  (set (nonempty (SortKeyRangeStart getItemsInput)) "SortKeyRangeStart"
       (BString (SortKeyRangeStart getItemsInput))
  (set (negb (TotalSegments getItemsInput =? 0)) "Segment"
       (BInt (Segment getItemsInput))
  (set (negb (TotalSegments getItemsInput =? 0)) "TotalSegment"
       (BInt (TotalSegments getItemsInput))
  (set (negb (gis_Limit getItemsInput =? 0)) "Limit"
       (BInt (gis_Limit getItemsInput))
  (set (nonempty (ShardingKey getItemsInput)) "ShardingKey"
       (BString (ShardingKey getItemsInput))
  (set (nonempty (gis_Marker getItemsInput)) "Marker"
       (BString (gis_Marker getItemsInput))
  (set (nonempty (Filter getItemsInput)) "FilterExpression"
       (BString (Filter getItemsInput))
  (set (nonempty (TableName getItemsInput)) "TableName"
       (BString (TableName getItemsInput))
  (set (0 <? Z.of_nat (length (AttributeNames getItemsInput))) "AttributesToGet"
       (BString (strings.Join (AttributeNames getItemsInput) ","))
       ∅)))))))))))).

(** [GetItemsSync] *)
Definition GetItemsSync (getItemsInput : GetItemsInput)
  : M (option Response * option error) :=
  match json_Marshal (getItemsBody getItemsInput) with
  | None => ret (None, Some (ErrMarshal "GetItems"))
  | Some marshalledBody =>
      let commonHeaders :=
        if RequestJSONResponse getItemsInput then getItemsHeaders
        else getItemsHeadersCapnp in
      let headers :=
        if 0 <? strings.len (MtimeSec (gis_dpi getItemsInput)) then
          <["conditional-mtime-nsec" := MtimeNsec (gis_dpi getItemsInput)]>
            (<["conditional-mtime-sec" := MtimeSec (gis_dpi getItemsInput)]>
               commonHeaders)
        else commonHeaders in
      r <- sendRequest (gis_dpi getItemsInput) "PUT" (gis_Path getItemsInput) ""
             headers marshalledBody false ;;
      match r with
      | (_, Some err) =>
          match extractResponseFromError (gis_dpi getItemsInput) err with
          | Some response =>
              parsed <- parseGetItemsResponse getItemsInput (Some response) ;;
              ret (fst parsed, Some err)
          | None => ret (None, Some err)
          end
      | (response, None) => parseGetItemsResponse getItemsInput response
      end
  end.

(** [putItem] *)
Definition putItem (dataPlaneInput : DataPlaneInput) (path functionName : string)
    (attributes : Item) (condition : string) (headers : gmap string string)
    (body : option (gmap string BodyValue))
  : M (option Response * option error) :=
  match encodeTypedAttributes FormatFloat attributes with
  | Err err => ret (None, Some err)
  | Panic => panic
  | Ok typedAttributes =>
      let body := <["Item" := BTypedItem typedAttributes]> (default ∅ body) in
      let body :=
        if negb (bool_decide (condition = ""))
        then <["ConditionExpression" := BString condition]> body else body in
      match json_Marshal body with
      | None => ret (None, Some (ErrMarshal functionName))
      | Some jsonEncodedBodyContents =>
          sendRequest dataPlaneInput "PUT" path "" headers
                      jsonEncodedBodyContents false
      end
  end.

(** [updateItemWithExpression] *)
Definition updateItemWithExpression (dataPlaneInput : DataPlaneInput)
    (path functionName expression condition : string)
    (headers : gmap string string) (updateMode : string)
  : M (option Response * option error) :=
  let body : gmap string BodyValue :=
    {[ "UpdateExpression" := BString expression;
       "UpdateMode" := BString "CreateOrReplaceAttributes" ]} in
  let body :=
    if negb (bool_decide (updateMode = ""))
    then <["UpdateMode" := BString updateMode]> body else body in
  let body :=
    if negb (bool_decide (condition = ""))
    then <["ConditionExpression" := BString condition]> body else body in
  match json_Marshal body with
  | None => ret (None, Some (ErrMarshal functionName))
  | Some jsonEncodedBodyContents =>
      sendRequest dataPlaneInput "POST" path "" headers
                  jsonEncodedBodyContents false
  end.

(** The tail shared by [PutItemSync] and the two branches of
    [UpdateItemSync]: the modification time read from the response header
    becomes the output. *)
Definition withMtimeOutput (r : option Response * option error)
    (mk : Z -> Z -> Output) : M (option Response * option error) :=
  match r with
  | (_, Some err) => ret (None, Some err)
  | (response, None) =>
      m <- parseMtimeHeader response ;;
      match m, response with
      | (_, _, Some err), _ => ret (None, Some err)
      | (mtimeSecs, mtimeNSecs, None), Some response =>
          ret (Some (setOutput response (mk mtimeSecs mtimeNSecs)), None)
      | (_, _, None), None => panic
      end
  end.

(** [PutItemSync] *)
Definition PutItemSync (putItemInput : PutItemInput)
  : M (option Response * option error) :=
  let body : option (gmap string BodyValue) :=
    if negb (bool_decide (pi_UpdateMode putItemInput = ""))
    then Some {[ "UpdateMode" := BString (pi_UpdateMode putItemInput) ]}
    else None in
  r <- putItem (pi_dpi putItemInput) (pi_Path putItemInput) putItemFunctionName
         (pi_Attributes putItemInput) (pi_Condition putItemInput)
         putItemHeaders body ;;
  withMtimeOutput r
    (fun secs nsecs => OutPutItem {| pi_MtimeSecs := secs; pi_MtimeNSecs := nsecs |}).

(** One iteration of the loop of [PutItemsSync]: the response of a
    successful [putItem] is dropped, an error is stored under the key. *)
Definition putItemsStep (putItemsInput : PutItemsInput)
    (putItemsOutput : PutItemsOutput) (entry : string * Item)
  : M PutItemsOutput :=
  let '(itemKey, itemAttributes) := entry in
  r <- putItem (pis_dpi putItemsInput)
         (pis_Path putItemsInput +:+ "/" +:+ itemKey) putItemFunctionName
         itemAttributes (pis_Condition putItemsInput) putItemHeaders None ;;
  match snd r with
  | Some err =>
      ret {| Success := false;
             Errors := Some (<[itemKey := err]> (default ∅ (Errors putItemsOutput))) |}
  | None => ret putItemsOutput
  end.

(** [PutItemsSync] *)
Definition PutItemsSync (putItemsInput : PutItemsInput)
  : M (option Response * option error) :=
  response <- allocateResponse ;;
  putItemsOutput <- foldM (putItemsStep putItemsInput)
                      (map_to_list (Items putItemsInput))
                      {| Success := true; Errors := None |} ;;
  ret (Some (setOutput response (OutPutItems putItemsOutput)), None).

(** [UpdateItemSync] *)
Definition UpdateItemSync (updateItemInput : UpdateItemInput)
  : M (option Response * option error) :=
  let mk secs nsecs :=
    OutUpdateItem {| ui_MtimeSecs := secs; ui_MtimeNSecs := nsecs |} in
  match ui_Attributes updateItemInput, ui_Expression updateItemInput with
  | Some attributes, _ =>
      let body : gmap string BodyValue :=
        {[ "UpdateMode" := BString "CreateOrReplaceAttributes" ]} in
      let body :=
        if negb (bool_decide (ui_UpdateMode updateItemInput = ""))
        then <["UpdateMode" := BString (ui_UpdateMode updateItemInput)]> body
        else body in
      r <- putItem (ui_dpi updateItemInput) (ui_Path updateItemInput)
             putItemFunctionName attributes (ui_Condition updateItemInput)
             putItemHeaders (Some body) ;;
      withMtimeOutput r mk
  | None, Some expression =>
      r <- updateItemWithExpression (ui_dpi updateItemInput)
             (ui_Path updateItemInput) updateItemFunctionName expression
             (ui_Condition updateItemInput) updateItemHeaders
             (ui_UpdateMode updateItemInput) ;;
      withMtimeOutput r mk
  | None, None => ret (None, None)
  end.

(** *** Objects *)

(** [GetObjectSync] *)
Definition GetObjectSync (getObjectInput : GetObjectInput)
  : M (option Response * option error) :=
  let headers : gmap string string :=
    if negb (go_Offset getObjectInput =? 0) || negb (NumBytes getObjectInput =? 0)
    then {[ "Range" :=
              "bytes=" +:+ strconv.Itoa (go_Offset getObjectInput) +:+ "-"
              +:+ strconv.Itoa (wrap_int64 (go_Offset getObjectInput
                                            + NumBytes getObjectInput - 1)) ]}
    else ∅ in
  let headers :=
    if 0 <? CtimeSec getObjectInput
    then <["ctime-nsec" := strconv.Itoa (CtimeNsec getObjectInput)]>
           (<["ctime-sec" := strconv.Itoa (CtimeSec getObjectInput)]> headers)
    else headers in
  sendRequest (go_dpi getObjectInput) "GET" (go_Path getObjectInput) ""
              headers [] false.

(** [PutObjectSync] *)
Definition PutObjectSync (putObjectInput : PutObjectInput) : M (option error) :=
  let headers : gmap string string :=
    if Append putObjectInput then {[ "Range" := "-1" ]} else ∅ in
  r <- sendRequest (po_dpi putObjectInput) "PUT" (po_Path putObjectInput) ""
         headers (po_Body putObjectInput) true ;;
  ret (snd r).

(** [UpdateObjectSync] *)
Definition UpdateObjectSync (updateObjectInput : UpdateObjectInput)
  : M (option error) :=
  let headers : gmap string string := {[ "X-v3io-function" := "DirSetAttr" ]} in
  match json_Marshal_DirAttributes (uo_DirAttributes updateObjectInput) with
  | None => ret (Some (ErrMarshal "DirAttributes"))
  | Some marshaledDirAttributes =>
      r <- sendRequest (uo_dpi updateObjectInput) "PUT"
             (uo_Path updateObjectInput) "" headers marshaledDirAttributes true ;;
      ret (snd r)
  end.

(** [DeleteObjectSync] *)
Definition DeleteObjectSync (deleteObjectInput : DeleteObjectInput)
  : M (option error) :=
  r <- sendRequest (do_dpi deleteObjectInput) "DELETE"
         (do_Path deleteObjectInput) "" ∅ [] true ;;
  ret (snd r).

(** [CheckPathExistsSync] *)
Definition CheckPathExistsSync (checkPathExistsInput : CheckPathExistsInput)
  : M (option error) :=
  r <- sendRequest (cpe_dpi checkPathExistsInput) "HEAD"
         (cpe_Path checkPathExistsInput) "" ∅ [] true ;;
  ret (snd r).

(** [PutOOSObjectSync] *)
Definition PutOOSObjectSync (putOOSObjectInput : PutOOSObjectInput)
  : M (option error) :=
  let iovecSizes :=
    fold_left (fun sizes ioVec =>
                 sizes +:+ "," +:+ strconv.Itoa (Z.of_nat (length ioVec)))
              (oos_Data putOOSObjectInput)
              (strconv.Itoa (Z.of_nat (length (oos_Header putOOSObjectInput)))) in
  let buffer :=
    fold_left (fun buffer ioVec => (buffer ++ ioVec)%list)
              (oos_Data putOOSObjectInput) (oos_Header putOOSObjectInput) in
  let headers : gmap string string :=
    {[ "Content-Type" := default "" (putOOSObjectHeaders !! "Content-Type");
       "X-v3io-function" := default "" (putOOSObjectHeaders !! "X-v3io-function");
       "io-vec-num" :=
         strconv.Itoa (Z.of_nat (length (oos_Data putOOSObjectInput)) + 1);
       "io-vec-sizes" := iovecSizes ]} in
  r <- sendRequest (oos_dpi putOOSObjectInput) "PUT"
         (oos_Path putOOSObjectInput) "" headers buffer true ;;
  ret (snd r).

(** *** Streams *)

(** [CreateStreamSync] *)
Definition CreateStreamSync (createStreamInput : CreateStreamInput)
  : M (option error) :=
  let body := "{" +:+ quoted "ShardCount" +:+ ": "
              +:+ strconv.Itoa (cs_ShardCount createStreamInput) +:+ ", "
              +:+ quoted "RetentionPeriodHours" +:+ ": "
              +:+ strconv.Itoa (cs_RetentionPeriodHours createStreamInput)
              +:+ "}" in
  r <- sendRequest (cs_dpi createStreamInput) "POST"
         (cs_Path createStreamInput) "" createStreamHeaders (bytes_of body) true ;;
  ret (snd r).

(** [DescribeStreamSync] *)
Definition DescribeStreamSync (describeStreamInput : DescribeStreamInput)
  : M (option Response * option error) :=
  r <- sendRequest (ds_dpi describeStreamInput) "PUT"
         (ds_Path describeStreamInput) "" describeStreamHeaders [] false ;;
  unmarshalOutput r
    (OutDescribeStream {| ShardCount := 0; RetentionPeriodHours := 0 |}).

(** The input of the listing [DeleteStreamSync] starts with. *)
Definition listShardsInput (deleteStreamInput : DeleteStreamInput)
  : GetContainerContentsInput :=
  {| gcc_dpi := dls_dpi deleteStreamInput;
     gcc_Path := dls_Path deleteStreamInput;
     GetAllAttributes := false; DirectoriesOnly := false;
     gcc_Limit := 0; gcc_Marker := "" |}.

(** [DeleteStreamSync]: the shards listed under the stream are deleted one
    by one, the error of each deletion dropped; the result is the error of
    the last deletion, the one of the path
    ["/" + path.Dir(deleteStreamInput.Path) + "/"]. The deferred
    [response.Release()] runs last. *)
Definition DeleteStreamSync (deleteStreamInput : DeleteStreamInput)
  : M (option error) :=
  r <- GetContainerContentsSync (listShardsInput deleteStreamInput) ;;
  match r with
  | (_, Some err) => ret (Some err)
  | (Some {| resp_Output := Some (OutGetContainerContents output) |}, None) =>
      foldM (fun (_ : unit) content =>
               DeleteObjectSync {| do_dpi := dls_dpi deleteStreamInput;
                                   do_Path := "/" +:+ Key content |} ;;;
               ret tt)
            (Contents output) tt ;;;
      err <- DeleteObjectSync
               {| do_dpi := dls_dpi deleteStreamInput;
                  do_Path := deleteStreamPath (dls_Path deleteStreamInput) |} ;;
      release ;;;
      ret err
  | (_, None) => panic
  end.

(** The deletions [DeleteStreamSync] issues once the shards are listed, with
    the error of each: one per shard, then the one of the stream path. *)
Fixpoint deleteStreamDeletions (deleteStreamInput : DeleteStreamInput)
    (contents : list Content) : M (list (option error)) :=
  match contents with
  | [] =>
      err <- DeleteObjectSync
               {| do_dpi := dls_dpi deleteStreamInput;
                  do_Path := deleteStreamPath (dls_Path deleteStreamInput) |} ;;
      ret [err]
  | content :: rest =>
      err <- DeleteObjectSync {| do_dpi := dls_dpi deleteStreamInput;
                                 do_Path := "/" +:+ Key content |} ;;
      errs <- deleteStreamDeletions deleteStreamInput rest ;;
      ret (err :: errs)
  end.

(** [SeekShardSync] *)
Definition SeekShardSync (seekShardInput : SeekShardInput)
  : M (option Response * option error) :=
  let buffer :=
    "{" +:+ quoted "Type" +:+ ": "
    +:+ quoted (seekShardsInputTypeToString (ss_Type seekShardInput))
    +:+ (match ss_Type seekShardInput with
         | SeekShardInputTypeSequence =>
             ", " +:+ quoted "StartingSequenceNumber" +:+ ": "
             +:+ strconv.FormatUint (StartingSequenceNumber seekShardInput)
         | SeekShardInputTypeTime =>
             ", " +:+ quoted "TimestampSec" +:+ ": "
             +:+ strconv.Itoa (Timestamp seekShardInput)
             +:+ ", " +:+ quoted "TimestampNSec" +:+ ": 0"
         | _ => ""
         end)
    +:+ "}" in
  r <- sendRequest (ss_dpi seekShardInput) "PUT" (ss_Path seekShardInput) ""
         seekShardsHeaders (bytes_of buffer) false ;;
  unmarshalOutput r (OutSeekShard {| Location := "" |}).

(** One record of the body of [PutRecordsSync]. *)
Definition putRecordsRecord (record : StreamRecord) (last : bool) : string :=
  "{" +:+ quoted "Data" +:+ ": " +:+ quoted (base64.EncodeToString (sr_Data record))
  +:+ (match sr_ClientInfo record with
       | Some clientInfo =>
           "," +:+ quoted "ClientInfo" +:+ ": "
           +:+ quoted (base64.EncodeToString clientInfo)
       | None => ""
       end)
  +:+ (match sr_ShardID record with
       | Some shardID => ", " +:+ quoted "ShardId" +:+ ": " +:+ strconv.Itoa shardID
       | None => ""
       end)
  +:+ (if negb (bool_decide (sr_PartitionKey record = ""))
       then ", " +:+ quoted "PartitionKey" +:+ ": "
            +:+ quoted (sr_PartitionKey record)
       else "")
  +:+ (if last then "}" else "}, ").

Fixpoint putRecordsRecords (records : list StreamRecord) : string :=
  match records with
  | [] => ""
  | [record] => putRecordsRecord record true
  | record :: rest => putRecordsRecord record false +:+ putRecordsRecords rest
  end.

(** [PutRecordsSync] *)
Definition PutRecordsSync (putRecordsInput : PutRecordsInput)
  : M (option Response * option error) :=
  let buffer := "{" +:+ quoted "Records" +:+ ": ["
                +:+ putRecordsRecords (Records putRecordsInput) +:+ "]}" in
  r <- sendRequest (pr_dpi putRecordsInput) "POST" (pr_Path putRecordsInput) ""
         putRecordsHeaders (bytes_of buffer) false ;;
  unmarshalOutput r
    (OutPutRecords {| FailedRecordCount := 0; pro_Records := [] |}).

(** [PutChunkSync] *)
Definition PutChunkSync (putChunkInput : PutChunkInput) : M (option error) :=
  match json_Marshal_PutChunkInput putChunkInput with
  | None => ret (Some (ErrMarshal "PutChunkInput"))
  | Some buffer =>
      r <- sendRequest (pc_dpi putChunkInput) "POST" (pc_Path putChunkInput) ""
             putChunkHeaders buffer true ;;
      ret (snd r)
  end.

(** [GetRecordsSync] *)
Definition GetRecordsSync (getRecordsInput : GetRecordsInput)
  : M (option Response * option error) :=
  let body := "{" +:+ quoted "Location" +:+ ": "
              +:+ quoted (gr_Location getRecordsInput) +:+ ", "
              +:+ quoted "Limit" +:+ ": "
              +:+ strconv.Itoa (gr_Limit getRecordsInput) +:+ "}" in
  r <- sendRequest (gr_dpi getRecordsInput) "PUT" (gr_Path getRecordsInput) ""
         getRecordsHeaders (bytes_of body) false ;;
  unmarshalOutput r
    (OutGetRecords {| NextLocation := ""; MSecBehindLatest := 0;
                      RecordsBehindLatest := 0; gro_Records := [] |}).

(** *** The asynchronous interface and the workers *)

(** [sendRequestToWorker(input, context, responseChan)]: the request gets
    the next ID and is put on the request channel. *)
Definition sendRequestToWorker (input : Input) (context : option Value)
    (responseChan : N) : M (option Request * option error) :=
  fun w =>
    let id := (requestID w + 1) mod 2 ^ 64 in
    let request :=
      {| req_ID := id; req_Input := input; req_Context := context;
         ResponseChan := responseChan;
         SendTimeNanoseconds := time_Now_UnixNano w |} in
    (Some (Some request, None),
     {| transport := transport w; roundTrips := roundTrips w;
        acquired := acquired w; released := released w;
        logged := logged w; requestID := id;
        requestChan := requestChan w ++ [request];
        responseChans := responseChans w |}).

Definition GetContainers (i : GetContainersInput) := sendRequestToWorker (InGetContainers i).
Definition GetClusterMD (i : GetClusterMDInput) := sendRequestToWorker (InGetClusterMD i).
Definition GetContainerContents (i : GetContainerContentsInput) :=
  sendRequestToWorker (InGetContainerContents i).
Definition GetItem (i : GetItemInput) := sendRequestToWorker (InGetItem i).
Definition GetItems (i : GetItemsInput) := sendRequestToWorker (InGetItems i).
Definition PutItem (i : PutItemInput) := sendRequestToWorker (InPutItem i).
Definition PutItems (i : PutItemsInput) := sendRequestToWorker (InPutItems i).
Definition UpdateItem (i : UpdateItemInput) := sendRequestToWorker (InUpdateItem i).
Definition GetObject (i : GetObjectInput) := sendRequestToWorker (InGetObject i).
Definition PutObject (i : PutObjectInput) := sendRequestToWorker (InPutObject i).
Definition DeleteObject (i : DeleteObjectInput) := sendRequestToWorker (InDeleteObject i).
Definition CreateStream (i : CreateStreamInput) := sendRequestToWorker (InCreateStream i).
Definition DescribeStream (i : DescribeStreamInput) :=
  sendRequestToWorker (InDescribeStream i).
Definition CheckPathExists (i : CheckPathExistsInput) :=
  sendRequestToWorker (InCheckPathExists i).
Definition DeleteStream (i : DeleteStreamInput) := sendRequestToWorker (InDeleteStream i).
Definition SeekShard (i : SeekShardInput) := sendRequestToWorker (InSeekShard i).
Definition PutRecords (i : PutRecordsInput) := sendRequestToWorker (InPutRecords i).
Definition PutChunk (i : PutChunkInput) := sendRequestToWorker (InPutChunk i).
Definition GetRecords (i : GetRecordsInput) := sendRequestToWorker (InGetRecords i).
Definition PutOOSObject (i : PutOOSObjectInput) := sendRequestToWorker (InPutOOSObject i).

(** An operation that returns an error only leaves [response] nil. *)
Definition errorOnly (m : M (option error)) : M (option Response * option error) :=
  err <- m ;; ret (None, err).

(** The type switch of [workerEntry]. *)
Definition workerSwitch (input : Input) : M (option Response * option error) :=
  match input with
  | InPutObject typedInput => errorOnly (PutObjectSync typedInput)
  | InGetObject typedInput => GetObjectSync typedInput
  | InDeleteObject typedInput => errorOnly (DeleteObjectSync typedInput)
  | InGetItem typedInput => GetItemSync typedInput
  | InGetItems typedInput => GetItemsSync typedInput
  | InPutItem typedInput => PutItemSync typedInput
  | InPutItems typedInput => PutItemsSync typedInput
  | InUpdateItem typedInput => UpdateItemSync typedInput
  | InCreateStream typedInput => errorOnly (CreateStreamSync typedInput)
  | InDescribeStream typedInput => DescribeStreamSync typedInput
  | InDeleteStream typedInput => errorOnly (DeleteStreamSync typedInput)
  | InGetRecords typedInput => GetRecordsSync typedInput
  | InPutRecords typedInput => PutRecordsSync typedInput
  | InPutChunk typedInput => errorOnly (PutChunkSync typedInput)
  | InSeekShard typedInput => SeekShardSync typedInput
  | InGetContainers typedInput => GetContainersSync typedInput
  | InGetContainerContents typedInput => GetContainerContentsSync typedInput
  | InGetClusterMD typedInput => GetClusterMDSync typedInput
  | InCheckPathExists typedInput => errorOnly (CheckPathExistsSync typedInput)
  | InUpdateObject _ | InPutOOSObject _ | InOther _ =>
      log "Got unexpected request type" ;;; ret (None, None)
  end.

(** The response slot of the request after the switch: the response of the
    operation when there is one, the zero response otherwise, with the ID,
    the error and the caller's context written to it. *)
Definition stampResponse (request : Request) (r : option Response * option error)
  : Response :=
  let slot := default zeroResponse (fst r) in
  {| resp_Output := resp_Output slot;
     resp_Context := req_Context request;
     resp_Error := snd r;
     HTTPResponse := HTTPResponse slot;
     resp_ID := req_ID request |}.

(** [request.ResponseChan <- response] *)
Definition sendResponse (chan : N) (response : Response) : M unit :=
  fun w =>
    (Some tt,
     {| transport := transport w; roundTrips := roundTrips w;
        acquired := acquired w; released := released w;
        logged := logged w; requestID := requestID w;
        requestChan := requestChan w;
        responseChans :=
          <[chan := (default [] (responseChans w !! chan) ++ [response])%list]>
            (responseChans w) |}).

(** The body of the loop of [workerEntry] once a request is read. *)
Definition workerHandle (request : Request) : M unit :=
  r <- workerSwitch (req_Input request) ;;
  sendResponse (ResponseChan request) (stampResponse request r).

(** One iteration of [workerEntry]: [None] when the request channel is
    empty and the worker waits. *)
Definition workerStep (w : World) : option (option unit * World) :=
  match requestChan w with
  | [] => None
  | request :: rest =>
      Some (workerHandle request
              {| transport := transport w; roundTrips := roundTrips w;
                 acquired := acquired w; released := released w;
                 logged := logged w; requestID := requestID w;
                 requestChan := rest; responseChans := responseChans w |})
  end.

(** *** The operation an input stands for *)

(** The synchronous operation [<Op>Sync] of each input type [<Op>Input],
    by name. *)
Definition syncOperation (input : Input)
  : option (M (option Response * option error)) :=
  match input with
  | InPutObject i => Some (errorOnly (PutObjectSync i))
  | InGetObject i => Some (GetObjectSync i)
  | InDeleteObject i => Some (errorOnly (DeleteObjectSync i))
  | InUpdateObject i => Some (errorOnly (UpdateObjectSync i))
  | InGetItem i => Some (GetItemSync i)
  | InGetItems i => Some (GetItemsSync i)
  | InPutItem i => Some (PutItemSync i)
  | InPutItems i => Some (PutItemsSync i)
  | InUpdateItem i => Some (UpdateItemSync i)
  | InCreateStream i => Some (errorOnly (CreateStreamSync i))
  | InDescribeStream i => Some (DescribeStreamSync i)
  | InDeleteStream i => Some (errorOnly (DeleteStreamSync i))
  | InGetRecords i => Some (GetRecordsSync i)
  | InPutRecords i => Some (PutRecordsSync i)
  | InPutChunk i => Some (errorOnly (PutChunkSync i))
  | InSeekShard i => Some (SeekShardSync i)
  | InGetContainers i => Some (GetContainersSync i)
  | InGetContainerContents i => Some (GetContainerContentsSync i)
  | InGetClusterMD i => Some (GetClusterMDSync i)
  | InCheckPathExists i => Some (errorOnly (CheckPathExistsSync i))
  | InPutOOSObject i => Some (errorOnly (PutOOSObjectSync i))
  | InOther _ => None
  end.

(** The [DataPlaneInput] embedded in an input. *)
Definition dataPlaneInputOf (input : Input) : option DataPlaneInput :=
  match input with
  | InPutObject i => Some (po_dpi i)
  | InGetObject i => Some (go_dpi i)
  | InDeleteObject i => Some (do_dpi i)
  | InUpdateObject i => Some (uo_dpi i)
  | InGetItem i => Some (gi_dpi i)
  | InGetItems i => Some (gis_dpi i)
  | InPutItem i => Some (pi_dpi i)
  | InPutItems i => Some (pis_dpi i)
  | InUpdateItem i => Some (ui_dpi i)
  | InCreateStream i => Some (cs_dpi i)
  | InDescribeStream i => Some (ds_dpi i)
  | InDeleteStream i => Some (dls_dpi i)
  | InGetRecords i => Some (gr_dpi i)
  | InPutRecords i => Some (pr_dpi i)
  | InPutChunk i => Some (pc_dpi i)
  | InSeekShard i => Some (ss_dpi i)
  | InGetContainers i => Some (gc_dpi i)
  | InGetContainerContents i => Some (gcc_dpi i)
  | InGetClusterMD i => Some (gcmd_dpi i)
  | InCheckPathExists i => Some (cpe_dpi i)
  | InPutOOSObject i => Some (oos_dpi i)
  | InOther _ => None
  end.



(** The inputs the asynchronous interface puts on the request channel:
    every input type but [UpdateObjectInput], which has no asynchronous
    call. *)
Definition enqueuedByAPI (input : Input) : bool :=
  match input with
  | InUpdateObject _ | InOther _ => false
  | _ => true
  end.

End Dataplane.

(** ** Samples

    An environment, inputs and transports to run the operations on. *)

Definition sampleFormatFloat (f : float) : string := "1.5E+00".
Definition sampleParseFloat (s : string) : option float := Some 1.5%float.

Definition sampleItem : Item :=
  {[ "age" := VInt 30;
     "name" := VString "foo";
     "ratio" := VFloat64 1.5%float;
     "blob" := VBytes ["f"; "o"; "o"; "b"]%byte;
     "ok" := VBool true;
     "seen" := VTime {| time.Unix_ := 1581605100; time.Nanosecond_ := 498349956;
                        time.Location_ := time.UTC |} ]}.

(** The shard a listing of the sample stream returns. *)
Definition sampleShard : Content :=
  {| Key := "stream/0"; Size := None; LastSequenceID := None;
     LastModified := ""; Mode := "" |}.

(** The item a JSON response of [GetItems] holds, and the metadata payload of
    a capnp response: one item named [item0] with the attribute [age]. *)
Definition sampleTypedItem : TypedItem := {[ "age" := {[ "N" := VString "30" ]} ]}.

Definition sampleMetadataPayload : MetadataPayload :=
  {| md_KeyNames := inr [Some "age"];
     md_Values := inr [Some (Which_qword 30)];
     md_Items := Some [Some {| item_Name := Some "item0";
                               item_Attrs := Some [(0, 0)] |}] |}.

(** An environment: every URL but the empty one parses, a body that is not
    empty unmarshals to a listing of the sample shard, to the sample item or
    to the sample metadata payload. *)
Definition sampleExternal : External := {|
  url_Parse := fun urlString =>
    if bool_decide (urlString = "") then None
    else Some {| Endpoint := urlString; uri_Path := ""; RawQuery := "" |};
  url_QueryEscape := fun s => s;
  FormatFloat := sampleFormatFloat;
  ParseFloat := sampleParseFloat;
  json_Marshal := fun _ => Some [];
  json_Marshal_DirAttributes := fun _ => Some [];
  json_Marshal_PutChunkInput := fun _ => Some [];
  json_Unmarshal := fun _ output => (output, None);
  xml_Unmarshal := fun b output =>
    match output, b with
    | OutGetContainerContents o, _ :: _ =>
        (OutGetContainerContents
           {| Name := Name o; gcc_NextMarker := gcc_NextMarker o;
              MaxKeys := MaxKeys o; Contents := [sampleShard];
              CommonPrefixes := CommonPrefixes o; IsTruncated := IsTruncated o |},
         None)
    | _, _ => (output, None)
    end;
  json_Unmarshal_Item := fun _ => (sampleTypedItem, None);
  json_Unmarshal_GetItemsResponse := fun _ =>
    ({| gir_Items := [sampleTypedItem]; gir_NextMarker := "";
        LastItemIncluded := "TRUE"; gir_Scattered := "FALSE" |}, None);
  readAllCapnpMessages := fun _ =>
    [ {| asMetadataPayload := None; asDataPayload := None |};
      {| asMetadataPayload := Some sampleMetadataPayload; asDataPayload := None |} ];
  time_Now_UnixNano := fun _ => 0;
  getClusterMDHeaders := ∅;
  getItemHeaders := ∅;
  getItemsHeaders := ∅;
  getItemsHeadersCapnp := ∅;
  putItemHeaders := ∅;
  updateItemHeaders := ∅;
  createStreamHeaders := ∅;
  describeStreamHeaders := ∅;
  seekShardsHeaders := ∅;
  putRecordsHeaders := ∅;
  putChunkHeaders := ∅;
  getRecordsHeaders := ∅;
  putOOSObjectHeaders := ∅;
  putItemFunctionName := "PutItem";
  updateItemFunctionName := "UpdateItem";
  seekShardsInputTypeToString := fun _ => "EARLIEST"
|}.

Definition sampleDataPlaneInput (containerName : string) : DataPlaneInput :=
  {| URL := "http://v3io:8081"; ContainerName := containerName;
     AuthenticationToken := ""; AccessKey := ""; MtimeSec := ""; MtimeNsec := "";
     Timeout := 0; IncludeResponseInError := false |}.




Definition sampleGetItemsInput : GetItemsInput :=
  {| gis_dpi := sampleDataPlaneInput "bigdata"; gis_Path := "/table/";
     TableName := ""; AttributeNames := ["*"]; Filter := ""; gis_Marker := "";
     ShardingKey := ""; gis_Limit := 0; Segment := 0; TotalSegments := 0;
     SortKeyRangeStart := ""; SortKeyRangeEnd := ""; AllowObjectScatter := "";
     ReturnData := ""; DataMaxSize := 0; RequestJSONResponse := false |}.

Definition sampleDeleteStreamInput : DeleteStreamInput :=
  {| dls_dpi := sampleDataPlaneInput "bigdata"; dls_Path := "/stream/" |}.

Definition samplePutOOSObjectInput : PutOOSObjectInput :=
  {| oos_dpi := sampleDataPlaneInput "bigdata"; oos_Path := "/object";
     oos_Header := ["h"]%byte; oos_Data := [["d"]%byte] |}.

(** Responses of the server. *)
Definition noContent : HttpResponse :=
  {| StatusCode := 204; Header := ∅; Body := [] |}.

Definition serverError : HttpResponse :=
  {| StatusCode := 500; Header := ∅; Body := [] |}.

Definition sampleListing : HttpResponse :=
  {| StatusCode := 200; Header := ∅; Body := ["<"; ">"]%byte |}.

Definition sampleItemsResponse (contentType : string) : Response :=
  {| resp_Output := None; resp_Context := None; resp_Error := None;
     HTTPResponse :=
       Some {| StatusCode := 200;
               Header := {[ "Content-Type" := contentType ]};
               Body := ["{"; "}"]%byte |};
     resp_ID := 0 |}.

(** A client that has sent nothing yet, on a transport. *)
Definition startWorld (transport : nat -> HttpRequest -> TransportResult) : World :=
  {| transport := transport; roundTrips := []; acquired := 0; released := 0;
     logged := []; requestID := 0; requestChan := []; responseChans := ∅ |}.

(** Transports: the connection is found closed [k] times, then the server
    answers; the connection is refused; the listing of a stream is answered,
    the deletion of its shard fails and the last deletion succeeds. *)
Definition closedThenAnswered (k : nat) : nat -> HttpRequest -> TransportResult :=
  fun n _ => if (n <? k)%nat then Failed ErrConnectionClosed else Answered noContent.

Definition connectionRefused : nat -> HttpRequest -> TransportResult :=
  fun _ _ => Failed (ErrTransport "connection refused").

Definition shardDeletionFails : nat -> HttpRequest -> TransportResult :=
  fun n _ =>
    match n with
    | O => Answered sampleListing
    | S O => Answered serverError
    | _ => Answered noContent
    end.

(* ===================================================================== *)
(** * Part II: properties                                                 *)
(* ===================================================================== *)


(** ** Strings: append, reversal, prefixes *)

Lemma append_nil_l (s : string) : "" +:+ s = s.
Proof. reflexivity. Qed.

Lemma append_cons (c : ascii) (a b : string) :
  String c a +:+ b = String c (a +:+ b).
Proof. reflexivity. Qed.

Lemma append_nil_r (s : string) : s +:+ "" = s.
Proof. induction s as [|c s IH]; [reflexivity|]. by rewrite append_cons, IH. Qed.

Lemma append_assoc (a b c : string) : (a +:+ b) +:+ c = a +:+ (b +:+ c).
Proof. induction a as [|x a IH]; [reflexivity|]. by rewrite !append_cons, IH. Qed.

Lemma length_append (a b : string) :
  String.length (a +:+ b) = (String.length a + String.length b)%nat.
Proof.
  induction a as [|x a IH]; [reflexivity|].
  rewrite append_cons. cbn. by rewrite IH.
Qed.

Lemma rev_acc_spec (s acc : string) :
  strings.rev_acc s acc = strings.rev s +:+ acc.
Proof.
  unfold strings.rev. revert acc.
  induction s as [|c s IH]; intros acc; [reflexivity|].
  cbn. rewrite IH, (IH (String c "")), append_assoc. reflexivity.
Qed.

Lemma rev_cons (c : ascii) (s : string) :
  strings.rev (String c s) = strings.rev s +:+ String c "".
Proof. unfold strings.rev at 1. cbn. apply rev_acc_spec. Qed.

Lemma rev_append (a b : string) :
  strings.rev (a +:+ b) = strings.rev b +:+ strings.rev a.
Proof.
  induction a as [|c a IH].
  - rewrite append_nil_l. change (strings.rev "") with "". by rewrite append_nil_r.
  - rewrite append_cons, !rev_cons, IH, append_assoc. reflexivity.
Qed.

Lemma rev_involutive (s : string) : strings.rev (strings.rev s) = s.
Proof.
  induction s as [|c s IH]; [reflexivity|].
  rewrite rev_cons, rev_append, IH. reflexivity.
Qed.

Lemma prefix_append (a b : string) : String.prefix a (a +:+ b) = true.
Proof.
  induction a as [|c a IH]; [by destruct b|].
  rewrite append_cons. cbn. destruct (ascii_dec c c); [exact IH|congruence].
Qed.

Lemma prefix_true_inv (a s : string) :
  String.prefix a s = true -> exists b, s = a +:+ b.
Proof.
  revert s. induction a as [|c a IH]; intros s Hp.
  - by exists s.
  - destruct s as [|d s]; [discriminate|]. cbn in Hp.
    destruct (ascii_dec c d) as [->|]; [|discriminate].
    destruct (IH _ Hp) as [b ->]. by exists b.
Qed.

Lemma HasSuffix_append (a suf : string) : strings.HasSuffix (a +:+ suf) suf = true.
Proof. unfold strings.HasSuffix. rewrite rev_append. apply prefix_append. Qed.

Lemma HasSuffix_true_inv (s suf : string) :
  strings.HasSuffix s suf = true -> exists a, s = a +:+ suf.
Proof.
  unfold strings.HasSuffix. intros Hp.
  destruct (prefix_true_inv _ _ Hp) as [b Hb].
  exists (strings.rev b).
  rewrite <- (rev_involutive s), Hb, rev_append, rev_involutive. reflexivity.
Qed.

(** ** [strconv]: parsing is the positional value, formatting its inverse *)

Lemma digit_of_range (c : ascii) (d : Z) :
  strconv.digit_of c = Some d -> 0 <= d < 36.
Proof.
  unfold strconv.digit_of. cbv zeta.
  destruct ((48 <=? _) && _) eqn:E1.
  - intros [= <-]. lia.
  - destruct ((97 <=? _) && _) eqn:E2; [|discriminate]. intros [= <-]. lia.
Qed.

Lemma positional_nonneg (base : Z) (s : string) (v : Z) :
  0 <= base -> strconv.positional base s = Some v -> 0 <= v.
Proof.
  intros Hb. revert v. induction s as [|c s IH]; intros v; cbn.
  - intros [= <-]. lia.
  - destruct (strconv.digit_of c) as [d|] eqn:Hd; [|discriminate].
    destruct (strconv.positional base s) as [v'|]; [|discriminate].
    destruct (d <? base); [|discriminate]. intros [= <-].
    pose proof (digit_of_range _ _ Hd). specialize (IH _ eq_refl).
    assert (0 <= base ^ Z.of_nat (String.length s)) by (apply Z.pow_nonneg; lia).
    nia.
Qed.

Lemma ParseUint_loop_positional (base maxVal : Z) (s : string) :
  2 <= base <= 36 -> 0 <= maxVal <= strconv.maxUint64 ->
  forall acc v,
    strconv.positional base s = Some v -> 0 <= acc ->
    acc * base ^ Z.of_nat (String.length s) + v <= maxVal ->
    strconv.ParseUint_loop base maxVal s acc
    = (acc * base ^ Z.of_nat (String.length s) + v, None).
Proof.
  intros Hb Hm. induction s as [|c s IH]; intros acc v; cbn [strconv.positional].
  - intros [= <-] _ _. cbn. f_equal. lia.
  - destruct (strconv.digit_of c) as [d|] eqn:Hd; [|discriminate].
    destruct (strconv.positional base s) as [v'|] eqn:Hv; [|discriminate].
    destruct (d <? base) eqn:Hdb; [|discriminate]. intros [= <-] Hacc Hle.
    pose proof (digit_of_range _ _ Hd) as Hdr.
    pose proof (positional_nonneg base s v' ltac:(lia) Hv) as Hv'.
    cbn [String.length] in *. rewrite Nat2Z.inj_succ, Z.pow_succ_r in * by lia.
    set (p := base ^ Z.of_nat (String.length s)) in *.
    assert (1 <= p)
      by (pose proof (Z.pow_pos_nonneg base (Z.of_nat (String.length s)));
          subst p; lia).
    assert (acc * base + d <= maxVal) by nia.
    cbn [strconv.ParseUint_loop]. rewrite Hd.
    replace (base <=? d) with false by lia.
    unfold strconv.maxUint64 in *.
    assert (acc <= (2 ^ 64 - 1) / base) by (apply Z.div_le_lower_bound; nia).
    replace ((2 ^ 64 - 1) / base + 1 <=? acc) with false by lia.
    cbv zeta. rewrite (Z.mod_small (acc * base + d)) by lia.
    replace ((acc * base + d <? acc * base) || (maxVal <? acc * base + d))
      with false by lia.
    rewrite IH with (v := v') by (try done; nia).
    f_equal. lia.
Qed.

Lemma ParseUint_positional (s : string) (base bitSize v : Z) :
  2 <= base <= 36 -> 0 < bitSize <= 64 -> s <> "" ->
  strconv.positional base s = Some v -> v < 2 ^ bitSize ->
  strconv.ParseUint s base bitSize = (v, None).
Proof.
  intros Hb Hbits Hne Hv Hlt. unfold strconv.ParseUint.
  destruct s as [|c s]; [done|].
  assert (2 ^ bitSize <= 2 ^ 64) by (apply Z.pow_le_mono_r; lia).
  assert (0 < 2 ^ bitSize) by (apply Z.pow_pos_nonneg; lia).
  rewrite ParseUint_loop_positional with (v := v);
    unfold strconv.maxUint64; try done; try lia.
Qed.

Lemma ParseUint_not_numeral (s : string) (base bitSize : Z) :
  strconv.positional base s = None ->
  snd (strconv.ParseUint s base bitSize) <> None.
Proof.
  unfold strconv.ParseUint. destruct s as [|c0 s0]; [done|].
  generalize (String c0 s0) as s. generalize 0 as acc. clear.
  intros acc s. revert acc.
  induction s as [|c s IH]; intros acc; cbn; [done|].
  destruct (strconv.digit_of c) as [d|]; [|done].
  destruct (base <=? d) eqn:Hbd; [done|].
  destruct (_ <=? acc); [done|].
  destruct (_ || _); [done|].
  destruct (strconv.positional base s) as [v|] eqn:Hv.
  - replace (d <? base) with true by lia. done.
  - intros _. by apply IH.
Qed.

Lemma digit_char_digit (d : Z) :
  0 <= d <= 9 -> strconv.digit_of (strconv.digit_char d) = Some d.
Proof.
  intros Hd.
  assert (d = 0 \/ d = 1 \/ d = 2 \/ d = 3 \/ d = 4 \/ d = 5 \/ d = 6 \/ d = 7
          \/ d = 8 \/ d = 9) as Hcases by lia.
  repeat (destruct Hcases as [-> | Hcases]; [reflexivity|]). by subst.
Qed.

(** The value of a list of decimal digits, least significant first. *)
Lemma digits_le_spec (fuel : nat) (n : Z) :
  0 <= n < 10 ^ Z.of_nat (S fuel) ->
  Forall (fun d => 0 <= d <= 9) (strconv.digits_le fuel n)
  /\ fold_right (fun d v => d + 10 * v) 0 (strconv.digits_le fuel n) = n
  /\ strconv.digits_le fuel n <> [].
Proof.
  revert n. induction fuel as [|fuel IH]; intros n Hn.
  - change (10 ^ Z.of_nat 1) with 10 in Hn. cbn.
    rewrite Z.mod_small by lia. repeat split; [|lia|done].
    constructor; [lia|constructor].
  - cbn [strconv.digits_le]. destruct (n <? 10) eqn:Hlt.
    + cbn. repeat split; [|lia|done]. constructor; [lia|constructor].
    + rewrite Nat2Z.inj_succ, Z.pow_succ_r in Hn by lia.
      destruct (IH (n / 10)) as (Hall & Hval & _).
      { split; [apply Z.div_pos; lia|]. apply Z.div_lt_upper_bound; lia. }
      repeat split; [| |done].
      * constructor; [|exact Hall]. pose proof (Z.mod_pos_bound n 10). lia.
      * cbn. rewrite Hval. pose proof (Z.div_mod n 10). lia.
Qed.

Lemma positional_string_of_digits_le (ds : list Z) :
  Forall (fun d => 0 <= d <= 9) ds ->
  forall acc a,
    strconv.positional 10 acc = Some a ->
    strconv.positional 10 (strconv.string_of_digits_le ds acc)
    = Some (fold_right (fun d v => d + 10 * v) 0 ds
            * 10 ^ Z.of_nat (String.length acc) + a).
Proof.
  induction 1 as [|d ds Hd Hds IH]; intros acc a Ha; cbn [strconv.string_of_digits_le].
  - cbn. rewrite Ha. f_equal.
  - rewrite IH with (a := d * 10 ^ Z.of_nat (String.length acc) + a).
    + f_equal. cbn [String.length fold_right].
      rewrite Nat2Z.inj_succ, Z.pow_succ_r by lia. lia.
    + cbn [strconv.positional]. rewrite digit_char_digit, Ha by lia.
      replace (d <? 10) with true by lia. reflexivity.
Qed.

Lemma string_of_digits_le_nonempty (ds : list Z) (acc : string) :
  ds <> [] \/ acc <> "" -> strconv.string_of_digits_le ds acc <> "".
Proof.
  revert acc. induction ds as [|d ds IH]; intros acc [H|H]; cbn; try done.
  - apply IH. by right.
  - apply IH. by right.
Qed.

Lemma positional_FormatUint (n : Z) :
  0 <= n < 2 ^ 64 ->
  strconv.positional 10 (strconv.FormatUint n) = Some n
  /\ strconv.FormatUint n <> "".
Proof.
  intros Hn. unfold strconv.FormatUint.
  destruct (digits_le_spec 20 n) as (Hall & Hval & Hne).
  { change (10 ^ Z.of_nat 21) with 1000000000000000000000.
    change (2 ^ 64) with 18446744073709551616 in Hn. lia. }
  split.
  - rewrite positional_string_of_digits_le with (a := 0) by done.
    rewrite Hval. f_equal. cbn. lia.
  - apply string_of_digits_le_nonempty. by left.
Qed.

(** A string that starts with a decimal digit carries no sign. *)
Lemma string_of_digits_le_head (ds : list Z) (acc : string) :
  Forall (fun d => 0 <= d <= 9) ds ->
  (ds <> [] \/ exists c acc', acc = String c acc' /\ c <> "+"%char /\ c <> "-"%char) ->
  exists c s', strconv.string_of_digits_le ds acc = String c s'
               /\ c <> "+"%char /\ c <> "-"%char.
Proof.
  intros Hall. revert acc. induction Hall as [|d ds Hd Hds IH]; intros acc Hor.
  - destruct Hor as [?|(c & acc' & -> & ? & ?)]; [done|]. cbn. eauto.
  - cbn [strconv.string_of_digits_le]. apply IH. right.
    exists (strconv.digit_char d), acc. split; [done|].
    assert (d = 0 \/ d = 1 \/ d = 2 \/ d = 3 \/ d = 4 \/ d = 5 \/ d = 6 \/ d = 7
            \/ d = 8 \/ d = 9) as Hcases by lia.
    repeat (destruct Hcases as [-> | Hcases]; [by split|]). by subst.
Qed.

Lemma FormatUint_head (n : Z) :
  0 <= n < 2 ^ 64 ->
  exists c s', strconv.FormatUint n = String c s' /\ c <> "+"%char /\ c <> "-"%char.
Proof.
  intros Hn. unfold strconv.FormatUint.
  destruct (digits_le_spec 20 n) as (Hall & _ & Hne).
  { change (10 ^ Z.of_nat 21) with 1000000000000000000000.
    change (2 ^ 64) with 18446744073709551616 in Hn. lia. }
  apply string_of_digits_le_head; [done|by left].
Qed.

(** [ParseInt] reads back what [FormatInt] writes. *)
Lemma ParseInt_FormatInt (n : Z) :
  is_int64 n -> strconv.ParseInt (strconv.FormatInt n) 10 64 = (n, None).
Proof.
  unfold is_int64. change (2 ^ 63) with 9223372036854775808. intros Hn.
  unfold strconv.FormatInt. destruct (n <? 0) eqn:Hneg.
  - destruct (positional_FormatUint (- n)) as [Hpos Hne].
    { change (2 ^ 64) with 18446744073709551616. lia. }
    assert (strconv.ParseUint (strconv.FormatUint (- n)) 10 64 = (- n, None)) as Hp.
    { apply ParseUint_positional; try done; lia. }
    cbn [strconv.ParseInt]. change (Ascii.eqb "-" "-") with true.
    change (Ascii.eqb "-" "+") with false. cbn [orb]. rewrite Hp.
    change (2 ^ (64 - 1)) with 9223372036854775808. cbn [negb andb].
    replace (9223372036854775808 <? - n) with false by lia.
    f_equal. lia.
  - destruct (positional_FormatUint n) as [Hpos Hne].
    { change (2 ^ 64) with 18446744073709551616. lia. }
    destruct (FormatUint_head n) as (c & s' & Hs & Hplus & Hminus).
    { change (2 ^ 64) with 18446744073709551616. lia. }
    assert (strconv.ParseUint (strconv.FormatUint n) 10 64 = (n, None)) as Hp.
    { apply ParseUint_positional; try done; lia. }
    rewrite Hs in *. cbn [strconv.ParseInt].
    replace (Ascii.eqb c "-") with false by (symmetry; by apply Ascii.eqb_neq).
    replace (Ascii.eqb c "+") with false by (symmetry; by apply Ascii.eqb_neq).
    cbn [orb]. rewrite Hp.
    change (2 ^ (64 - 1)) with 9223372036854775808. cbn [negb andb].
    replace (9223372036854775808 <=? n) with false by lia. reflexivity.
Qed.

Lemma Atoi_Itoa (n : Z) : is_int n -> strconv.Atoi (strconv.Itoa n) = (n, None).
Proof. apply ParseInt_FormatInt. Qed.

(** ** The default configuration of a consumer group *)

(** The default session timeout is not three heartbeat intervals: it is
    10 s, three intervals are 9 s. *)
Lemma NewConfig_timeout_not_three_heartbeats :
  Session_Timeout NewConfig <> 3 * Session_HeartbeatInterval NewConfig.
Proof. vm_compute. discriminate. Qed.

(** C9 (amended): under the configuration of [NewConfig] the session timeout
    is 10 seconds and the heartbeat interval 3 seconds; the timeout lies
    strictly between three and four heartbeat intervals, so a session is lost
    when more than three intervals (and less than a fourth) go by without a
    heartbeat. *)
Theorem NewConfig_session_timeout :
  Session_Timeout NewConfig = 10 * time.Second
  /\ Session_HeartbeatInterval NewConfig = 3 * time.Second
  /\ 3 * Session_HeartbeatInterval NewConfig < Session_Timeout NewConfig
  /\ Session_Timeout NewConfig < 4 * Session_HeartbeatInterval NewConfig.
Proof. vm_compute. repeat split. Qed.

(** ** File modes *)

Lemma HasPrefix_nonempty (s pre : string) :
  pre <> "" -> strings.HasPrefix s pre = true -> s <> "".
Proof. intros Hpre H ->. destruct pre; [done|discriminate]. Qed.

(** C4: a mode string that begins with [0] and is an octal numeral [n] below
    [2^32] decodes to [n] with its file-type nibble ([n & 0xf000]) shifted
    left by 17 bits and its low 13 bits ([n & 0x1fff]) kept, as a 32-bit
    [os.FileMode]; one that begins with [0] and is no octal numeral is an
    error. Any other mode string that is a decimal numeral [n] below [2^32]
    decodes to [n] itself. Both ["0100664"] and ["33204"] decode to a
    regular file with permission bits 0664 (octal), i.e. 436. *)
Theorem mode_decoding :
  (forall s n,
      strings.HasPrefix s "0" = true ->
      strconv.positional 8 s = Some n -> n < 2 ^ 32 ->
      mode s = (Z.lor (Z.shiftl (Z.land n 0xf000) 17) (Z.land n 0x1fff) mod 2 ^ 32,
                None))
  /\ (forall s,
         strings.HasPrefix s "0" = true -> strconv.positional 8 s = None ->
         snd (mode s) <> None)
  /\ (forall s n,
         strings.HasPrefix s "0" = false -> s <> "" ->
         strconv.positional 10 s = Some n -> n < 2 ^ 32 ->
         mode s = (n, None))
  /\ (exists m, mode "0100664" = (m, None)
                /\ os.IsRegular m = true /\ os.Perm m = 436)
  /\ (exists m, mode "33204" = (m, None)
                /\ os.IsRegular m = true /\ os.Perm m = 436).
Proof.
  repeat split.
  - intros s n Hp Hv Hn. unfold mode. rewrite Hp.
    rewrite ParseUint_positional with (v := n); try done; try lia.
    by apply HasPrefix_nonempty with (pre := "0").
  - intros s Hp Hv. unfold mode. rewrite Hp.
    pose proof (ParseUint_not_numeral s 8 32 Hv) as Herr.
    destruct (strconv.ParseUint s 8 32) as [m [e|]]; cbn in *; done.
  - intros s n Hp Hne Hv Hn. unfold mode. rewrite Hp.
    rewrite ParseUint_positional with (v := n); try done; try lia.
    unfold os.FileMode. rewrite Z.mod_small; [done|].
    split; [|done]. by apply positional_nonneg with (base := 10) (s := s).
  - exists 436. by vm_compute.
  - exists 33204. by vm_compute.
Qed.

(** The theorem at the two mode strings of the claim. *)
Lemma mode_decoding_at_0100664 :
  mode "0100664" = (436, None) /\ mode "33204" = (33204, None).
Proof.
  destruct mode_decoding as (Hoct & _ & Hdec & _).
  split.
  - apply (Hoct "0100664" 33204); by vm_compute.
  - apply (Hdec "33204" 33204); by vm_compute.
Defined.

(** ** The modification time header *)

Lemma Split_go_nonempty (sep : string) (skip : nat) (cur s : string) :
  strings.Split_go sep skip cur s <> [].
Proof.
  revert skip cur.
  induction s as [|c s IH]; intros skip cur; cbn [strings.Split_go]; [done|].
  destruct skip; [|apply IH]. destruct (String.prefix sep (String c s)); [done|apply IH].
Qed.

Lemma parseMtimeExpression_Ok_iff (acc : Z * Z) (expression : string) :
  (exists r, parseMtimeExpression acc expression = Ok r)
  <-> mtime_expression_ok expression.
Proof.
  unfold parseMtimeExpression, mtime_expression_ok, mtime_key.
  destruct (strings.Split expression "==") as [|part0 rest] eqn:Hsplit.
  { split; [intros [r Hr]; discriminate|intros (k & v & r & [=] & _)]. }
  repeat case_bool_decide.
  - destruct rest as [|part1 rest].
    { split; [intros [r Hr]; discriminate|intros (k & v & r & [=] & _)]. }
    destruct (trimAndParseInt part1) as [v [e|]] eqn:Hv.
    + split; [intros [r Hr]; discriminate|].
      intros (k & v' & r & [= <- <- <-] & _ & Hnone). rewrite Hv in Hnone. discriminate.
    + split; [|eauto]. intros _. exists part0, part1, rest. rewrite Hv. auto.
  - destruct rest as [|part1 rest].
    { split; [intros [r Hr]; discriminate|intros (k & v & r & [=] & _)]. }
    destruct (trimAndParseInt part1) as [v [e|]] eqn:Hv.
    + split; [intros [r Hr]; discriminate|].
      intros (k & v' & r & [= <- <- <-] & _ & Hnone). rewrite Hv in Hnone. discriminate.
    + split; [|eauto]. intros _. exists part0, part1, rest. rewrite Hv. auto.
  - split; [intros [r Hr]; discriminate|].
    intros (k & v & r & [= <- _] & [?|?] & _); done.
Qed.

Lemma parseMtimeExpression_Panic (acc : Z * Z) (expression : string) :
  parseMtimeExpression acc expression = Panic -> mtime_expression_bare expression.
Proof.
  unfold parseMtimeExpression, mtime_expression_bare, mtime_key.
  pose proof (Split_go_nonempty "==" 0 "" expression) as Hne.
  fold (strings.Split expression "==") in Hne.
  destruct (strings.Split expression "==") as [|part0 rest]; [done|].
  repeat case_bool_decide; try done.
  - destruct rest as [|part1 rest]; [eauto|].
    destruct (trimAndParseInt part1) as [v [e|]]; done.
  - destruct rest as [|part1 rest]; [eauto|].
    destruct (trimAndParseInt part1) as [v [e|]]; done.
Qed.

Lemma parseMtimeLoop_Err (expressions : list string) (e : error) :
  parseMtimeLoop expressions (Err e) = Err e.
Proof. induction expressions as [|x l IH]; [done|exact IH]. Qed.

Lemma parseMtimeLoop_Panic (expressions : list string) :
  parseMtimeLoop expressions Panic = Panic.
Proof. induction expressions as [|x l IH]; [done|exact IH]. Qed.

Lemma parseMtimeLoop_Ok_iff (expressions : list string) (acc : Z * Z) :
  (exists r, parseMtimeLoop expressions (Ok acc) = Ok r)
  <-> Forall mtime_expression_ok expressions.
Proof.
  revert acc. induction expressions as [|x l IH]; intros acc.
  - split; [constructor|]. intros _. by exists acc.
  - change (parseMtimeLoop (x :: l) (Ok acc))
      with (parseMtimeLoop l (parseMtimeExpression acc x)).
    rewrite Forall_cons, <- (parseMtimeExpression_Ok_iff acc x).
    destruct (parseMtimeExpression acc x) as [r|e|] eqn:Hx.
    + rewrite IH. split; [eauto|tauto].
    + rewrite parseMtimeLoop_Err. split; [intros [? [=]]|intros [[? [=]] _]].
    + rewrite parseMtimeLoop_Panic. split; [intros [? [=]]|intros [[? [=]] _]].
Qed.

Lemma parseMtimeLoop_no_Panic (expressions : list string) (acc : Z * Z) :
  Forall (fun e => ~ mtime_expression_bare e) expressions ->
  parseMtimeLoop expressions (Ok acc) <> Panic.
Proof.
  revert acc. induction expressions as [|x l IH]; intros acc Hall; [done|].
  apply Forall_cons in Hall as [Hx Hl].
  change (parseMtimeLoop (x :: l) (Ok acc))
    with (parseMtimeLoop l (parseMtimeExpression acc x)).
  destruct (parseMtimeExpression acc x) as [r|e|] eqn:Hr.
  - by apply IH.
  - by rewrite parseMtimeLoop_Err.
  - by apply parseMtimeExpression_Panic in Hr.
Qed.

(** A header that is not of the literal shape and is parsed with success
    (the nanoseconds left at 0), and one that makes the parser panic. *)
Lemma parseMtimeHeader_other_shapes :
  (~ mtime_literal_shape "__mtime_secs==1"
   /\ parseMtimeHeaderValue "__mtime_secs==1" = Ok (1, 0))
  /\ (~ mtime_literal_shape "__mtime_secs"
      /\ parseMtimeHeaderValue "__mtime_secs" = Panic).
Proof.
  split; (split; [|by vm_compute]); intros (a & b & Heq);
    apply (f_equal String.length) in Heq; rewrite !length_append in Heq;
    cbn in Heq; lia.
Qed.

(** C3 (amended): the header ["__mtime_secs==1 and __mtime_nsecs==2"] parses
    to (1, 2). For a header of ASCII bytes, the parser returns a pair exactly
    when every piece of the header between occurrences of [and] is accepted:
    cut at [==] it has at least two parts, the first [__mtime_secs] or
    [__mtime_nsecs] and the second an integer, white space around them apart.
    When some piece is not accepted and no piece is a bare key without [==],
    the parser returns an error. *)
Theorem parseMtimeHeader_accepts (mtimeHeader : string)
    (Hascii : strings.is_ascii mtimeHeader = true) :
  parseMtimeHeaderValue "__mtime_secs==1 and __mtime_nsecs==2" = Ok (1, 2)
  /\ ((exists r, parseMtimeHeaderValue mtimeHeader = Ok r)
      <-> Forall mtime_expression_ok (strings.Split mtimeHeader "and"))
  /\ (Forall (fun e => ~ mtime_expression_bare e) (strings.Split mtimeHeader "and") ->
      ~ Forall mtime_expression_ok (strings.Split mtimeHeader "and") ->
      exists e, parseMtimeHeaderValue mtimeHeader = Err e).
Proof.
  split; [by vm_compute|]. split.
  - apply parseMtimeLoop_Ok_iff.
  - intros Hbare Hnot.
    pose proof (parseMtimeLoop_no_Panic _ (0, 0) Hbare) as Hpanic.
    pose proof (parseMtimeLoop_Ok_iff (strings.Split mtimeHeader "and") (0, 0)) as Hiff.
    fold (parseMtimeHeaderValue mtimeHeader) in Hpanic, Hiff.
    destruct (parseMtimeHeaderValue mtimeHeader) as [r|e|]; [|eauto|done].
    exfalso. apply Hnot, Hiff. eauto.
Qed.

(** The theorem at a header whose second expression has an unknown key. *)
Lemma parseMtimeHeader_accepts_witness :
  exists e, parseMtimeHeaderValue "__mtime_secs==1 and mtime==2" = Err e.
Proof.
  destruct (parseMtimeHeader_accepts "__mtime_secs==1 and mtime==2" eq_refl)
    as (_ & Hiff & Herr).
  apply Herr.
  - repeat constructor; intros (key & Hsplit & _); vm_compute in Hsplit; discriminate.
  - intros Hall. apply Hiff in Hall as [r Hr]. vm_compute in Hr. discriminate.
Defined.

(** ** [base64]: decoding inverts encoding *)

(** The test vectors of RFC 4648. *)
Example base64_rfc4648 :
  map base64.EncodeToString
      [[]; ["f"]; ["f"; "o"]; ["f"; "o"; "o"]; ["f"; "o"; "o"; "b"];
       ["f"; "o"; "o"; "b"; "a"]; ["f"; "o"; "o"; "b"; "a"; "r"]]%byte
  = [""; "Zg=="; "Zm8="; "Zm9v"; "Zm9vYg=="; "Zm9vYmE="; "Zm9vYmFy"]
  /\ map base64.DecodeString ["Zg=="; "Zm9vYmE="; "Zm9v"; "Zm9"; "Zg==Zg=="; "Z*9v"]
     = [Some ["f"]; Some ["f"; "o"; "o"; "b"; "a"]; Some ["f"; "o"; "o"]; None;
        None; None]%byte.
Proof. split; reflexivity. Qed.

Lemma sextet_cases (P : Z -> Prop) :
  (forall n : nat, (n < 64)%nat -> P (Z.of_nat n)) ->
  forall i, 0 <= i < 64 -> P i.
Proof.
  intros HP i Hi. rewrite <- (Z2Nat.id i) by lia. apply HP. lia.
Qed.

Lemma enc_dec (i : Z) :
  0 <= i < 64 ->
  base64.dec (base64.enc i) = Some i
  /\ Ascii.eqb (base64.enc i) base64.pad = false
  /\ Ascii.eqb (base64.enc i) "010" || Ascii.eqb (base64.enc i) "013" = false.
Proof.
  revert i. apply sextet_cases. intros n Hn.
  do 64 (destruct n as [|n]; [by vm_compute|]). lia.
Qed.

Lemma dec_enc (i : Z) : 0 <= i < 64 -> base64.dec (base64.enc i) = Some i.
Proof. intros Hi. by apply enc_dec. Qed.

Lemma enc_not_pad (i : Z) :
  0 <= i < 64 -> Ascii.eqb (base64.enc i) base64.pad = false.
Proof. intros Hi. by apply enc_dec. Qed.

Lemma enc_not_newline (i : Z) :
  0 <= i < 64 ->
  Ascii.eqb (base64.enc i) "010" || Ascii.eqb (base64.enc i) "013" = false.
Proof. intros Hi. by apply enc_dec. Qed.

Lemma byteZ_range (b : byte) : 0 <= base64.byteZ b < 256.
Proof.
  unfold base64.byteZ. pose proof (Byte.to_N_bounded b). lia.
Qed.

Lemma Zbyte_byteZ (b : byte) : base64.Zbyte (base64.byteZ b) = b.
Proof.
  unfold base64.Zbyte, base64.byteZ. by rewrite N2Z.id, Byte.of_to_N.
Qed.

Lemma Zbyte_eq (z : Z) (b : byte) : z = base64.byteZ b -> base64.Zbyte z = b.
Proof. intros ->. apply Zbyte_byteZ. Qed.

Lemma list_ind3 {A} (P : list A -> Prop) :
  P [] -> (forall a, P [a]) -> (forall a b, P [a; b]) ->
  (forall a b c l, P l -> P (a :: b :: c :: l)) ->
  forall l, P l.
Proof.
  intros H0 H1 H2 H3.
  assert (forall l, P l /\ (forall a, P (a :: l)) /\ (forall a b, P (a :: b :: l)))
    as Hall.
  { induction l as [|x l (IH0 & IH1 & IH2)]; [by auto|].
    split; [apply IH1|]. split; [intros; apply IH2|]. intros a b. by apply H3. }
  intros l. apply Hall.
Qed.

Lemma strip_newlines_EncodeToString (src : list byte) :
  base64.strip_newlines (base64.EncodeToString src) = base64.EncodeToString src.
Proof.
  induction src as [|a|a b|a b c l IH] using list_ind3; [reflexivity| | |].
  - pose proof (byteZ_range a).
    cbn [base64.EncodeToString base64.strip_newlines]. cbv zeta.
    rewrite !enc_not_newline by (Z.div_mod_to_equations; lia).
    reflexivity.
  - pose proof (byteZ_range a). pose proof (byteZ_range b).
    cbn [base64.EncodeToString base64.strip_newlines]. cbv zeta.
    rewrite !enc_not_newline by (Z.div_mod_to_equations; lia).
    reflexivity.
  - pose proof (byteZ_range a). pose proof (byteZ_range b).
    pose proof (byteZ_range c).
    cbn [base64.EncodeToString base64.strip_newlines]. cbv zeta.
    rewrite !enc_not_newline by (Z.div_mod_to_equations; lia).
    by rewrite IH.
Qed.

Lemma decode_quanta_EncodeToString (src : list byte) :
  base64.decode_quanta (base64.EncodeToString src) = Some src.
Proof.
  induction src as [|a|a b|a b c l IH] using list_ind3; [reflexivity| | |].
  - pose proof (byteZ_range a) as Ha.
    cbn [base64.EncodeToString base64.decode_quanta]. cbv zeta.
    rewrite !dec_enc by (Z.div_mod_to_equations; lia).
    change (Ascii.eqb base64.pad base64.pad) with true. cbv iota.
    do 2 f_equal. apply Zbyte_eq. Z.div_mod_to_equations. lia.
  - pose proof (byteZ_range a) as Ha. pose proof (byteZ_range b) as Hb.
    cbn [base64.EncodeToString base64.decode_quanta]. cbv zeta.
    rewrite !dec_enc by (Z.div_mod_to_equations; lia).
    rewrite !enc_not_pad by (Z.div_mod_to_equations; lia).
    change (Ascii.eqb base64.pad base64.pad) with true. cbv iota.
    repeat f_equal; apply Zbyte_eq; Z.div_mod_to_equations; lia.
  - pose proof (byteZ_range a) as Ha. pose proof (byteZ_range b) as Hb.
    pose proof (byteZ_range c) as Hc.
    cbn [base64.EncodeToString base64.decode_quanta]. cbv zeta.
    rewrite !dec_enc by (Z.div_mod_to_equations; lia).
    rewrite !enc_not_pad by (Z.div_mod_to_equations; lia).
    rewrite IH.
    repeat f_equal; apply Zbyte_eq; Z.div_mod_to_equations; lia.
Qed.

Lemma DecodeString_EncodeToString (src : list byte) :
  base64.DecodeString (base64.EncodeToString src) = Some src.
Proof.
  unfold base64.DecodeString.
  by rewrite strip_newlines_EncodeToString, decode_quanta_EncodeToString.
Qed.

(** ** The typed attribute codec *)

Lemma prefix_single (c x : ascii) (s : string) :
  String.prefix (String c "") (String x s) = Ascii.eqb x c.
Proof.
  cbn. destruct (ascii_dec c x) as [->|Hne].
  - rewrite Ascii.eqb_refl. by destruct s.
  - symmetry. apply Ascii.eqb_neq. congruence.
Qed.

(** Cutting at a one-byte separator a string that holds it once. *)
Lemma Split_single (c : ascii) (a b : string) :
  strings.ContainsByte a c = false -> strings.ContainsByte b c = false ->
  strings.Split (a +:+ String c b) (String c "") = [a; b].
Proof.
  intros Ha Hb. unfold strings.Split.
  assert (forall cur, strings.Split_go (String c "") 0 cur b = [cur +:+ b]) as Hrest.
  { clear Ha. induction b as [|x b IH]; intros cur.
    - by rewrite append_nil_r.
    - cbn [strings.ContainsByte] in Hb. apply orb_false_elim in Hb as [Hx Hb].
      cbn [strings.Split_go]. rewrite prefix_single, Hx, IH by done.
      by rewrite append_assoc. }
  assert (forall cur, strings.Split_go (String c "") 0 cur (a +:+ String c b)
                      = [cur +:+ a; b]) as Hgo.
  { induction a as [|x a IH]; intros cur.
    - rewrite append_nil_l, append_nil_r. cbn [strings.Split_go].
      rewrite prefix_single, Ascii.eqb_refl. cbn [String.length Nat.sub].
      by rewrite Hrest.
    - cbn [strings.ContainsByte] in Ha. apply orb_false_elim in Ha as [Hx Ha].
      rewrite append_cons. cbn [strings.Split_go].
      rewrite prefix_single, Hx, IH by done. by rewrite append_assoc. }
  apply Hgo.
Qed.

Lemma ContainsByte_string_of_digits_le (ds : list Z) (acc : string) :
  Forall (fun d => 0 <= d <= 9) ds ->
  strings.ContainsByte acc ":" = false ->
  strings.ContainsByte (strconv.string_of_digits_le ds acc) ":" = false.
Proof.
  intros Hall. revert acc. induction Hall as [|d ds Hd Hds IH]; intros acc Hacc.
  - done.
  - cbn [strconv.string_of_digits_le]. apply IH. cbn [strings.ContainsByte].
    rewrite Hacc, orb_false_r.
    assert (d = 0 \/ d = 1 \/ d = 2 \/ d = 3 \/ d = 4 \/ d = 5 \/ d = 6 \/ d = 7
            \/ d = 8 \/ d = 9) as Hcases by lia.
    repeat (destruct Hcases as [-> | Hcases]; [reflexivity|]). by subst.
Qed.

Lemma ContainsByte_FormatInt (n : Z) :
  is_int64 n -> strings.ContainsByte (strconv.FormatInt n) ":" = false.
Proof.
  unfold is_int64. change (2 ^ 63) with 9223372036854775808. intros Hn.
  assert (forall m, 0 <= m < 2 ^ 64 ->
                    strings.ContainsByte (strconv.FormatUint m) ":" = false) as Hu.
  { intros m Hm. unfold strconv.FormatUint.
    apply ContainsByte_string_of_digits_le; [|done].
    apply digits_le_spec. change (10 ^ Z.of_nat 21) with 1000000000000000000000.
    lia. }
  unfold strconv.FormatInt. destruct (n <? 0) eqn:Hneg.
  - cbn [strings.ContainsByte]. rewrite Hu by lia. reflexivity.
  - apply Hu. lia.
Qed.

Lemma Unix_in_range (sec nsec : Z) :
  0 <= nsec < 1000000000 ->
  time.Unix sec nsec
  = {| time.Unix_ := sec; time.Nanosecond_ := nsec; time.Location_ := time.Local |}.
Proof.
  intros Hn. unfold time.Unix.
  by replace ((nsec <? 0) || (1000000000 <=? nsec)) with false by lia.
Qed.

Section CodecProperties.

Variable FormatFloat : float -> string.
Variable ParseFloat : string -> option float.

(** What the float formatter and parser owe each other at [f]: no integer
    is read off the number written, and the float read back is [f]. *)
Definition float_round_trip (f : float) : Prop :=
  snd (strconv.Atoi (FormatFloat f)) <> None
  /\ ParseFloat (FormatFloat f) = Some f.

(** The typed value of an attribute value, and the value of a typed value. *)
Definition typedOf (v : Value) : gmap string Value :=
  match encodeValue FormatFloat "" v with
  | Ok typed => typed
  | _ => ∅
  end.

Definition valueOf (typed : gmap string Value) : Value :=
  match decodeValue ParseFloat "" typed with
  | Ok (Some v) => v
  | _ => VOther ""
  end.

Lemma encodeValue_supported (name : string) (v : Value) :
  supported v -> encodeValue FormatFloat name v = Ok (typedOf v).
Proof. by destruct v. Qed.

Lemma decodeValue_typedOf (name : string) (v : Value) :
  supported v ->
  (forall f, v = VFloat64 f -> float_round_trip f) ->
  decodeValue ParseFloat name (typedOf v) = Ok (Some (valueOf (typedOf v)))
  /\ value_equal v (valueOf (typedOf v)).
Proof.
  intros Hs Hf. unfold valueOf.
  destruct v as [n|n|n|f|str|b|b|t|ty]; cbn in Hs; try done;
    unfold typedOf, decodeValue; cbn [encodeValue];
    repeat (rewrite lookup_singleton_eq || rewrite lookup_singleton_ne by done).
  - by rewrite Atoi_Itoa.
  - unfold strconv.Atoi. by rewrite ParseInt_FormatInt.
  - destruct (Hf f eq_refl) as [Hint Hfloat].
    destruct (strconv.Atoi (FormatFloat f)) as [i [e|]]; [|done].
    by rewrite Hfloat.
  - by rewrite DecodeString_EncodeToString.
  - destruct Hs as [Hsec Hnsec]. unfold strconv.Itoa.
    rewrite append_cons, append_nil_l, Split_single.
    + rewrite !ParseInt_FormatInt, Unix_in_range; [done|lia| |done].
      unfold is_int64. lia.
    + by apply ContainsByte_FormatInt.
    + apply ContainsByte_FormatInt. unfold is_int64. lia.
Qed.


Lemma encode_loop (l : list (string * Value)) (acc : TypedItem) :
  NoDup l.*1 ->
  (forall name v, (name, v) ∈ l -> supported v) ->
  fold_left (encodeStep FormatFloat) l (Ok acc)
  = Ok ((typedOf <$> (list_to_map l : Item)) ∪ acc).
Proof.
  revert acc. induction l as [|[name v] l IH]; intros acc Hnd Hsup.
  - cbn. by rewrite fmap_empty, (left_id_L ∅ (∪)).
  - apply NoDup_cons in Hnd as [Hname Hnd]. cbn [fold_left encodeStep fst snd].
    rewrite encodeValue_supported by (apply (Hsup name); left).
    rewrite IH; [|done|intros n' v' Hin; apply (Hsup n'); by right].
    f_equal. cbn [list_to_map foldr fst snd].
    rewrite fmap_insert, <- insert_union_l, insert_union_r; [done|].
    rewrite lookup_fmap. by rewrite (not_elem_of_list_to_map_1 l name).
Qed.

Lemma decode_loop (l : list (string * gmap string Value)) (acc : Item) :
  NoDup l.*1 ->
  (forall name typed, (name, typed) ∈ l ->
     decodeValue ParseFloat name typed = Ok (Some (valueOf typed))) ->
  fold_left (decodeStep ParseFloat) l (Ok acc)
  = Ok ((valueOf <$> (list_to_map l : TypedItem)) ∪ acc).
Proof.
  revert acc. induction l as [|[name typed] l IH]; intros acc Hnd Hdec.
  - cbn. by rewrite fmap_empty, (left_id_L ∅ (∪)).
  - apply NoDup_cons in Hnd as [Hname Hnd]. cbn [fold_left decodeStep fst snd].
    rewrite (Hdec name typed) by left.
    rewrite IH; [|done|intros n' t' Hin; apply (Hdec n'); by right].
    f_equal. cbn [list_to_map foldr fst snd].
    rewrite fmap_insert, <- insert_union_l, insert_union_r; [done|].
    rewrite lookup_fmap. by rewrite (not_elem_of_list_to_map_1 l name).
Qed.

Lemma encodeTypedAttributes_supported (attributes : Item) :
  (forall name v, attributes !! name = Some v -> supported v) ->
  encodeTypedAttributes FormatFloat attributes = Ok (typedOf <$> attributes).
Proof.
  intros Hsup. unfold encodeTypedAttributes.
  rewrite encode_loop.
  - by rewrite list_to_map_to_list, (right_id_L ∅ (∪)).
  - apply NoDup_fst_map_to_list.
  - intros name v Hin. apply (Hsup name). by apply elem_of_map_to_list.
Qed.

Lemma decodeTypedAttributes_typedOf (attributes : Item) :
  (forall name v, attributes !! name = Some v -> supported v) ->
  (forall name f, attributes !! name = Some (VFloat64 f) -> float_round_trip f) ->
  decodeTypedAttributes ParseFloat (typedOf <$> attributes)
  = Ok (valueOf <$> (typedOf <$> attributes)).
Proof.
  intros Hsup Hfloat. unfold decodeTypedAttributes.
  rewrite decode_loop.
  - by rewrite list_to_map_to_list, (right_id_L ∅ (∪)).
  - apply NoDup_fst_map_to_list.
  - intros name typed Hin. apply elem_of_map_to_list in Hin.
    rewrite lookup_fmap in Hin.
    destruct (attributes !! name) as [v|] eqn:Hv; [|discriminate].
    injection Hin as <-. apply decodeValue_typedOf; [by eapply Hsup|].
    intros f ->. by eapply Hfloat.
Qed.

(** C1: for an attribute map whose values are of the six kinds (integers,
    floats, strings, byte slices, booleans, times), encoding succeeds and
    decoding the typed attributes gives a map with the same names whose values
    equal the ones encoded: the same integer, float, string and boolean, the
    same bytes, the same instant to the nanosecond. The float formatter and
    parser of [strconv] are assumed to invert each other on the floats of the
    map, and the formatted float not to read as an integer. *)
Theorem typed_attributes_round_trip (attributes : Item)
    (Hkinds : forall name v, attributes !! name = Some v -> supported v)
    (Hfloats : forall name f,
        attributes !! name = Some (VFloat64 f) -> float_round_trip f) :
  exists typed decoded,
    encodeTypedAttributes FormatFloat attributes = Ok typed
    /\ decodeTypedAttributes ParseFloat typed = Ok decoded
    /\ dom decoded = dom attributes
    /\ forall name v,
         attributes !! name = Some v ->
         exists v', decoded !! name = Some v' /\ value_equal v v'.
Proof.
  exists (typedOf <$> attributes), (valueOf <$> (typedOf <$> attributes)).
  split; [by apply encodeTypedAttributes_supported|].
  split; [by apply decodeTypedAttributes_typedOf|].
  split; [by rewrite !dom_fmap_L|].
  intros name v Hv. exists (valueOf (typedOf v)).
  rewrite !lookup_fmap, Hv. split; [done|].
  apply (decodeValue_typedOf name); [by eapply Hkinds|].
  intros f ->. by eapply Hfloats.
Qed.


End CodecProperties.

(** *** The round trip on a sample item *)

Lemma typed_attributes_round_trip_witness :
  exists typed decoded,
    encodeTypedAttributes sampleFormatFloat sampleItem = Ok typed
    /\ decodeTypedAttributes sampleParseFloat typed = Ok decoded
    /\ dom decoded = dom sampleItem
    /\ forall name v,
         sampleItem !! name = Some v ->
         exists v', decoded !! name = Some v' /\ value_equal v v'.
Proof.
  apply (typed_attributes_round_trip sampleFormatFloat sampleParseFloat sampleItem).
  - intros name v Hl. unfold sampleItem in Hl.
    repeat (apply lookup_insert_Some in Hl as [[_ <-]|[_ Hl]];
            [vm_compute; intuition discriminate|]).
    apply lookup_singleton_Some in Hl as [_ <-]. vm_compute. intuition discriminate.
  - intros name f Hl. unfold sampleItem in Hl.
    assert (forall g, VFloat64 1.5 = VFloat64 g ->
                      float_round_trip sampleFormatFloat sampleParseFloat g) as Hok.
    { intros g [= <-]. split; [vm_compute; discriminate|reflexivity]. }
    repeat (apply lookup_insert_Some in Hl as [[_ Hv]|[_ Hl]];
            [first [discriminate | by apply Hok]|]).
    apply lookup_singleton_Some in Hl as [_ Hv]. discriminate.
Defined.

(** ** Paths *)

(** The cases of the tests of Go's [path.Clean]. *)
Example Clean_cases :
  map path.Clean
      [""; "abc"; "abc/def"; "."; ".."; "../.."; "../../abc"; "/abc"; "/";
       "abc/"; "abc/def/"; "./"; "../"; "../../"; "/abc/"; "abc//def//ghi";
       "//abc"; "///abc"; "//abc//"; "abc//"; "abc/./def"; "/./abc/def"; "abc/.";
       "abc/def/ghi/../jkl"; "abc/def/../ghi/../jkl"; "abc/def/.."; "abc/def/../..";
       "/abc/def/../.."; "abc/def/../../.."; "/abc/def/../../..";
       "abc/def/../../../ghi/jkl/../../../mno"; "abc/./../def"; "abc//./../def";
       "abc/../../././../def"]
  = ["."; "abc"; "abc/def"; "."; ".."; "../.."; "../../abc"; "/abc"; "/";
     "abc"; "abc/def"; "."; ".."; "../.."; "/abc"; "abc/def/ghi";
     "/abc"; "/abc"; "/abc"; "abc"; "abc/def"; "/abc/def"; "abc";
     "abc/def/jkl"; "abc/jkl"; "abc"; ".";
     "/"; ".."; "/";
     "../../mno"; "def"; "def";
     "../../def"].
Proof. reflexivity. Qed.

Example Dir_cases :
  map path.Dir ["/a/b"; "/a/b/"; "/a"; "a"; ""; "/"; "a/b/c.x"; "////"]
  = ["/a"; "/a/b"; "/"; "."; "."; "/"; "a/b"; "/"].
Proof. reflexivity. Qed.

Example requestPath_cases :
  requestPath "c" "/a//b/" = "/c/a/b/" /\ requestPath "c" "" = "/c"
  /\ requestPath "c" "/mystream" = "/c/mystream".
Proof. repeat split. Qed.

Lemma Split_slash_free (s cur : string) :
  strings.ContainsByte s "/" = false ->
  strings.Split_go "/" 0 cur s = [cur +:+ s].
Proof.
  revert cur. induction s as [|x s IH]; intros cur Hs.
  - by rewrite append_nil_r.
  - cbn [strings.ContainsByte] in Hs. apply orb_false_elim in Hs as [Hx Hs].
    cbn [strings.Split_go]. rewrite prefix_single, Hx.
    rewrite IH by done. by rewrite append_assoc.
Qed.

(** Cutting at slashes two strings joined by a slash. *)
Lemma Split_go_slash_app (a b cur : string) :
  strings.Split_go "/" 0 cur (a +:+ String "/" b)
  = (strings.Split_go "/" 0 cur a ++ strings.Split_go "/" 0 "" b)%list.
Proof.
  revert cur. induction a as [|x a IH]; intros cur.
  - rewrite append_nil_l. cbn [strings.Split_go].
    rewrite prefix_single, Ascii.eqb_refl. reflexivity.
  - rewrite append_cons. cbn [strings.Split_go].
    rewrite !prefix_single.
    destruct (Ascii.eqb x "/"); cbn [String.length Nat.sub]; by rewrite IH.
Qed.

Lemma Split_slash_app (a b : string) :
  strings.Split (a +:+ String "/" b) "/"
  = (strings.Split a "/" ++ strings.Split b "/")%list.
Proof. apply Split_go_slash_app. Qed.

Lemma Split_slash_app' (a b : string) :
  strings.Split (a +:+ "/" +:+ b) "/"
  = (strings.Split a "/" ++ strings.Split b "/")%list.
Proof. rewrite (append_cons "/" "" b), append_nil_l. apply Split_slash_app. Qed.

Lemma ContainsByte_app (a b : string) (c : ascii) :
  strings.ContainsByte (a +:+ b) c
  = strings.ContainsByte a c || strings.ContainsByte b c.
Proof.
  induction a as [|x a IH]; [done|].
  rewrite append_cons. cbn [strings.ContainsByte]. by rewrite IH, orb_assoc.
Qed.

Lemma ContainsByte_rev (s : string) (c : ascii) :
  strings.ContainsByte (strings.rev s) c = strings.ContainsByte s c.
Proof.
  induction s as [|x s IH]; [done|].
  rewrite rev_cons, ContainsByte_app, IH. cbn [strings.ContainsByte].
  rewrite orb_false_r. apply orb_comm.
Qed.

(** The pieces [Split] cuts at slashes hold no slash. *)
Lemma Split_go_pieces_slash_free (s cur : string) :
  strings.ContainsByte cur "/" = false ->
  Forall (fun piece => strings.ContainsByte piece "/" = false)
         (strings.Split_go "/" 0 cur s).
Proof.
  revert cur. induction s as [|x s IH]; intros cur Hcur.
  - by constructor.
  - cbn [strings.Split_go]. rewrite prefix_single.
    destruct (Ascii.eqb x "/") eqn:Hx.
    + constructor; [done|]. by apply IH.
    + apply IH. rewrite ContainsByte_app, Hcur. cbn [strings.ContainsByte].
      by rewrite Hx.
Qed.

Lemma Split_pieces_slash_free (s : string) :
  Forall (fun piece => strings.ContainsByte piece "/" = false) (strings.Split s "/").
Proof. by apply Split_go_pieces_slash_free. Qed.

Lemma Join_cons (e : string) (rest : list string) (sep : string) :
  rest <> [] -> strings.Join (e :: rest) sep = e +:+ sep +:+ strings.Join rest sep.
Proof. by destruct rest. Qed.

(** Cutting at slashes what was joined with slashes. *)
Lemma Split_Join (elems : list string) :
  elems <> [] ->
  Forall (fun elem => strings.ContainsByte elem "/" = false) elems ->
  strings.Split (strings.Join elems "/") "/" = elems.
Proof.
  intros Hne Hall. induction Hall as [|e rest He Hrest IH]; [done|].
  destruct rest as [|e' rest].
  - cbn [strings.Join]. unfold strings.Split. by rewrite Split_slash_free.
  - rewrite Join_cons by done. rewrite Split_slash_app', IH by done.
    unfold strings.Split at 1. by rewrite Split_slash_free.
Qed.

Lemma kept_app (a b : list string) : kept (a ++ b) = (kept a ++ kept b)%list.
Proof. apply List.filter_app. Qed.

Lemma kept_kept (l : list string) : kept (kept l) = kept l.
Proof.
  unfold kept. induction l as [|x l IH]; [done|]. cbn [List.filter].
  destruct (negb _) eqn:Hx; [|done]. cbn [List.filter]. by rewrite Hx, IH.
Qed.

Lemma kept_Forall (l : list string) :
  Forall (fun elem => elem <> "" /\ elem <> ".") (kept l).
Proof.
  unfold kept. induction l as [|x l IH]; [constructor|]. cbn [List.filter].
  destruct (negb _) eqn:Hx; [|done]. constructor; [|done].
  apply negb_true_iff, orb_false_elim in Hx as [H1 H2].
  apply bool_decide_eq_false in H1, H2. done.
Qed.

Lemma kept_subset (P : string -> Prop) (l : list string) :
  Forall P l -> Forall P (kept l).
Proof.
  unfold kept. induction 1 as [|x l Hx Hl IH]; [constructor|]. cbn [List.filter].
  destruct (negb _); [by constructor|done].
Qed.

(** Without [..] the clean-up only drops the empty elements and the dots. *)
Lemma clean_fold_no_dotdot (rooted : bool) (elems stack : list string) :
  Forall (fun elem => elem <> "..") elems ->
  fold_left (path.clean_step rooted) elems stack
  = (List.rev (kept elems) ++ stack)%list.
Proof.
  intros Hall. revert stack.
  induction Hall as [|e elems He Hall IH]; intros stack; [done|].
  cbn [fold_left]. rewrite IH. unfold kept at 2. cbn [List.filter].
  unfold path.clean_step.
  destruct (bool_decide (e = "") || bool_decide (e = ".")); cbn [negb]; [done|].
  rewrite bool_decide_eq_false_2 by done.
  cbn [List.rev]. by rewrite <- app_assoc.
Qed.

Lemma Join_nonempty (e : string) (rest : list string) (sep : string) :
  e <> "" -> strings.Join (e :: rest) sep <> "".
Proof.
  intros He. destruct rest; [done|]. rewrite Join_cons by done.
  destruct e; [done|]. by rewrite append_cons.
Qed.

(** The elements of a cleaned path are the kept elements of the path. *)
Lemma Split_Clean_no_dotdot (p : string) :
  no_dotdot p ->
  kept (strings.Split (path.Clean p) "/") = kept (strings.Split p "/")
  /\ no_dotdot (path.Clean p).
Proof.
  unfold no_dotdot. intros Hp. unfold path.Clean, path.clean_elems.
  rewrite clean_fold_no_dotdot, app_nil_r, List.rev_involutive by done.
  pose proof (kept_Forall (strings.Split p "/")) as Hkept.
  pose proof (kept_subset _ _ (Split_pieces_slash_free p)) as Hslash.
  pose proof (kept_subset _ _ Hp) as Hdd.
  destruct (kept (strings.Split p "/")) as [|e rest] eqn:HE.
  - destruct (strings.HasPrefix p "/");
      (split; [by vm_compute|vm_compute; repeat (constructor; [discriminate|]);
                             constructor]).
  - assert (strings.Join (e :: rest) "/" <> "") as Hne.
    { apply Join_nonempty. by apply Forall_cons in Hkept as [[? ?] _]. }
    destruct (strings.HasPrefix p "/").
    + rewrite bool_decide_eq_false_2
        by (rewrite (append_cons "/" "" _); discriminate).
      rewrite (append_cons "/" "" _), append_nil_l.
      rewrite <- (append_nil_l (String "/" _)), Split_slash_app, Split_Join by done.
      split.
      * rewrite kept_app, <- HE, kept_kept. reflexivity.
      * apply Forall_app. split; [by repeat constructor|done].
    + rewrite append_nil_l, bool_decide_eq_false_2 by done.
      rewrite Split_Join by done. split; [|done].
      by rewrite <- HE, kept_kept.
Qed.

Lemma Split_rooted (b : string) :
  strings.Split ("/" +:+ b) "/" = "" :: strings.Split b "/".
Proof.
  rewrite (append_cons "/" "" b), append_nil_l.
  rewrite <- (append_nil_l (String "/" b)). by rewrite Split_slash_app.
Qed.

Lemma join_buf_first (e : string) : e <> "" -> path.join_buf "" e = e.
Proof.
  intros He. unfold path.join_buf.
  rewrite (bool_decide_eq_true_2 ("" = "")), (bool_decide_eq_false_2 (e = "")) by done.
  reflexivity.
Qed.

Lemma join_buf_next (buf e : string) :
  buf <> "" -> path.join_buf buf e = (buf +:+ "/") +:+ e.
Proof.
  intros Hb. unfold path.join_buf.
  by rewrite (bool_decide_eq_false_2 (buf = "")) by done.
Qed.

(** What [path.Join] makes of the root, the container and the path of a
    request. *)
Lemma Join_request (containerName pathStr : string) :
  path.Join ["/"; containerName; pathStr]
  = "/" +:+ strings.Join (List.rev (stack_of containerName pathStr)) "/".
Proof.
  unfold path.Join. cbn [strings.Join fold_left].
  rewrite bool_decide_eq_false_2 by (rewrite (append_cons "/" "" _); discriminate).
  rewrite join_buf_first, join_buf_next, join_buf_next; try done.
  replace (((("/" +:+ "/") +:+ containerName) +:+ "/") +:+ pathStr)
    with ("" +:+ "/" +:+ ("" +:+ "/" +:+ (containerName +:+ "/" +:+ pathStr)))
    by (rewrite !append_assoc; reflexivity).
  unfold path.Clean.
  replace (strings.HasPrefix _ "/") with true by reflexivity.
  rewrite !Split_slash_app'. unfold path.clean_elems.
  change (strings.Split "" "/") with [""].
  rewrite !fold_left_app. cbn [fold_left].
  change (path.clean_step true [] "") with (@nil string).
  fold (stack_of containerName pathStr).
  rewrite bool_decide_eq_false_2 by (rewrite (append_cons "/" "" _); discriminate).
  reflexivity.
Qed.

Lemma clean_step_plain (stack : list string) (seg : string) :
  Forall plain_name stack -> strings.ContainsByte seg "/" = false ->
  Forall plain_name (path.clean_step true stack seg).
Proof.
  intros Hstack Hseg. unfold path.clean_step.
  destruct (bool_decide (seg = "")) eqn:H1; [done|].
  destruct (bool_decide (seg = ".")) eqn:H2; [done|]. cbn [orb].
  destruct (bool_decide (seg = "..")) eqn:H3.
  - destruct stack as [|top below]; [done|].
    apply Forall_cons in Hstack as [Htop Hbelow].
    destruct (bool_decide (top = "..")) eqn:H4; [|done].
    apply bool_decide_eq_true in H4. by destruct Htop as (_ & _ & ? & _).
  - constructor; [|done].
    apply bool_decide_eq_false in H1, H2, H3. done.
Qed.

Lemma clean_fold_plain (segs stack : list string) :
  Forall plain_name stack ->
  Forall (fun seg => strings.ContainsByte seg "/" = false) segs ->
  Forall plain_name (fold_left (path.clean_step true) segs stack).
Proof.
  intros Hstack Hsegs. revert stack Hstack.
  induction Hsegs as [|seg segs Hseg Hsegs IH]; intros stack Hstack; [done|].
  cbn [fold_left]. apply IH. by apply clean_step_plain.
Qed.

Lemma stack_of_plain (containerName pathStr : string) :
  Forall plain_name (stack_of containerName pathStr).
Proof.
  unfold stack_of. apply clean_fold_plain; [|apply Split_pieces_slash_free].
  apply clean_fold_plain; [constructor|apply Split_pieces_slash_free].
Qed.

Lemma kept_plain (elems : list string) : Forall plain_name elems -> kept elems = elems.
Proof.
  unfold kept. induction 1 as [|e elems (H1 & H2 & _) Hall IH]; [done|].
  cbn [List.filter]. rewrite !bool_decide_eq_false_2 by done. cbn. by rewrite IH.
Qed.

(** A rooted path of plain names is clean. *)
Lemma Clean_plain (elems : list string) :
  Forall plain_name elems ->
  path.Clean ("/" +:+ strings.Join elems "/") = "/" +:+ strings.Join elems "/".
Proof.
  intros Hplain. destruct elems as [|e rest]; [reflexivity|].
  unfold path.Clean, strings.HasPrefix. rewrite prefix_append.
  rewrite Split_rooted, Split_Join; [|done|].
  2: { eapply Forall_impl; [exact Hplain|]. by intros x (_ & _ & _ & ?). }
  unfold path.clean_elems.
  rewrite clean_fold_no_dotdot.
  2: { constructor; [done|].
       eapply Forall_impl; [exact Hplain|]. by intros x (_ & _ & ? & _). }
  rewrite app_nil_r, List.rev_involutive.
  change (kept ("" :: e :: rest)) with (kept (e :: rest)).
  rewrite (kept_plain (e :: rest)) by done.
  by rewrite bool_decide_eq_false_2
    by (rewrite (append_cons "/" "" _); discriminate).
Qed.

(** The path of a request in closed form. *)
Lemma requestPath_closed (containerName pathStr : string) :
  requestPath containerName pathStr
  = ("/" +:+ strings.Join (List.rev (stack_of containerName pathStr)) "/")
    +:+ (if strings.HasSuffix pathStr "/" then "/" else "").
Proof.
  unfold requestPath. rewrite Join_request, Clean_plain.
  - destruct (strings.HasSuffix pathStr "/"); [done|by rewrite append_nil_r].
  - apply Forall_rev, stack_of_plain.
Qed.

Lemma Split_trailing (a : string) :
  strings.Split (a +:+ "/") "/" = (strings.Split a "/" ++ [""])%list.
Proof.
  rewrite <- (append_nil_r (a +:+ "/")), append_assoc. apply Split_slash_app'.
Qed.

Lemma from_slash_rev_name (name rest : string) :
  strings.ContainsByte name "/" = false ->
  path.from_slash (name +:+ String "/" rest) = String "/" rest.
Proof.
  induction name as [|x name IH]; intros Hname.
  - rewrite append_nil_l. reflexivity.
  - cbn [strings.ContainsByte] in Hname. apply orb_false_elim in Hname as [Hx Hname].
    rewrite append_cons. cbn [path.from_slash]. rewrite Hx. by apply IH.
Qed.

(** The directory part of [d/name] is [d/]. *)
Lemma SplitDir_name (d name : string) :
  strings.ContainsByte name "/" = false ->
  path.SplitDir (d +:+ "/" +:+ name) = d +:+ "/".
Proof.
  intros Hname. unfold path.SplitDir.
  rewrite !rev_append. change (strings.rev "/") with "/".
  rewrite append_assoc, (append_cons "/" "" _), append_nil_l.
  rewrite from_slash_rev_name by (by rewrite ContainsByte_rev).
  by rewrite rev_cons, rev_involutive.
Qed.

Lemma SplitDir_trailing (p : string) :
  strings.HasSuffix p "/" = true -> path.SplitDir p = p.
Proof.
  intros Hp. apply HasSuffix_true_inv in Hp as [a ->].
  rewrite <- (append_nil_r (a +:+ "/")), append_assoc at 1.
  rewrite SplitDir_name by done. reflexivity.
Qed.

Lemma no_dotdot_trailing (d : string) : no_dotdot d -> no_dotdot (d +:+ "/").
Proof.
  unfold no_dotdot. rewrite Split_trailing, Forall_app. intros Hd.
  split; [done|]. by repeat constructor.
Qed.

(** The stack after the path of the last deletion is the stack after the
    directory it was computed from. *)
Lemma stack_of_Clean (containerName q : string) :
  no_dotdot q ->
  stack_of containerName ("/" +:+ path.Clean q +:+ "/") = stack_of containerName q.
Proof.
  intros Hq. destruct (Split_Clean_no_dotdot q Hq) as [Hkept Hdd].
  unfold stack_of. rewrite Split_rooted, Split_trailing.
  rewrite (clean_fold_no_dotdot true (strings.Split q "/")) by done.
  rewrite clean_fold_no_dotdot.
  2: { constructor; [done|]. apply Forall_app. split; [exact Hdd|].
       by repeat constructor. }
  change (kept ("" :: ?l)) with (kept l).
  rewrite kept_app, Hkept. change (kept [""]) with (@nil string).
  by rewrite app_nil_r.
Qed.

Lemma HasSuffix_deleteStreamPath (p : string) :
  strings.HasSuffix (deleteStreamPath p) "/" = true.
Proof.
  unfold deleteStreamPath. rewrite <- append_assoc. apply HasSuffix_append.
Qed.

Lemma Join_snoc (elems : list string) (e sep : string) :
  elems <> [] ->
  strings.Join (elems ++ [e]) sep = strings.Join elems sep +:+ sep +:+ e.
Proof.
  induction elems as [|x elems IH]; [done|]. intros _.
  destruct elems as [|y elems]; [reflexivity|].
  change ((x :: y :: elems) ++ [e])%list with (x :: ((y :: elems) ++ [e]))%list.
  rewrite Join_cons by done. rewrite IH by done.
  rewrite (Join_cons x (y :: elems)) by done. by rewrite !append_assoc.
Qed.

Lemma stack_of_name (containerName d name : string) :
  no_dotdot d -> plain_name name ->
  stack_of containerName (d +:+ "/" +:+ name +:+ "/")
  = name :: stack_of containerName (d +:+ "/")
  /\ stack_of containerName (d +:+ "/" +:+ name)
     = name :: stack_of containerName (d +:+ "/").
Proof.
  intros Hd (Hn1 & Hn2 & Hn3 & Hn4). unfold stack_of.
  generalize (fold_left (path.clean_step true) (strings.Split containerName "/") []).
  intros stack.
  rewrite !Split_slash_app', !Split_trailing.
  assert (strings.Split name "/" = [name]) as ->
    by (unfold strings.Split; by rewrite Split_slash_free).
  assert (kept [name] = [name]) as Hk
    by (apply kept_plain; by repeat constructor).
  assert (Forall (fun elem => elem <> "..") [name]) as Hname by (by constructor).
  assert (Forall (fun elem : string => elem <> "..") [""]) as Hempty
    by (by repeat constructor).
  unfold no_dotdot in Hd.
  rewrite !clean_fold_no_dotdot by (repeat (apply Forall_app; split); done).
  rewrite !kept_app, Hk. change (kept [""]) with (@nil string).
  rewrite !app_nil_r, !rev_app_distr. done.
Qed.

Lemma from_slash_slash_free (r : string) :
  strings.ContainsByte r "/" = false -> path.from_slash r = "".
Proof.
  induction r as [|x r IH]; [done|]. cbn [strings.ContainsByte path.from_slash].
  intros Hr. apply orb_false_elim in Hr as [Hx Hr]. rewrite Hx. by apply IH.
Qed.

(** A path without a slash has no directory part: [path.Dir] gives [.]. *)
Lemma deleteStreamPath_slash_free (name : string) :
  strings.ContainsByte name "/" = false -> deleteStreamPath name = "/./".
Proof.
  intros Hname. unfold deleteStreamPath, path.Dir, path.SplitDir.
  rewrite from_slash_slash_free by (by rewrite ContainsByte_rev). reflexivity.
Qed.

Lemma stack_of_rooted (containerName p : string) :
  stack_of containerName ("/" +:+ p) = stack_of containerName p.
Proof. unfold stack_of. by rewrite Split_rooted. Qed.

Lemma requestPath_root_dot (containerName : string) :
  requestPath containerName "/./" = requestPath containerName "/".
Proof. rewrite !requestPath_closed. reflexivity. Qed.

Lemma HasSuffix_slash_free (name : string) :
  strings.ContainsByte name "/" = false -> strings.HasSuffix name "/" = false.
Proof.
  intros Hname. destruct (strings.HasSuffix name "/") eqn:Hs; [|done].
  apply HasSuffix_true_inv in Hs as [a ->].
  rewrite ContainsByte_app in Hname. apply orb_false_elim in Hname as [_ Hname].
  discriminate.
Qed.

(** A leading slash of the path of a request changes nothing of its URI. *)
Lemma requestPath_rooted (containerName p : string) :
  strings.HasSuffix ("/" +:+ p) "/" = strings.HasSuffix p "/" ->
  requestPath containerName ("/" +:+ p) = requestPath containerName p.
Proof.
  intros Hs. by rewrite !requestPath_closed, stack_of_rooted, Hs.
Qed.

(** A path holds no slash, or is [d/name] with no slash in [name]. *)
Lemma last_slash (p : string) :
  strings.ContainsByte p "/" = false
  \/ exists d name, p = d +:+ "/" +:+ name
                    /\ strings.ContainsByte name "/" = false.
Proof.
  induction p as [|x p IH]; [by left|].
  destruct IH as [Hfree|(d & name & -> & Hname)].
  - destruct (Ascii.eqb x "/") eqn:Hx.
    + right. exists "", p. apply Ascii.eqb_eq in Hx as ->. by split.
    + left. cbn [strings.ContainsByte]. by rewrite Hx, Hfree.
  - right. exists (String x d), name. by split.
Qed.

(** Two paths the last deletion does not resolve to the stream directory
    for, because of an element [..]: a rooted path with a trailing slash, and
    a path without one. *)
Lemma deleteStream_target_dotdot :
  (strings.HasSuffix "/../x/" "/" = true
   /\ requestPath "c" (deleteStreamPath "/../x/") = "/c/x/"
   /\ requestPath "c" "/../x/" = "/x/")
  /\ (strings.HasSuffix "/a/.." "/" = false
      /\ requestPath "c" (deleteStreamPath "/a/..") = "/c/a/"
      /\ requestPath "c" "/a/.." = "/c").
Proof. by vm_compute. Qed.

(** C10 (amended): the last deletion of [DeleteStreamSync] has the path
    ["/" + path.Dir(input.Path) + "/"]. For a stream path none of whose
    elements is [..]: when the path ends with a slash, the URI path of that
    deletion is the URI path of the stream directory itself; when the path is
    [d/name], its last element holding no slash, it is the URI path of the
    directory [d/], and for a proper name this is neither the URI path of
    [d/name] nor that of [d/name/]. For a top-level stream [/name] in a
    container [c] it is the container root, [/c/]. A stream path that holds
    no slash at all, [name], is a top-level stream as well: the path of the
    deletion is ["/./"], its URI path is the one of the container root,
    [/c/], and for a proper name this is neither the URI path of [name] nor
    that of [name/]. Every path that does not end with a slash is of one of
    these two shapes, [d/name] or [name]. *)
Theorem deleteStream_target (containerName : string) :
  (forall p, no_dotdot p -> strings.HasSuffix p "/" = true ->
     requestPath containerName (deleteStreamPath p) = requestPath containerName p)
  /\ (forall d name, no_dotdot d -> strings.ContainsByte name "/" = false ->
        requestPath containerName (deleteStreamPath (d +:+ "/" +:+ name))
        = requestPath containerName (d +:+ "/"))
  /\ (forall d name, no_dotdot d -> plain_name name ->
        requestPath containerName (deleteStreamPath (d +:+ "/" +:+ name))
        <> requestPath containerName (d +:+ "/" +:+ name +:+ "/")
        /\ requestPath containerName (deleteStreamPath (d +:+ "/" +:+ name))
           <> requestPath containerName (d +:+ "/" +:+ name))
  /\ (forall name, plain_name containerName -> plain_name name ->
        requestPath containerName (deleteStreamPath ("/" +:+ name))
        = "/" +:+ containerName +:+ "/")
  /\ (forall name, strings.ContainsByte name "/" = false ->
        deleteStreamPath name = "/./"
        /\ requestPath containerName (deleteStreamPath name)
           = requestPath containerName "/"
        /\ (plain_name containerName ->
            requestPath containerName (deleteStreamPath name)
            = "/" +:+ containerName +:+ "/"))
  /\ (forall name, plain_name name ->
        requestPath containerName (deleteStreamPath name)
        <> requestPath containerName (name +:+ "/")
        /\ requestPath containerName (deleteStreamPath name)
           <> requestPath containerName name)
  /\ (forall p, strings.HasSuffix p "/" = false ->
        strings.ContainsByte p "/" = false
        \/ exists d name, p = d +:+ "/" +:+ name
                          /\ strings.ContainsByte name "/" = false
                          /\ name <> ""
                          /\ (no_dotdot p -> no_dotdot d)).
Proof.
  assert (forall p, no_dotdot p -> strings.HasSuffix p "/" = true ->
            requestPath containerName (deleteStreamPath p)
            = requestPath containerName p) as Hslash.
  { intros p Hp Hs. rewrite !requestPath_closed, HasSuffix_deleteStreamPath, Hs.
    unfold deleteStreamPath, path.Dir. rewrite SplitDir_trailing by done.
    by rewrite stack_of_Clean. }
  assert (forall d name, no_dotdot d -> strings.ContainsByte name "/" = false ->
            requestPath containerName (deleteStreamPath (d +:+ "/" +:+ name))
            = requestPath containerName (d +:+ "/")) as Hparent.
  { intros d name Hd Hname. rewrite <- (Hslash (d +:+ "/")).
    - unfold deleteStreamPath, path.Dir.
      rewrite SplitDir_name, SplitDir_trailing; [done| |done].
      apply HasSuffix_append.
    - by apply no_dotdot_trailing.
    - apply HasSuffix_append. }
  assert (forall d name, no_dotdot d -> plain_name name ->
            requestPath containerName (deleteStreamPath (d +:+ "/" +:+ name))
            <> requestPath containerName (d +:+ "/" +:+ name +:+ "/")
            /\ requestPath containerName (deleteStreamPath (d +:+ "/" +:+ name))
               <> requestPath containerName (d +:+ "/" +:+ name)) as Hdiffer.
  2: { assert (plain_name containerName ->
               requestPath containerName "/" = "/" +:+ containerName +:+ "/")
         as Hroot.
       { intros Hc. rewrite requestPath_closed. unfold stack_of.
         destruct Hc as (Hc1 & Hc2 & Hc3 & Hc4).
         assert (strings.Split containerName "/" = [containerName]) as ->
           by (unfold strings.Split; by rewrite Split_slash_free).
         change (strings.Split "/" "/") with [""; ""].
         cbn [fold_left]. unfold path.clean_step at 3.
         rewrite !bool_decide_eq_false_2 by done. reflexivity. }
       split; [exact Hslash|]. split; [exact Hparent|]. split; [exact Hdiffer|].
       split; [|split; [|split]].
       - intros name Hc Hname.
         rewrite <- (append_nil_l ("/" +:+ name)).
         rewrite Hparent; [|by repeat constructor|apply Hname].
         rewrite append_nil_l. by apply Hroot.
       - intros name Hname. rewrite deleteStreamPath_slash_free by done.
         split; [done|]. rewrite requestPath_root_dot. split; [done|].
         by apply Hroot.
       - intros name Hname.
         assert (strings.ContainsByte name "/" = false) as Hsl by apply Hname.
         destruct (Hdiffer "" name) as [Hd1 Hd2]; [by repeat constructor|done|].
         rewrite Hparent in Hd1, Hd2 by (done || by repeat constructor).
         rewrite !append_nil_l in Hd1, Hd2.
         rewrite deleteStreamPath_slash_free, requestPath_root_dot by done.
         rewrite requestPath_rooted in Hd1.
         2: { rewrite <- append_assoc. by rewrite !HasSuffix_append. }
         rewrite requestPath_rooted in Hd2; [done|].
         rewrite (HasSuffix_slash_free name) by done.
         destruct (strings.HasSuffix ("/" +:+ name) "/") eqn:Hs; [|done].
         apply HasSuffix_true_inv in Hs as [a Ha].
         apply (f_equal strings.rev) in Ha. rewrite !rev_append in Ha.
         change (strings.rev "/") with "/" in Ha.
         rewrite (append_cons "/" "" _), append_nil_l in Ha.
         destruct (strings.rev name) as [|x r] eqn:Hr.
         + apply (f_equal strings.rev) in Hr. rewrite rev_involutive in Hr.
           by destruct Hname.
         + rewrite append_cons in Ha. injection Ha as -> _.
           rewrite <- ContainsByte_rev, Hr in Hsl. discriminate.
       - intros p Hp. destruct (last_slash p) as [Hfree|(d & name & -> & Hname)].
         + by left.
         + right. exists d, name. split; [done|]. split; [done|]. split.
           * intros ->. rewrite append_nil_r in Hp.
             by rewrite HasSuffix_append in Hp.
           * unfold no_dotdot. rewrite Split_slash_app', Forall_app. tauto. }
  - intros d name Hd Hname.
    assert (strings.ContainsByte name "/" = false) as Hsl by apply Hname.
    assert (name <> "") as Hne by apply Hname.
    destruct (stack_of_name containerName d name Hd Hname) as [Hst1 Hst2].
    assert (strings.HasSuffix (d +:+ "/" +:+ name) "/" = false) as Hns.
    { destruct (strings.HasSuffix (d +:+ "/" +:+ name) "/") eqn:Hs; [|done].
      apply HasSuffix_true_inv in Hs as [a Ha].
      apply (f_equal strings.rev) in Ha. rewrite !rev_append in Ha.
      change (strings.rev "/") with "/" in Ha.
      rewrite !(append_cons "/" "" _), !append_nil_l in Ha.
      destruct (strings.rev name) as [|x r] eqn:Hr.
      - apply (f_equal strings.rev) in Hr. rewrite rev_involutive in Hr. done.
      - rewrite append_cons in Ha. injection Ha as -> _.
        rewrite <- ContainsByte_rev, Hr in Hsl. discriminate. }
    split; intros Heq; rewrite Hparent in Heq by done;
      rewrite !requestPath_closed in Heq.
    + rewrite <- !append_assoc in Heq. rewrite !HasSuffix_append in Heq.
      rewrite !append_assoc in Heq. rewrite Hst1 in Heq. cbn [List.rev] in Heq.
      apply (f_equal String.length) in Heq.
      destruct (List.rev (stack_of containerName (d +:+ "/"))) as [|e l] eqn:HE.
      * cbn [app strings.Join] in Heq. rewrite !length_append in Heq.
        destruct name; [done|]. cbn in Heq. lia.
      * rewrite Join_snoc in Heq by done. rewrite !length_append in Heq.
        destruct name; [done|]. cbn in Heq. lia.
    + rewrite Hst2, Hns, HasSuffix_append in Heq. cbn [List.rev] in Heq.
      destruct (List.rev (stack_of containerName (d +:+ "/"))) as [|e l] eqn:HE.
      * cbn [app strings.Join] in Heq.
        rewrite !append_nil_r, !(append_cons "/" "" _), !append_nil_l in Heq.
        injection Heq as Heq. rewrite <- Heq in Hsl. discriminate.
      * rewrite Join_snoc in Heq by done.
        apply (f_equal String.length) in Heq. rewrite !length_append in Heq.
        destruct name; [done|]. cbn in Heq. lia.
Qed.

(** ** The items of [GetItems] *)

Lemma decodeCapnpItems_names (valuesSections : list attributeValuesSection)
    (attributeNames : list string) (items : list (option CapnpItem)) :
  forall ditems,
    decodeCapnpItems valuesSections attributeNames true items = Ok ditems ->
    Forall2 carries_name items ditems.
Proof.
  induction items as [|itemPtr items IH]; intros ditems; cbn [decodeCapnpItems].
  - intros [= <-]. constructor.
  - destruct (decodeCapnpItem _ _ true itemPtr) as [ditem| |] eqn:Hitem;
      [|discriminate..].
    destruct (decodeCapnpItems _ _ true items) as [rest| |]; [|discriminate..].
    intros [= <-]. constructor; [|by apply IH].
    unfold decodeCapnpItem in Hitem.
    destruct itemPtr as [item|]; [|discriminate].
    destruct (item_Attrs item) as [attrs|]; [|discriminate].
    destruct (decodeCapnpAttributes attrs _ _) as [d| |]; [|discriminate..].
    destruct (item_Name item) as [name|] eqn:Hname; [|discriminate].
    injection Hitem as <-. exists item, name.
    by rewrite lookup_insert_eq.
Qed.

Lemma getItemsParseCAPNPSections_names (capnpSections : list CapnpMessage)
    (cookie scattered : string) (getItemsOutput : GetItemsOutput) :
  getItemsParseCAPNPSections capnpSections cookie scattered true = Ok getItemsOutput ->
  exists metadataPayload items,
    List.last (map asMetadataPayload capnpSections) None = Some metadataPayload
    /\ md_Items metadataPayload = Some items
    /\ Forall2 carries_name items (gio_Items getItemsOutput).
Proof.
  unfold getItemsParseCAPNPSections.
  destruct (_ <? 2); [discriminate|].
  destruct (List.last _ None) as [md|]; [|discriminate].
  destruct (md_KeyNames md) as [?|namesPtr]; [discriminate|].
  destruct (md_Values md) as [?|values]; [discriminate|].
  destruct (md_Items md) as [items|] eqn:Hitems; [|discriminate].
  destruct (dataSections 0 _) as [[accLength sections]| |]; [|discriminate..].
  destruct (readAttributeNames namesPtr) as [names| |]; [|discriminate..].
  destruct (decodeCapnpItems _ names true items) as [ditems| |] eqn:Hdec;
    [|discriminate..].
  intros [= <-]. exists md, items. repeat split; [done|].
  by eapply decodeCapnpItems_names.
Qed.

Lemma withWildcard_of_spec (attributeNames : list string) :
  withWildcard_of attributeNames = true
  <-> "*" ∈ attributeNames \/ "**" ∈ attributeNames.
Proof.
  unfold withWildcard_of. rewrite existsb_exists. split.
  - intros (name & Hin & Hname). apply list_elem_of_In in Hin.
    apply orb_true_iff in Hname as [Hn|Hn]; apply bool_decide_eq_true in Hn;
      subst; auto.
  - intros [Hin|Hin]; apply list_elem_of_In in Hin; eexists; (split; [exact Hin|]);
      by vm_compute.
Qed.

(** ** The data plane *)

Lemma sent_nil (w : World) : sent w [] = w.
Proof. destruct w. unfold sent. cbn. by rewrite app_nil_r. Qed.

Lemma sent_sent (w : World) (a b : list HttpRequest) :
  sent (sent w a) b = sent w (a ++ b).
Proof. unfold sent. cbn. by rewrite app_assoc. Qed.

(** The loop stops at the first answer that is not [ErrConnectionClosed]. *)
Lemma retryLoop_closed_then (k : nat) :
  forall (n : nat) (request : HttpRequest) (last : TransportResult) (w : World),
    (k < n)%nat ->
    (forall i, (i < k)%nat ->
       transport w (length (roundTrips w) + i) request = Failed ErrConnectionClosed) ->
    is_ErrConnectionClosed (transport w (length (roundTrips w) + k) request) = false ->
    retryLoop n request last w
    = (Some (transport w (length (roundTrips w) + k) request),
       sent w (replicate (S k) request)).
Proof.
  induction k as [|k IH]; intros n request last w Hn Hclosed Hlast;
    (destruct n as [|n]; [lia|]); cbn [retryLoop]; unfold bind, roundTrip.
  - rewrite Nat.add_0_r in Hlast. rewrite Hlast. by rewrite Nat.add_0_r.
  - pose proof (Hclosed 0%nat ltac:(lia)) as H0. rewrite Nat.add_0_r in H0.
    rewrite H0. cbn [is_ErrConnectionClosed].
    rewrite (IH n request _ (sent w [request])).
    + cbn [sent transport roundTrips]. rewrite length_app. cbn [length].
      replace (length (roundTrips w) + 1 + k)%nat
        with (length (roundTrips w) + S k)%nat by lia.
      by rewrite sent_sent.
    + lia.
    + intros i Hi. cbn [sent transport roundTrips]. rewrite length_app.
      cbn [length].
      replace (length (roundTrips w) + 1 + i)%nat
        with (length (roundTrips w) + S i)%nat by lia.
      apply Hclosed. lia.
    + cbn [sent transport roundTrips]. rewrite length_app. cbn [length].
      by replace (length (roundTrips w) + 1 + k)%nat
        with (length (roundTrips w) + S k)%nat by lia.
Qed.

(** When every answer is [ErrConnectionClosed] the loop runs to its end. *)
Lemma retryLoop_all_closed (n : nat) :
  forall (request : HttpRequest) (last : TransportResult) (w : World),
    (forall i, (i < n)%nat ->
       transport w (length (roundTrips w) + i) request = Failed ErrConnectionClosed) ->
    retryLoop n request last w
    = (Some (match n with O => last | S _ => Failed ErrConnectionClosed end),
       sent w (replicate n request)).
Proof.
  induction n as [|n IH]; intros request last w Hclosed; cbn [retryLoop].
  - by rewrite sent_nil.
  - unfold bind, roundTrip.
    pose proof (Hclosed 0%nat ltac:(lia)) as H0. rewrite Nat.add_0_r in H0.
    rewrite H0. cbn [is_ErrConnectionClosed].
    rewrite (IH request _ (sent w [request])).
    + rewrite sent_sent. by destruct n.
    + intros i Hi. cbn [sent transport roundTrips]. rewrite length_app.
      cbn [length].
      replace (length (roundTrips w) + 1 + i)%nat
        with (length (roundTrips w) + S i)%nat by lia.
      apply Hclosed. lia.
Qed.

(** The loop sends the same request, at most as many times as it may. *)
Lemma retryLoop_attempts (n : nat) :
  forall (request : HttpRequest) (last : TransportResult) (w : World),
    exists (k : nat) (r : TransportResult),
      (k <= n)%nat
      /\ retryLoop n request last w = (Some r, sent w (replicate k request)).
Proof.
  induction n as [|n IH]; intros request last w; cbn [retryLoop].
  - exists 0%nat, last. by rewrite sent_nil.
  - unfold bind, roundTrip.
    destruct (is_ErrConnectionClosed _).
    + destruct (IH request (transport w (length (roundTrips w)) request)
                   (sent w [request])) as (k & r & Hk & ->).
      exists (S k), r. split; [lia|]. by rewrite sent_sent.
    + exists 1%nat, (transport w (length (roundTrips w)) request).
      split; [lia|done].
Qed.

Section DataplaneProperties.

Context `{External}.

(** Unfolding the steps of a computation on the state. *)
Ltac run := cbv [bind ret panic allocateResponse acquireResponse release
                   cleanupWithError errorOnly].

(** [sendRequest] up to its loop. *)
Lemma sendRequest_unfold (dataPlaneInput : DataPlaneInput)
    (method path query : string) (headers : gmap string string) (body : bytes)
    (releaseResponse : bool) (uri : Uri) (w : World) :
  ContainerName dataPlaneInput <> "" ->
  buildRequestURI (URL dataPlaneInput) (ContainerName dataPlaneInput) query path
  = Ok uri ->
  sendRequest dataPlaneInput method path query headers body releaseResponse w
  = match retryLoop 8 (initRequest dataPlaneInput method uri headers body)
                    (Answered emptyHttpResponse) (snd (acquireResponse w)) with
    | (Some (Failed err), w') => cleanupWithError dataPlaneInput err w'
    | (Some (Answered http), w') =>
        if negb ((200 <=? StatusCode http) && (StatusCode http <? 300)) then
          cleanupWithError dataPlaneInput
            (if IncludeResponseInError dataPlaneInput
             then ErrStatusCodeAndResponse (StatusCode http) http
             else ErrStatusCode (StatusCode http)) w'
        else if releaseResponse then (Some (None, None), snd (release w'))
        else (Some (Some {| resp_Output := None; resp_Context := None;
                            resp_Error := None; HTTPResponse := Some http;
                            resp_ID := 0 |}, None), w')
    | (None, w') => (None, w')
    end.
Proof.
  intros Hc Huri. unfold sendRequest.
  rewrite bool_decide_eq_false_2 by done. rewrite Huri. run.
  destruct (retryLoop 8 _ _ _) as [[[http|err]|] w']; try done.
  destruct (negb _); [done|]. by destruct releaseResponse.
Qed.

Lemma roundTrips_cleanupWithError (dataPlaneInput : DataPlaneInput) (err : error)
    (w : World) :
  cleanupWithError dataPlaneInput err w
  = (Some (None, Some err), snd (cleanupWithError dataPlaneInput err w))
  /\ roundTrips (snd (cleanupWithError dataPlaneInput err w)) = roundTrips w.
Proof. run. by destruct (IncludeResponseInError dataPlaneInput). Qed.

(** C2: [sendRequest] sends one and the same request, at most 8 times, and
    sends it again only after the transport answered
    [ErrConnectionClosed]. When the transport answers [ErrConnectionClosed]
    7 times and then with a 2xx response, the operation succeeds, after 8
    round trips; when it answers [ErrConnectionClosed] 8 times, that error is
    returned, after 8 round trips. Only [ErrConnectionClosed] is answered
    with another round trip: when the transport answers
    [ErrConnectionClosed] [k] times, for any [k] below 8, and then with any
    other error, that error is returned after the round trip that met it,
    the [k+1]-st, and nothing more is sent; when it then answers with a
    response, that response ends the loop as well, and a 2xx response makes
    the operation succeed. *)
Theorem sendRequest_retries (dataPlaneInput : DataPlaneInput)
    (method path query : string) (headers : gmap string string) (body : bytes)
    (releaseResponse : bool) (uri : Uri) (request : HttpRequest) (w : World)
    (Hcontainer : ContainerName dataPlaneInput <> "")
    (Huri : buildRequestURI (URL dataPlaneInput) (ContainerName dataPlaneInput)
                            query path = Ok uri)
    (Hrequest : request = initRequest dataPlaneInput method uri headers body) :
  (forall http,
      (forall i, (i < 7)%nat ->
         transport w (length (roundTrips w) + i) request = Failed ErrConnectionClosed) ->
      transport w (length (roundTrips w) + 7) request = Answered http ->
      200 <= StatusCode http < 300 ->
      fst (sendRequest dataPlaneInput method path query headers body
                       releaseResponse w)
      = Some (if releaseResponse then (None, None)
              else (Some {| resp_Output := None; resp_Context := None;
                            resp_Error := None; HTTPResponse := Some http;
                            resp_ID := 0 |}, None))
      /\ roundTrips (snd (sendRequest dataPlaneInput method path query headers
                                      body releaseResponse w))
         = (roundTrips w ++ replicate 8 request)%list)
  /\ ((forall i, (i < 8)%nat ->
         transport w (length (roundTrips w) + i) request = Failed ErrConnectionClosed) ->
      fst (sendRequest dataPlaneInput method path query headers body
                       releaseResponse w)
      = Some (None, Some ErrConnectionClosed)
      /\ roundTrips (snd (sendRequest dataPlaneInput method path query headers
                                      body releaseResponse w))
         = (roundTrips w ++ replicate 8 request)%list)
  /\ (forall k err, (k < 8)%nat ->
         (forall i, (i < k)%nat ->
            transport w (length (roundTrips w) + i) request
            = Failed ErrConnectionClosed) ->
         transport w (length (roundTrips w) + k) request = Failed err ->
         err <> ErrConnectionClosed ->
         fst (sendRequest dataPlaneInput method path query headers body
                          releaseResponse w)
         = Some (None, Some err)
         /\ roundTrips (snd (sendRequest dataPlaneInput method path query headers
                                         body releaseResponse w))
            = (roundTrips w ++ replicate (S k) request)%list)
  /\ (forall k http, (k < 8)%nat ->
         (forall i, (i < k)%nat ->
            transport w (length (roundTrips w) + i) request
            = Failed ErrConnectionClosed) ->
         transport w (length (roundTrips w) + k) request = Answered http ->
         roundTrips (snd (sendRequest dataPlaneInput method path query headers
                                      body releaseResponse w))
         = (roundTrips w ++ replicate (S k) request)%list
         /\ (200 <= StatusCode http < 300 ->
             fst (sendRequest dataPlaneInput method path query headers body
                              releaseResponse w)
             = Some (if releaseResponse then (None, None)
                     else (Some {| resp_Output := None; resp_Context := None;
                                   resp_Error := None; HTTPResponse := Some http;
                                   resp_ID := 0 |}, None))))
  /\ (exists k, (k <= 8)%nat
        /\ roundTrips (snd (sendRequest dataPlaneInput method path query headers
                                        body releaseResponse w))
           = (roundTrips w ++ replicate k request)%list).
Proof.
  rewrite (sendRequest_unfold _ _ _ _ _ _ _ uri) by done. rewrite <- Hrequest.
  set (w1 := snd (acquireResponse w)).
  assert (transport w1 = transport w) as Ht by reflexivity.
  assert (roundTrips w1 = roundTrips w) as Hr by reflexivity.
  split; [|split; [|split; [|split]]].
  - intros http Hclosed Hanswer Hstatus.
    rewrite (retryLoop_closed_then 7); rewrite ?Ht, ?Hr; [|lia|done|by rewrite Hanswer].
    rewrite Hanswer.
    replace ((200 <=? StatusCode http) && (StatusCode http <? 300)) with true by lia.
    cbn [negb]. destruct releaseResponse; cbn; by rewrite ?Hr.
  - intros Hclosed.
    rewrite (retryLoop_all_closed 8); rewrite ?Ht, ?Hr; [|done].
    destruct (roundTrips_cleanupWithError dataPlaneInput ErrConnectionClosed
                (sent w1 (replicate 8 request))) as [-> ->].
    cbn. by rewrite ?Hr.
  - intros k err Hk Hclosed Hfailed Hother.
    rewrite (retryLoop_closed_then k); rewrite ?Ht, ?Hr;
      [|lia|done|rewrite Hfailed; by destruct err].
    rewrite Hfailed.
    destruct (roundTrips_cleanupWithError dataPlaneInput err
                (sent w1 (replicate (S k) request))) as [-> ->].
    cbn. by rewrite ?Hr.
  - intros k http Hk Hclosed Hanswer.
    rewrite (retryLoop_closed_then k); rewrite ?Ht, ?Hr;
      [|lia|done|by rewrite Hanswer].
    rewrite Hanswer. split.
    + destruct (negb _).
      * destruct (roundTrips_cleanupWithError dataPlaneInput
                    (if IncludeResponseInError dataPlaneInput
                     then ErrStatusCodeAndResponse (StatusCode http) http
                     else ErrStatusCode (StatusCode http))
                    (sent w1 (replicate (S k) request))) as [-> ->].
        cbn. by rewrite ?Hr.
      * destruct releaseResponse; cbn; by rewrite ?Hr.
    + intros Hstatus.
      replace ((200 <=? StatusCode http) && (StatusCode http <? 300)) with true by lia.
      cbn [negb]. by destruct releaseResponse.
  - destruct (retryLoop_attempts 8 request (Answered emptyHttpResponse) w1)
      as (k & r & Hk & ->).
    exists k. split; [done|].
    destruct r as [http|err].
    + destruct (negb _).
      * destruct (roundTrips_cleanupWithError dataPlaneInput
                    (if IncludeResponseInError dataPlaneInput
                     then ErrStatusCodeAndResponse (StatusCode http) http
                     else ErrStatusCode (StatusCode http))
                    (sent w1 (replicate k request))) as [-> ->].
        cbn. by rewrite ?Hr.
      * destruct releaseResponse; cbn; by rewrite ?Hr.
    + destruct (roundTrips_cleanupWithError dataPlaneInput err
                  (sent w1 (replicate k request))) as [-> ->].
      cbn. by rewrite ?Hr.
Qed.

(** *** An empty container name *)

Lemma sendRequest_empty (dataPlaneInput : DataPlaneInput)
    (method path query : string) (headers : gmap string string) (body : bytes)
    (releaseResponse : bool) (w : World) :
  ContainerName dataPlaneInput = "" ->
  sendRequest dataPlaneInput method path query headers body releaseResponse w
  = (Some (None, Some ErrContainerNameEmpty), w).
Proof. intros Hc. unfold sendRequest. by rewrite bool_decide_eq_true_2. Qed.

Lemma encode_loop_no_panic (FF : float -> string) (l : list (string * Value))
    (acc : Res error TypedItem) :
  acc <> Panic ->
  (forall e, acc = Err e -> is_input_validation e = true) ->
  fold_left (encodeStep FF) l acc <> Panic
  /\ forall e, fold_left (encodeStep FF) l acc = Err e ->
               is_input_validation e = true.
Proof.
  revert acc. induction l as [|[name v] l IH]; intros acc Hacc Herr; cbn [fold_left].
  - done.
  - apply IH.
    + destruct acc as [typed|e0|]; [|done..]. by destruct v.
    + destruct acc as [typed|e0|]; [|by auto|done].
      destruct v; cbn; try done. by intros e [= <-].
Qed.







(** *** Deleting a stream *)

Lemma sendRequest_total (dataPlaneInput : DataPlaneInput)
    (method path query : string) (headers : gmap string string) (body : bytes)
    (releaseResponse : bool) (w : World) :
  exists r w',
    sendRequest dataPlaneInput method path query headers body releaseResponse w
    = (Some r, w').
Proof.
  unfold sendRequest. case_bool_decide; [by eexists _, _|].
  unfold buildRequestURI. cbv [bind allocateResponse acquireResponse ret].
  destruct (url_Parse _); [|by eexists _, _].
  match goal with
  | |- context [retryLoop 8 ?request ?last ?w1] =>
      destruct (retryLoop_attempts 8 request last w1) as (k & r & _ & ->)
  end.
  destruct r as [http|err].
  - destruct (negb _).
    + cbv [cleanupWithError bind ret release].
      destruct (IncludeResponseInError _); by eexists _, _.
    + destruct releaseResponse; cbv [bind release ret]; by eexists _, _.
  - cbv [cleanupWithError bind ret release].
    destruct (IncludeResponseInError _); by eexists _, _.
Qed.

Lemma DeleteObjectSync_total (deleteObjectInput : DeleteObjectInput) (w : World) :
  exists err w', DeleteObjectSync deleteObjectInput w = (Some err, w').
Proof.
  unfold DeleteObjectSync, bind.
  destruct (sendRequest_total (do_dpi deleteObjectInput) "DELETE"
              (do_Path deleteObjectInput) "" ∅ [] true w) as (r & w' & ->).
  by eexists _, _.
Qed.

Lemma bind_foldM_cons {A B C} (f : B -> A -> M B) (a : A) (l : list A) (b : B)
    (k : B -> M C) (w : World) :
  bind (foldM f (a :: l) b) k w
  = match f b a w with
    | (Some b', w') => bind (foldM f l b') k w'
    | (None, w') => (None, w')
    end.
Proof. cbn [foldM]. unfold bind. by destruct (f b a w) as [[b'|] w']. Qed.

(** The loop over the shards and the last deletion, with the errors of all
    the deletions. *)
Lemma deleteStream_deletions (deleteStreamInput : DeleteStreamInput)
    (contents : list Content) (w : World) :
  exists errs w2,
    deleteStreamDeletions deleteStreamInput contents w = (Some errs, w2)
    /\ length errs = S (length contents)
    /\ (foldM (fun (_ : unit) content =>
                 DeleteObjectSync {| do_dpi := dls_dpi deleteStreamInput;
                                     do_Path := "/" +:+ Key content |} ;;;
                 ret tt) contents tt ;;;
        err <- DeleteObjectSync
                 {| do_dpi := dls_dpi deleteStreamInput;
                    do_Path := deleteStreamPath (dls_Path deleteStreamInput) |} ;;
        release ;;;
        ret err) w
       = (Some (List.last errs None), snd (release w2)).
Proof.
  revert w. induction contents as [|content contents IH]; intros w.
  - cbn [deleteStreamDeletions foldM]. cbv [bind ret].
    destruct (DeleteObjectSync_total
                {| do_dpi := dls_dpi deleteStreamInput;
                   do_Path := deleteStreamPath (dls_Path deleteStreamInput) |} w)
      as (err & w' & ->).
    by exists [err], w'.
  - cbn [deleteStreamDeletions].
    destruct (DeleteObjectSync_total
                {| do_dpi := dls_dpi deleteStreamInput;
                   do_Path := "/" +:+ Key content |} w) as (err & w' & Hdel).
    destruct (IH w') as (errs & w2 & Herrs & Hlen & Hrun).
    exists (err :: errs), w2.
    unfold bind at 1 2. rewrite Hdel. rewrite Herrs. cbv [ret].
    split; [done|]. split; [cbn; by rewrite Hlen|].
    rewrite bind_foldM_cons. unfold bind at 1. rewrite Hdel. cbv [ret].
    transitivity (Some (List.last errs None), snd (release w2)); [exact Hrun|].
    destruct errs as [|e errs]; [discriminate|done].
Qed.

(** C8 (amended): [DeleteStreamSync] lists the shards of the stream; when
    the listing fails it returns the error of the listing and deletes
    nothing. Otherwise it issues one deletion per shard listed and then the
    deletion of the stream path, going on after a deletion that fails; the
    errors of the deletions of the shards are dropped, and what it returns is
    the result of the last deletion alone: an error when that deletion
    fails, success when it succeeds. *)
Theorem DeleteStreamSync_result (deleteStreamInput : DeleteStreamInput)
    (w w1 : World) (listed : option Response * option error)
    (Hlist : GetContainerContentsSync (listShardsInput deleteStreamInput) w
             = (Some listed, w1)) :
  (forall err, snd listed = Some err ->
     DeleteStreamSync deleteStreamInput w = (Some (Some err), w1))
  /\ (forall response output,
        listed = (Some response, None) ->
        resp_Output response = Some (OutGetContainerContents output) ->
        exists errs w2,
          deleteStreamDeletions deleteStreamInput (Contents output) w1
          = (Some errs, w2)
          /\ length errs = S (length (Contents output))
          /\ DeleteStreamSync deleteStreamInput w
             = (Some (List.last errs None), snd (release w2))).
Proof.
  split.
  - intros err Herr. unfold DeleteStreamSync. unfold bind at 1. rewrite Hlist.
    destruct listed as [r e]. cbn in Herr. subst e.
    destruct r as [[out ? ? ? ?]|]; [|done]. by destruct out as [[]|].
  - intros response output -> Hout.
    destruct (deleteStream_deletions deleteStreamInput (Contents output) w1)
      as (errs & w2 & Herrs & Hlen & Hrun).
    exists errs, w2. split; [done|]. split; [done|].
    unfold DeleteStreamSync. unfold bind at 1. rewrite Hlist.
    destruct response as [out ctx e http id]. cbn in Hout. subst out.
    exact Hrun.
Qed.

(** *** The workers *)

(** For every input type but [PutOOSObjectInput] (and [UpdateObjectInput],
    which no asynchronous call enqueues) the switch of the worker runs the
    synchronous operation of the input. *)
Lemma workerSwitch_sync (input : Input)
    (operation : M (option Response * option error)) :
  syncOperation input = Some operation ->
  (forall i, input <> InPutOOSObject i) ->
  (forall i, input <> InUpdateObject i) ->
  workerSwitch input = operation.
Proof.
  intros Hop Hoos Hupdate.
  destruct input; cbn in Hop; try (by injection Hop as <-); try discriminate.
  - by destruct (Hupdate i).
  - by destruct (Hoos i).
Qed.

(** X23: What the worker delivers for these inputs: the output and the error of
    the synchronous operation, with the ID and the context of the request, as
    one more response on the channel of the request. *)
Lemma worker_delivers_sync (request : Request)
    (operation : M (option Response * option error)) (w w' : World)
    (r : option Response * option error) :
  syncOperation (req_Input request) = Some operation ->
  (forall i, req_Input request <> InPutOOSObject i) ->
  (forall i, req_Input request <> InUpdateObject i) ->
  operation w = (Some r, w') ->
  exists response,
    workerHandle request w = sendResponse (ResponseChan request) response w'
    /\ resp_Output response = fst r ≫= resp_Output
    /\ resp_Error response = snd r
    /\ resp_ID response = req_ID request
    /\ resp_Context response = req_Context request
    /\ responseChans (snd (workerHandle request w)) !! ResponseChan request
       = Some (default [] (responseChans w' !! ResponseChan request) ++ [response])%list.
Proof.
  intros Hop Hoos Hupdate Hrun. exists (stampResponse request r).
  unfold workerHandle, bind.
  rewrite (workerSwitch_sync _ operation) by done. rewrite Hrun.
  repeat split.
  - by destruct r as [[response|] e].
  - cbn. by rewrite lookup_insert_eq.
Qed.

(** A request that carries a [PutOOSObjectInput], as [PutOOSObject] enqueues
    it: the worker logs an error, sends nothing, and delivers a response with
    no error and no output. *)
Lemma worker_PutOOSObject (putOOSObjectInput : PutOOSObjectInput)
    (id : Z) (context : option Value) (responseChan : N) (sendTime : Z)
    (w : World) :
  workerHandle {| req_ID := id; req_Input := InPutOOSObject putOOSObjectInput;
                  req_Context := context; ResponseChan := responseChan;
                  SendTimeNanoseconds := sendTime |} w
  = sendResponse responseChan
      {| resp_Output := None; resp_Context := context; resp_Error := None;
         HTTPResponse := None; resp_ID := id |}
      (snd (log "Got unexpected request type" w)).
Proof. reflexivity. Qed.

(** *** The items of [GetItems], continued *)

(** C7 (amended): when the attribute names of a [GetItems] call hold [*] or
    [**] and the response is parsed with success, then, for a response in the
    binary framed (capnp) encoding, every item of the output holds under
    [__name] the name of the item of the metadata payload it was decoded
    from, in the order of the payload; for a response in JSON the items of
    the output are the typed items of the body, decoded, and nothing is
    added to them. *)
Theorem parseGetItemsResponse_names (getItemsInput : GetItemsInput)
    (response parsed : Response) (http : HttpResponse) (w w' : World)
    (Hhttp : HTTPResponse response = Some http)
    (Hwildcard : "*" ∈ AttributeNames getItemsInput
                 \/ "**" ∈ AttributeNames getItemsInput)
    (Hparsed : parseGetItemsResponse getItemsInput (Some response) w
               = (Some (Some parsed, None), w')) :
  exists getItemsOutput,
    resp_Output parsed = Some (OutGetItems getItemsOutput)
    /\ (HeaderPeek http "Content-Type" = "application/octet-capnp" ->
        exists metadataPayload items,
          List.last (map asMetadataPayload (readAllCapnpMessages (Body http))) None
          = Some metadataPayload
          /\ md_Items metadataPayload = Some items
          /\ Forall2 carries_name items (gio_Items getItemsOutput))
    /\ (HeaderPeek http "Content-Type" <> "application/octet-capnp" ->
        decodeTypedItems
          (gir_Items (fst (json_Unmarshal_GetItemsResponse (Body http))))
        = Ok (gio_Items getItemsOutput)).
Proof.
  apply withWildcard_of_spec in Hwildcard.
  destruct response as [out ctx e h id]. cbn in Hhttp. subst h.
  unfold parseGetItemsResponse in Hparsed.
  cbv [bind ret ResponseHeaderPeek] in Hparsed. rewrite Hwildcard in Hparsed.
  case_bool_decide as Hct; cbn [negb] in Hparsed.
  - unfold getItemsParseCAPNPResponse in Hparsed.
    cbv [bind ret ResponseHeaderPeek ResponseBody panic] in Hparsed.
    destruct (getItemsParseCAPNPSections _ _ _ true) as [output|err|] eqn:Hsec;
      [|discriminate..].
    injection Hparsed as <- <-. exists output. split; [done|].
    split; [|done]. intros _. by eapply getItemsParseCAPNPSections_names.
  - unfold getItemsParseJSONResponse in Hparsed.
    cbv [bind ret ResponseBody panic] in Hparsed.
    destruct (json_Unmarshal_GetItemsResponse (Body http)) as [resp [err|]];
      [discriminate|].
    match type of Hparsed with
    | context [(if ?c then ?a else ?b) w] =>
        destruct ((if c then a else b) w) as [[[]|] w0]; [|discriminate]
    end.
    cbn [fst]. destruct (decodeTypedItems (gir_Items resp)) as [items|err|] eqn:Hitems;
      [|discriminate..].
    injection Hparsed as <- <-. eexists. split; [reflexivity|].
    split; [done|]. by intros _.
Qed.

End DataplaneProperties.

(** *** The operations on the sample transports *)

#[local] Existing Instance sampleExternal.

(** The connection is found closed 7 times and the server answers the 8th
    round trip: the deletion succeeds, the same request sent 8 times. *)
Lemma sendRequest_retries_witness :
  exists request,
    fst (sendRequest (sampleDataPlaneInput "bigdata") "DELETE" "/object" "" ∅ [] true
                     (startWorld (closedThenAnswered 7)))
    = Some (None, None)
    /\ roundTrips (snd (sendRequest (sampleDataPlaneInput "bigdata") "DELETE"
                                    "/object" "" ∅ [] true
                                    (startWorld (closedThenAnswered 7))))
       = replicate 8 request.
Proof.
  eexists.
  destruct (sendRequest_retries (sampleDataPlaneInput "bigdata") "DELETE" "/object"
              "" ∅ [] true _ _ (startWorld (closedThenAnswered 7))
              ltac:(discriminate) eq_refl eq_refl) as [Hseven _].
  apply (Hseven noContent).
  - intros i Hi. cbn. unfold closedThenAnswered.
    destruct (Nat.ltb_spec i 7); [reflexivity|lia].
  - reflexivity.
  - cbn. lia.
Defined.



(** A capnp response to a [GetItems] with the attribute names [*]. *)
Lemma parseGetItemsResponse_names_witness :
  exists parsed getItemsOutput,
    fst (parseGetItemsResponse sampleGetItemsInput
           (Some (sampleItemsResponse "application/octet-capnp"))
           (startWorld connectionRefused))
    = Some (Some parsed, None)
    /\ resp_Output parsed = Some (OutGetItems getItemsOutput)
    /\ Forall2 carries_name (default [] (md_Items sampleMetadataPayload))
                            (gio_Items getItemsOutput).
Proof.
  assert (exists parsed w',
             parseGetItemsResponse sampleGetItemsInput
               (Some (sampleItemsResponse "application/octet-capnp"))
               (startWorld connectionRefused)
             = (Some (Some parsed, None), w')) as (parsed & w' & Hparsed)
    by (eexists; eexists; vm_compute; reflexivity).
  assert ("*" ∈ AttributeNames sampleGetItemsInput
          \/ "**" ∈ AttributeNames sampleGetItemsInput) as Hwildcard
    by (left; cbn; left).
  destruct (parseGetItemsResponse_names sampleGetItemsInput
              (sampleItemsResponse "application/octet-capnp") parsed _
              (startWorld connectionRefused) w' eq_refl Hwildcard Hparsed)
    as (getItemsOutput & Houtput & Hcapnp & _).
  destruct (Hcapnp eq_refl) as (metadataPayload & items & Hlast & Hitems & Hnames).
  cbn in Hlast. injection Hlast as <-. cbn in Hitems. injection Hitems as <-.
  exists parsed, getItemsOutput. rewrite Hparsed. repeat split; assumption.
Defined.

(** C7 as stated does not hold: the items of a JSON response to a [GetItems]
    with the attribute names [*] are decoded as they are; the item of the
    sample response holds [age] and no [__name]. *)
Lemma parseGetItemsResponse_json_no_name :
  "*" ∈ AttributeNames sampleGetItemsInput
  /\ match fst (parseGetItemsResponse sampleGetItemsInput
                  (Some (sampleItemsResponse "application/json"))
                  (startWorld connectionRefused)) with
     | Some (Some parsed, None) =>
         exists item,
           (gio_Items <$> match resp_Output parsed with
                          | Some (OutGetItems getItemsOutput) => Some getItemsOutput
                          | _ => None
                          end) = Some [item]
           /\ item !! "age" = Some (VInt 30)
           /\ item !! "__name" = None
     | _ => False
     end.
Proof.
  split; [cbn; left|].
  vm_compute. eexists. repeat split; reflexivity.
Qed.

(** The deletion of the sample stream: the listing holds one shard. *)
Lemma DeleteStreamSync_result_witness :
  exists errs w2,
    deleteStreamDeletions sampleDeleteStreamInput [sampleShard]
      (snd (GetContainerContentsSync (listShardsInput sampleDeleteStreamInput)
              (startWorld shardDeletionFails)))
    = (Some errs, w2)
    /\ length errs = 2%nat
    /\ DeleteStreamSync sampleDeleteStreamInput (startWorld shardDeletionFails)
       = (Some (List.last errs None), snd (release w2)).
Proof.
  pose (output := {| Name := ""; gcc_NextMarker := ""; MaxKeys := "";
                     Contents := [sampleShard]; CommonPrefixes := [];
                     IsTruncated := false |}).
  pose (response := {| resp_Output := Some (OutGetContainerContents output);
                       resp_Context := None; resp_Error := None;
                       HTTPResponse := Some sampleListing; resp_ID := 0 |}).
  assert (GetContainerContentsSync (listShardsInput sampleDeleteStreamInput)
            (startWorld shardDeletionFails)
          = (Some (Some response, None),
             snd (GetContainerContentsSync (listShardsInput sampleDeleteStreamInput)
                    (startWorld shardDeletionFails)))) as Hlist
    by (vm_compute; reflexivity).
  destruct (DeleteStreamSync_result sampleDeleteStreamInput
              (startWorld shardDeletionFails) _ _ Hlist) as [_ Hdeletions].
  apply (Hdeletions response output); reflexivity.
Defined.

(** C8 as stated does not hold: the deletion of the shard fails, the last
    deletion succeeds; the last error among the deletions is the one of the
    shard, and [DeleteStreamSync] reports success. *)
Lemma DeleteStreamSync_drops_shard_error :
  fst (deleteStreamDeletions sampleDeleteStreamInput [sampleShard]
         (snd (GetContainerContentsSync (listShardsInput sampleDeleteStreamInput)
                 (startWorld shardDeletionFails))))
  = Some [Some (ErrStatusCode 500); None]
  /\ last_error [Some (ErrStatusCode 500); None] = Some (ErrStatusCode 500)
  /\ fst (DeleteStreamSync sampleDeleteStreamInput (startWorld shardDeletionFails))
     = Some None
  /\ length (roundTrips (snd (DeleteStreamSync sampleDeleteStreamInput
                                (startWorld shardDeletionFails)))) = 3%nat.
Proof. vm_compute. repeat split; reflexivity. Qed.

(** C5 (the divergence): the asynchronous API enqueues a
    [PutOOSObjectInput], and the switch of the worker has no case for it. On
    a transport that refuses the connection, [PutOOSObjectSync] sends the
    request and returns the error of the transport; one step of the worker on
    the request [PutOOSObject] enqueued sends nothing, logs
    [Got unexpected request type] and delivers a response with no error. *)
Theorem worker_PutOOSObject_diverges :
  enqueuedByAPI (InPutOOSObject samplePutOOSObjectInput) = true
  /\ fst (PutOOSObjectSync samplePutOOSObjectInput (startWorld connectionRefused))
     = Some (Some (ErrTransport "connection refused"))
  /\ length (roundTrips (snd (PutOOSObjectSync samplePutOOSObjectInput
                                (startWorld connectionRefused)))) = 1%nat
  /\ match workerStep (snd (PutOOSObject samplePutOOSObjectInput None 7%N
                              (startWorld connectionRefused))) with
     | Some (Some _, w') =>
         responseChans w' !! 7%N
         = Some [ {| resp_Output := None; resp_Context := None;
                     resp_Error := None; HTTPResponse := None; resp_ID := 1 |} ]
         /\ roundTrips w' = []
         /\ logged w' = ["Got unexpected request type"]
     | _ => False
     end.
Proof. vm_compute. repeat split; reflexivity. Qed.

(* ===================================================================== *)
(** * Part III: further properties of the code                            *)
(* ===================================================================== *)

(** ** The typed attributes: errors and contents *)

(** The values [encodeTypedAttributes] has a case for. *)
Definition encodable (v : Value) : Prop :=
  match v with
  | VOther _ => False
  | _ => True
  end.

(** The keys of a typed value. *)
Definition kinds : list string := ["N"; "S"; "B"; "BOOL"; "TS"].

Section CodecErrors.

Variable FormatFloat : float -> string.

Lemma encodeStep_Err (l : list (string * Value)) (e : error) :
  fold_left (encodeStep FormatFloat) l (Err e) = Err e.
Proof. by induction l. Qed.

Lemma encodeValue_encodable (name : string) (v : Value) :
  encodable v -> encodeValue FormatFloat name v = Ok (typedOf FormatFloat v).
Proof. by destruct v. Qed.

Lemma encode_loop_encodable (l : list (string * Value)) (acc : TypedItem) :
  NoDup l.*1 ->
  (forall name v, (name, v) ∈ l -> encodable v) ->
  fold_left (encodeStep FormatFloat) l (Ok acc)
  = Ok ((typedOf FormatFloat <$> (list_to_map l : Item)) ∪ acc).
Proof.
  revert acc. induction l as [|[name v] l IH]; intros acc Hnd Hall.
  - cbn. by rewrite fmap_empty, (left_id_L ∅ (∪)).
  - apply NoDup_cons in Hnd as [Hname Hnd].
    cbn [fold_left encodeStep fst snd].
    rewrite encodeValue_encodable by (eapply Hall; by left).
    rewrite IH; [|done|intros; eapply Hall; by right]. f_equal.
    cbn [list_to_map foldr uncurry]. rewrite fmap_insert.
    rewrite <- insert_union_r, insert_union_l; [done|].
    rewrite lookup_fmap. by rewrite (not_elem_of_list_to_map_1 _ _ Hname).
Qed.

Lemma encode_loop_other (l : list (string * Value)) (acc : TypedItem) :
  (exists name ty, (name, VOther ty) ∈ l) ->
  exists name ty,
    (name, VOther ty) ∈ l
    /\ fold_left (encodeStep FormatFloat) l (Ok acc)
       = Err (ErrUnexpectedAttributeType name).
Proof.
  revert acc. induction l as [|[name v] l IH]; intros acc (bad & ty & Hin).
  - by apply elem_of_nil in Hin.
  - assert (encodable v \/ exists ty', v = VOther ty') as [Henc|[ty' ->]]
      by (destruct v; eauto; by left).
    + apply elem_of_cons in Hin as [Heq|Hin];
        [injection Heq as _ Hv; by rewrite <- Hv in Henc|].
      cbn [fold_left encodeStep fst snd]. rewrite encodeValue_encodable by done.
      destruct (IH (<[name := typedOf FormatFloat v]> acc)) as (n' & ty' & Hin' & Heq);
        [by eauto|].
      exists n', ty'. split; [by right|exact Heq].
    + exists name, ty'. split; [by left|]. cbn. apply encodeStep_Err.
Qed.

(** X1: The error of [encodeTypedAttributes]: the attributes are encoded all or
    none. When every value is of a type the switch has a case for (an [int],
    [uint64], [int64], [float64], [string], [[]byte], [bool] or
    [time.Time]), the result has the typed value of each attribute under its
    name, a map of one entry whose key is one of [N], [S], [B], [BOOL], [TS].
    When a value is of another type, the result is the error that names such
    an attribute, and no typed attributes. *)
Theorem encodeTypedAttributes_all_or_none (attributes : Item) :
  ((forall name v, attributes !! name = Some v -> encodable v) ->
   encodeTypedAttributes FormatFloat attributes
   = Ok (typedOf FormatFloat <$> attributes)
   /\ forall name typed,
        (typedOf FormatFloat <$> attributes) !! name = Some typed ->
        exists kind value, typed = {[ kind := value ]} /\ kind ∈ kinds)
  /\ (forall name ty, attributes !! name = Some (VOther ty) ->
      exists name' ty',
        attributes !! name' = Some (VOther ty')
        /\ encodeTypedAttributes FormatFloat attributes
           = Err (ErrUnexpectedAttributeType name')).
Proof.
  split.
  - intros Hall. split.
    + unfold encodeTypedAttributes. rewrite encode_loop_encodable.
      * by rewrite list_to_map_to_list, (right_id_L ∅ (∪)).
      * apply NoDup_fst_map_to_list.
      * intros name v Hin. apply elem_of_map_to_list in Hin. by eapply Hall.
    + intros name typed Hl. rewrite lookup_fmap in Hl.
      destruct (attributes !! name) as [v|] eqn:Hv; [|discriminate].
      injection Hl as <-. specialize (Hall _ _ Hv).
      unfold kinds.
      destruct v; try done; cbn; eexists _, _; (split; [reflexivity|]);
        apply list_elem_of_In; cbn; tauto.
  - intros name ty Hl.
    destruct (encode_loop_other (map_to_list attributes) ∅) as (n' & ty' & Hin & Heq).
    { exists name, ty. by apply elem_of_map_to_list. }
    exists n', ty'. split; [by apply elem_of_map_to_list|exact Heq].
Qed.

End CodecErrors.

Section CodecContents.

Variable ParseFloat : string -> option float.

(** What the loop of [decodeTypedAttributes] stores for an attribute. *)
Definition decodedOf (name : string) (typed : gmap string Value) : option Value :=
  match decodeValue ParseFloat name typed with
  | Ok r => r
  | _ => None
  end.

Lemma decodeValue_no_Panic (name : string) (typed : gmap string Value) :
  decodeValue ParseFloat name typed <> Panic.
Proof.
  unfold decodeValue.
  repeat match goal with
         | |- context [match ?x with _ => _ end] => destruct x; try discriminate
         end.
Qed.

Lemma decodeStep_Err (l : list (string * gmap string Value)) (e : error) :
  fold_left (decodeStep ParseFloat) l (Err e) = Err e.
Proof. by induction l. Qed.

Lemma decode_loop_contents (l : list (string * gmap string Value)) (acc : Item) :
  NoDup l.*1 ->
  (forall name typed e, (name, typed) ∈ l ->
     decodeValue ParseFloat name typed <> Err e) ->
  fold_left (decodeStep ParseFloat) l (Ok acc)
  = Ok (map_imap decodedOf (list_to_map l : TypedItem) ∪ acc).
Proof.
  revert acc. induction l as [|[name typed] l IH]; intros acc Hnd Hall.
  - cbn. by rewrite map_imap_empty, (left_id_L ∅ (∪)).
  - apply NoDup_cons in Hnd as [Hname Hnd].
    assert (map_imap decodedOf (list_to_map l : TypedItem) !! name = None) as Hfresh.
    { rewrite map_lookup_imap. by rewrite (not_elem_of_list_to_map_1 _ _ Hname). }
    cbn [fold_left decodeStep fst snd list_to_map foldr uncurry].
    rewrite map_imap_insert.
    destruct (decodeValue ParseFloat name typed) as [[v|]|e|] eqn:Hd.
    + assert (decodedOf name typed = Some v) as -> by (unfold decodedOf; by rewrite Hd).
      rewrite IH; [|done|intros; eapply Hall; by right]. f_equal.
      by rewrite <- insert_union_r, insert_union_l.
    + assert (decodedOf name typed = None) as -> by (unfold decodedOf; by rewrite Hd).
      rewrite IH; [|done|intros; eapply Hall; by right].
      by rewrite delete_id.
    + exfalso. eapply Hall; [by left|exact Hd].
    + by apply decodeValue_no_Panic in Hd.
Qed.

Lemma decode_loop_error (l : list (string * gmap string Value)) (acc : Item) :
  (exists name typed e, (name, typed) ∈ l
                        /\ decodeValue ParseFloat name typed = Err e) ->
  exists name typed e,
    (name, typed) ∈ l
    /\ decodeValue ParseFloat name typed = Err e
    /\ fold_left (decodeStep ParseFloat) l (Ok acc) = Err e.
Proof.
  revert acc. induction l as [|[name typed] l IH]; intros acc (n0 & t0 & e0 & Hin & He).
  - by apply elem_of_nil in Hin.
  - cbn [fold_left decodeStep fst snd].
    destruct (decodeValue ParseFloat name typed) as [r|e|] eqn:Hd.
    + apply elem_of_cons in Hin as [[= -> ->]|Hin]; [congruence|].
      destruct (IH (match r with Some v => <[name := v]> acc | None => acc end))
        as (n' & t' & e' & Hin' & He' & Heq); [by eauto|].
      exists n', t', e'. split; [by right|]. split; [done|]. by destruct r.
    + exists name, typed, e. split; [by left|]. split; [done|]. apply decodeStep_Err.
    + by apply decodeValue_no_Panic in Hd.
Qed.

(** X2: What [decodeTypedAttributes] returns. When no typed value gives an error,
    the result holds, under the name of each attribute of a known kind, the
    value decoded from it; an attribute whose typed value has none of the
    keys [N], [S], [B], [BOOL], [TS] is left out without an error, so the
    result has no name the input has not. When a typed value gives an error
    (a value of the wrong type under its key, a number that is neither an
    integer nor a float, base64 or a timestamp that does not parse), the
    result is the error of such an attribute. *)
Theorem decodeTypedAttributes_contents (typedAttributes : TypedItem) :
  ((forall name typed e, typedAttributes !! name = Some typed ->
      decodeValue ParseFloat name typed <> Err e) ->
   decodeTypedAttributes ParseFloat typedAttributes
   = Ok (map_imap decodedOf typedAttributes)
   /\ dom (map_imap decodedOf typedAttributes) ⊆ dom typedAttributes
   /\ forall name typed,
        typedAttributes !! name = Some typed ->
        Forall (fun kind => typed !! kind = None) kinds ->
        map_imap decodedOf typedAttributes !! name = None)
  /\ (forall name typed e,
        typedAttributes !! name = Some typed ->
        decodeValue ParseFloat name typed = Err e ->
        exists name' typed' e',
          typedAttributes !! name' = Some typed'
          /\ decodeValue ParseFloat name' typed' = Err e'
          /\ decodeTypedAttributes ParseFloat typedAttributes = Err e').
Proof.
  split.
  - intros Hall. split; [|split].
    + unfold decodeTypedAttributes. rewrite decode_loop_contents.
      * by rewrite list_to_map_to_list, (right_id_L ∅ (∪)).
      * apply NoDup_fst_map_to_list.
      * intros name typed e Hin. apply elem_of_map_to_list in Hin. by eapply Hall.
    + intros name Hin. apply elem_of_dom in Hin as [v Hv].
      rewrite map_lookup_imap in Hv. apply elem_of_dom.
      destruct (typedAttributes !! name); [by eexists|discriminate].
    + intros name typed Hl Hkinds. rewrite map_lookup_imap, Hl. cbn.
      unfold kinds in Hkinds.
      repeat match goal with
             | H : Forall _ (_ :: _) |- _ => apply Forall_cons in H as [? H]
             end.
      unfold decodedOf, decodeValue.
      by repeat match goal with H : typed !! _ = None |- _ => rewrite H; clear H end.
  - intros name typed e Hl Hd.
    destruct (decode_loop_error (map_to_list typedAttributes) ∅)
      as (n' & t' & e' & Hin & He & Heq).
    { exists name, typed, e. split; [by apply elem_of_map_to_list|done]. }
    exists n', t', e'. split; [by apply elem_of_map_to_list|]. by split.
Qed.

End CodecContents.

(** ** The value sections of a capnp response *)

(** Sections whose [accumulatedPreviousSectionsLength] is the number of
    values of the sections up to and with their own, [acc] values coming
    before the first. *)
Fixpoint cumulative (acc : Z) (values : list attributeValuesSection) : Prop :=
  match values with
  | [] => True
  | v :: rest =>
      accumulatedPreviousSectionsLength v = acc + Z.of_nat (length (data v))
      /\ cumulative (accumulatedPreviousSectionsLength v) rest
  end.

(** The values of all sections, in order. *)
Definition allValues (values : list attributeValuesSection) : ValueList :=
  concat (map data values).

Lemma getSectionAndIndex_loop_in_range (rest : list attributeValuesSection) :
  forall (i : Z) (prev : attributeValuesSection) (idx : Z),
    cumulative (accumulatedPreviousSectionsLength prev) rest ->
    accumulatedPreviousSectionsLength prev <= idx
      < accumulatedPreviousSectionsLength prev + Z.of_nat (length (allValues rest)) ->
    exists (k : nat) (j : Z) (section : attributeValuesSection),
      getSectionAndIndex_loop i prev rest idx = (i + Z.of_nat k, j)
      /\ rest !! k = Some section
      /\ 0 <= j
      /\ data section !! Z.to_nat j
         = allValues rest !! Z.to_nat (idx - accumulatedPreviousSectionsLength prev).
Proof.
  induction rest as [|v rest IH]; intros i prev idx Hcum Hidx.
  - cbn in Hidx. lia.
  - destruct Hcum as [Hacc Hcum]. cbn [getSectionAndIndex_loop].
    unfold allValues in *. cbn [map concat] in *. rewrite length_app in Hidx.
    destruct (Z.ltb_spec idx (accumulatedPreviousSectionsLength v)) as [Hlt|Hge].
    + exists 0%nat, (idx - accumulatedPreviousSectionsLength prev), v.
      split; [f_equal; lia|]. split; [done|]. split; [lia|].
      rewrite lookup_app_l; [done|lia].
    + destruct (IH (i + 1) v idx Hcum) as (k & j & section & Hloop & Hk & Hj & Hdata);
        [lia|].
      exists (S k), j, section. split; [rewrite Hloop; f_equal; lia|].
      split; [done|]. split; [done|]. rewrite Hdata.
      rewrite lookup_app_r by lia. f_equal. lia.
Qed.

Lemma getSectionAndIndex_loop_out_of_range (rest : list attributeValuesSection) :
  forall (i : Z) (prev : attributeValuesSection) (idx : Z),
    cumulative (accumulatedPreviousSectionsLength prev) rest ->
    accumulatedPreviousSectionsLength prev + Z.of_nat (length (allValues rest)) <= idx ->
    getSectionAndIndex_loop i prev rest idx = (0, idx).
Proof.
  induction rest as [|v rest IH]; intros i prev idx Hcum Hidx; [done|].
  destruct Hcum as [Hacc Hcum]. cbn [getSectionAndIndex_loop].
  unfold allValues in *. cbn [map concat] in *. rewrite length_app in Hidx.
  destruct (Z.ltb_spec idx (accumulatedPreviousSectionsLength v)); [lia|].
  apply IH; [done|lia].
Qed.

(** The value [getSectionAndIndex] leads to, for any index: the one at that
    index among the values of all sections, or none when there is none. *)
Lemma getSectionAndIndex_lookup (values : list attributeValuesSection) (idx : Z) :
  cumulative 0 values -> values <> [] ->
  exists (sectIdx valIdx : Z) (section : attributeValuesSection),
    getSectionAndIndex values idx = Some (sectIdx, valIdx)
    /\ index values sectIdx = Some section
    /\ index (data section) valIdx = index (allValues values) idx.
Proof.
  intros Hcumulative Hsome.
  destruct values as [|v0 rest]; [done|]. destruct Hcumulative as [Hacc Hcum].
  unfold allValues. cbn [map concat]. fold (allValues rest).
  destruct rest as [|v1 rest].
  { exists 0, idx, v0. cbn [allValues map concat]. by rewrite app_nil_r. }
  cbn [getSectionAndIndex].
  destruct (Z.ltb_spec idx (accumulatedPreviousSectionsLength v0)) as [Hlt|Hge].
  - exists 0, idx, v0. split; [done|]. split; [done|]. unfold index.
    destruct (Z.ltb_spec idx 0); [done|]. rewrite lookup_app_l; [done|lia].
  - destruct (Z.lt_ge_cases idx (accumulatedPreviousSectionsLength v0
                                 + Z.of_nat (length (allValues (v1 :: rest)))))
      as [Hin|Hout].
    + destruct (getSectionAndIndex_loop_in_range (v1 :: rest) 1 v0 idx Hcum)
        as (k & j & section & Hloop & Hk & Hj & Hdata); [lia|].
      exists (1 + Z.of_nat k), j, section. rewrite Hloop.
      split; [done|]. unfold index.
      destruct (Z.ltb_spec (1 + Z.of_nat k) 0); [lia|].
      destruct (Z.ltb_spec j 0); [lia|].
      destruct (Z.ltb_spec idx 0); [lia|].
      replace (Z.to_nat (1 + Z.of_nat k)) with (S k) by lia.
      split; [done|]. rewrite Hdata, lookup_app_r by lia. f_equal. lia.
    + rewrite getSectionAndIndex_loop_out_of_range by done.
      exists 0, idx, v0. split; [done|]. split; [done|]. unfold index.
      destruct (Z.ltb_spec idx 0); [lia|].
      rewrite !lookup_ge_None_2; [done| |lia]. rewrite length_app. lia.
Qed.

(** X20: [getSectionAndIndex] on sections whose accumulated lengths are right:
    the index [idx] of a value among the values of all sections resolves to
    the section that holds the value and to the place of the value in it.
    An index past the last value resolves to section 0 with the index
    unchanged, which is then out of range there when there are two sections
    or more. *)
Theorem getSectionAndIndex_resolves (values : list attributeValuesSection) (idx : Z)
    (Hcumulative : cumulative 0 values) (Hsome : values <> []) :
  (0 <= idx < Z.of_nat (length (allValues values)) ->
   exists (sectIdx valIdx : Z) (section : attributeValuesSection) (value : option ExtAttrValue),
     getSectionAndIndex values idx = Some (sectIdx, valIdx)
     /\ index values sectIdx = Some section
     /\ index (data section) valIdx = Some value
     /\ index (allValues values) idx = Some value)
  /\ (Z.of_nat (length (allValues values)) <= idx ->
      getSectionAndIndex values idx = Some (0, idx)).
Proof.
  split.
  - intros Hidx.
    destruct (getSectionAndIndex_lookup values idx Hcumulative Hsome)
      as (sectIdx & valIdx & section & Hget & Hsection & Hvalue).
    assert (exists value, index (allValues values) idx = Some value) as [value Hv].
    { unfold index. destruct (Z.ltb_spec idx 0); [lia|].
      apply lookup_lt_is_Some. lia. }
    exists sectIdx, valIdx, section, value. by rewrite Hvalue.
  - intros Hidx. destruct values as [|v0 rest]; [done|].
    destruct Hcumulative as [Hacc Hcum]. destruct rest as [|v1 rest]; [done|].
    unfold allValues in Hidx. cbn [map concat] in Hidx. rewrite length_app in Hidx.
    cbn [getSectionAndIndex].
    destruct (Z.ltb_spec idx (accumulatedPreviousSectionsLength v0)); [lia|].
    rewrite getSectionAndIndex_loop_out_of_range; [done|done|].
    unfold allValues. cbn [map concat]. lia.
Qed.

Definition sampleSections : list attributeValuesSection :=
  [ {| accumulatedPreviousSectionsLength := 2;
       data := [Some (Which_qword 1); Some (Which_qword 2)] |};
    {| accumulatedPreviousSectionsLength := 3;
       data := [Some (Which_boolean true)] |} ].

Lemma getSectionAndIndex_resolves_witness :
  (0 <= 2 < Z.of_nat (length (allValues sampleSections)) ->
   exists (sectIdx valIdx : Z) (section : attributeValuesSection)
          (value : option ExtAttrValue),
     getSectionAndIndex sampleSections 2 = Some (sectIdx, valIdx)
     /\ index sampleSections sectIdx = Some section
     /\ index (data section) valIdx = Some value
     /\ index (allValues sampleSections) 2 = Some value)
  /\ (Z.of_nat (length (allValues sampleSections)) <= 2 ->
      getSectionAndIndex sampleSections 2 = Some (0, 2)).
Proof.
  apply getSectionAndIndex_resolves.
  - cbn. repeat split; reflexivity.
  - discriminate.
Defined.

(** X21: The value sections [getItemsParseCAPNPResponse] builds: when the loop
    over the data payloads ends without an error, there is one section per
    payload, and these sections followed by the one of the values of the
    metadata payload have the accumulated lengths [getSectionAndIndex]
    relies on. *)
Theorem dataSections_cumulative (sections : list CapnpMessage) (accLength total : Z)
    (valuesSections : list attributeValuesSection) (values : ValueList)
    (Hsections : dataSections accLength sections = Ok (total, valuesSections)) :
  length valuesSections = length sections
  /\ total = accLength + Z.of_nat (length (allValues valuesSections))
  /\ cumulative accLength
       (valuesSections
        ++ [ {| accumulatedPreviousSectionsLength := total + Z.of_nat (length values);
                data := values |} ])%list.
Proof.
  revert accLength total valuesSections Hsections.
  induction sections as [|section sections IH];
    intros accLength total valuesSections Hsections.
  - injection Hsections as <- <-. cbn. repeat split; lia.
  - cbn [dataSections] in Hsections.
    destruct (asDataPayload section) as [[accessor|dv]|]; [discriminate| |discriminate].
    destruct (dataSections (accLength + Z.of_nat (length dv)) sections)
      as [[total' more]| |] eqn:Hrest; [|discriminate..].
    injection Hsections as <- <-.
    destruct (IH _ _ _ Hrest) as (Hlen & Htotal & Hcum).
    unfold allValues in *. cbn [map concat data length app cumulative
                                accumulatedPreviousSectionsLength].
    rewrite length_app. repeat split; [lia|lia|exact Hcum].
Qed.

Lemma dataSections_cumulative_witness :
  length (drop 1 sampleSections) = 1%nat
  /\ 3 = 2 + Z.of_nat (length (allValues (drop 1 sampleSections)))
  /\ cumulative 2
       (drop 1 sampleSections
        ++ [ {| accumulatedPreviousSectionsLength := 3 + Z.of_nat (length (@nil (option ExtAttrValue)));
                data := [] |} ])%list.
Proof.
  apply (dataSections_cumulative
           [ {| asMetadataPayload := None;
                asDataPayload := Some (inr [Some (Which_boolean true)]) |} ]).
  reflexivity.
Defined.

(** ** File modes: the kind of file an octal mode decodes to *)

(** The bits of the file mode [mode] builds from the octal number [n]: the
    low 13 bits of [n], and the bits 12 to 14 of [n] at the places 29 to 31;
    the bit 15 of [n] is shifted out of the 32 bits. *)
Lemma mode_bits (n i : Z) :
  0 <= i ->
  Z.testbit (os.FileMode (Z.lor (Z.shiftl (Z.land n S_IFMT) 17)
                                (Z.land n IP_OFFMASK))) i
  = (i <? 32) && ((Z.testbit n (i - 17) && (29 <=? i))
                  || (Z.testbit n i && (i <? 13))).
Proof.
  intros Hi. unfold os.FileMode. rewrite <- Z.land_ones by lia.
  change S_IFMT with (Z.shiftl (Z.ones 4) 12). change IP_OFFMASK with (Z.ones 13).
  rewrite Z.land_spec, Z.lor_spec, Z.land_spec, !Z.testbit_ones_nonneg by lia.
  rewrite Z.shiftl_spec by lia. rewrite andb_comm.
  destruct (Z.ltb_spec i 32) as [Hin|Hout]; [|done].
  cbn [andb]. f_equal.
  destruct (Z.leb_spec 29 i) as [Hhigh|Hlow].
  - rewrite Z.land_spec, Z.shiftl_spec by lia.
    rewrite Z.testbit_ones_nonneg by lia.
    destruct (Z.ltb_spec (i - 17 - 12) 4); [done|lia].
  - rewrite andb_false_r.
    destruct (Z.ltb_spec i 17) as [Hneg|Hpos].
    + by rewrite Z.testbit_neg_r by lia.
    + rewrite Z.land_spec, Z.shiftl_spec by lia.
      rewrite (Z.testbit_neg_r (Z.ones 4)) by lia. by rewrite andb_false_r.
Qed.

Lemma land_pow2 (a k : Z) :
  0 <= k -> (Z.land a (2 ^ k) =? 0) = negb (Z.testbit a k).
Proof.
  intros Hk.
  assert (Z.land a (2 ^ k) = if Z.testbit a k then 2 ^ k else 0) as ->.
  { apply Z.bits_inj'. intros i Hi. rewrite Z.land_spec, Z.pow2_bits_eqb by lia.
    destruct (Z.eqb_spec k i) as [->|Hne].
    - destruct (Z.testbit a i); [by rewrite Z.pow2_bits_true|by rewrite Z.bits_0].
    - rewrite andb_false_r.
      destruct (Z.testbit a k); [by rewrite Z.pow2_bits_false|by rewrite Z.bits_0]. }
  destruct (Z.testbit a k); [|done].
  apply Z.eqb_neq. apply Z.pow_nonzero; lia.
Qed.

(** X5: The kind of file [mode] decodes an octal mode string to. The permission
    bits are the low 9 bits of the octal number. Of the file-type bits only
    the bit 040000 is looked at by [os.FileMode]: the result is a directory
    when it is set and a regular file when it is not, whatever the other
    file-type bits say (a symbolic link 0120000 or a socket 0140000 among
    them). *)
Theorem mode_octal_kind (s : string) (n : Z)
    (Hoctal : strings.HasPrefix s "0" = true)
    (Hnumeral : strconv.positional 8 s = Some n) (Hbits : n < 2 ^ 32) :
  exists m,
    mode s = (m, None)
    /\ os.Perm m = Z.land n 511
    /\ os.IsDir m = Z.testbit n 14
    /\ os.IsRegular m = negb (Z.testbit n 14).
Proof.
  eexists. split.
  { unfold mode. rewrite Hoctal.
    rewrite ParseUint_positional with (v := n); try done; try lia.
    by apply HasPrefix_nonempty with (pre := "0"). }
  split; [|split].
  - unfold os.Perm. apply Z.bits_inj'. intros i Hi.
    rewrite !Z.land_spec, mode_bits by done.
    change os.ModePerm with (Z.ones 9). change 511 with (Z.ones 9).
    rewrite Z.testbit_ones_nonneg by lia.
    destruct (Z.ltb_spec i 9); [|by rewrite !andb_false_r].
    destruct (Z.ltb_spec i 32); [|lia]. destruct (Z.leb_spec 29 i); [lia|].
    destruct (Z.ltb_spec i 13); [|lia]. by rewrite andb_false_r, !andb_true_r.
  - unfold os.IsDir. change os.ModeDir with (2 ^ 31).
    rewrite land_pow2, negb_involutive, mode_bits by lia.
    change (31 - 17) with 14. cbn. by rewrite andb_true_r, andb_false_r, orb_false_r.
  - unfold os.IsRegular.
    assert (Z.land (os.FileMode (Z.lor (Z.shiftl (Z.land n S_IFMT) 17)
                                       (Z.land n IP_OFFMASK))) os.ModeType
            = Z.land (os.FileMode (Z.lor (Z.shiftl (Z.land n S_IFMT) 17)
                                         (Z.land n IP_OFFMASK))) (2 ^ 31)) as ->.
    { apply Z.bits_inj'. intros i Hi. rewrite !Z.land_spec, mode_bits by done.
      rewrite Z.pow2_bits_eqb by lia.
      change os.ModeType with (Z.shiftl 4581 19).
      rewrite Z.shiftl_spec by lia.
      destruct (Z.ltb_spec i 32) as [Hin|Hout]; [|done]. cbn [andb].
      destruct (Z.leb_spec 29 i) as [Hhigh|Hlow].
      - assert (i = 29 \/ i = 30 \/ i = 31) as Hcases by lia.
        destruct Hcases as [Hc|[Hc|Hc]]; subst i;
          cbn; by rewrite ?andb_false_r, ?andb_true_r.
      - rewrite andb_false_r. cbn [orb].
        destruct (Z.ltb_spec i 13) as [Hlo|Hmid]; [|by rewrite andb_false_r].
        rewrite (Z.testbit_neg_r 4581) by lia.
        destruct (Z.eqb_spec 31 i); [lia|]. by rewrite !andb_false_r. }
    rewrite land_pow2, mode_bits by lia.
    change (31 - 17) with 14. cbn. by rewrite andb_true_r, andb_false_r, orb_false_r.
Qed.

Lemma mode_octal_kind_witness :
  exists m,
    mode "040775" = (m, None)
    /\ os.Perm m = Z.land 16893 511
    /\ os.IsDir m = Z.testbit 16893 14
    /\ os.IsRegular m = negb (Z.testbit 16893 14).
Proof. apply (mode_octal_kind "040775" 16893); [reflexivity|reflexivity|lia]. Defined.

(** ** The URI of a request *)

Lemma ReplaceByte_no_old (s : string) (old : ascii) (new : string) :
  strings.ContainsByte new old = false ->
  strings.ContainsByte (strings.ReplaceByte s old new) old = false.
Proof.
  intros Hnew. induction s as [|c s IH]; [done|].
  cbn [strings.ReplaceByte]. destruct (Ascii.eqb c old) eqn:Hc.
  - by rewrite ContainsByte_app, Hnew, IH.
  - cbn [strings.ContainsByte]. by rewrite Hc, IH.
Qed.

Lemma requestPath_no_dotdot (containerName pathStr : string) :
  plain_name containerName -> no_dotdot pathStr ->
  requestPath containerName pathStr
  = ("/" +:+ strings.Join (containerName :: kept (strings.Split pathStr "/")) "/")
    +:+ (if strings.HasSuffix pathStr "/" then "/" else "").
Proof.
  intros Hc Hp. rewrite requestPath_closed. do 3 f_equal.
  unfold stack_of. destruct Hc as (Hne & Hdot & Hdotdot & Hslash).
  unfold strings.Split at 2. rewrite (Split_slash_free _ "" Hslash), append_nil_l.
  cbn [fold_left]. unfold path.clean_step at 2.
  rewrite !bool_decide_eq_false_2 by done. cbn [orb].
  rewrite clean_fold_no_dotdot by done.
  by rewrite rev_app_distr, List.rev_involutive.
Qed.

(** The number of answers [ErrConnectionClosed] in a row the transport gives
    a request from the round trip [from] on, [n] at most. *)
Fixpoint closedRun (w : World) (request : HttpRequest) (from n : nat) : nat :=
  match n with
  | O => O
  | S n' =>
      if is_ErrConnectionClosed (transport w from request)
      then S (closedRun w request (S from) n')
      else O
  end.

Lemma closedRun_sent (w : World) (request : HttpRequest) (requests : list HttpRequest)
    (from n : nat) :
  closedRun (sent w requests) request from n = closedRun w request from n.
Proof. revert from. induction n as [|n IH]; intros from; [done|]. cbn. by rewrite IH. Qed.

Lemma retryLoop_closedRun (n : nat) :
  forall (request : HttpRequest) (last : TransportResult) (w : World),
    retryLoop (S n) request last w
    = (Some (transport w (length (roundTrips w)
                          + closedRun w request (length (roundTrips w)) n) request),
       sent w (replicate (S (closedRun w request (length (roundTrips w)) n)) request)).
Proof.
  induction n as [|n IH]; intros request last w.
  - cbn [retryLoop closedRun]. unfold bind, roundTrip, ret.
    rewrite Nat.add_0_r.
    by destruct (is_ErrConnectionClosed _).
  - change (retryLoop (S (S n)) request last w)
      with (bind (roundTrip request)
              (fun r => if is_ErrConnectionClosed r
                        then retryLoop (S n) request r else ret r) w).
    unfold bind at 1. unfold roundTrip at 1. cbn [closedRun].
    destruct (is_ErrConnectionClosed (transport w (length (roundTrips w)) request))
      eqn:Hclosed.
    + rewrite IH. cbn [sent roundTrips transport]. rewrite length_app. cbn [length].
      replace (length (roundTrips w) + 1)%nat with (S (length (roundTrips w))) by lia.
      rewrite closedRun_sent, sent_sent. f_equal.
      f_equal. f_equal. lia.
    + unfold ret. by rewrite Nat.add_0_r.
Qed.

Section RequestProperties.

Context `{External}.

(** X7: [buildRequestURI] on a container name that is a plain name and a path
    without an element [..]: the path of the URI is the container followed
    by the elements of the path that are neither empty nor [.], joined by
    single slashes, with a slash at the end when the path has one; it stays
    under the container. The query of the URI holds no space. *)
Theorem buildRequestURI_normal_form (urlString containerName query pathStr : string)
    (parsed : Uri)
    (Hurl : url_Parse urlString = Some parsed)
    (Hcontainer : plain_name containerName) (Hpath : no_dotdot pathStr) :
  exists uri,
    buildRequestURI urlString containerName query pathStr = Ok uri
    /\ Endpoint uri = Endpoint parsed
    /\ uri_Path uri
       = ("/" +:+ strings.Join (containerName :: kept (strings.Split pathStr "/")) "/")
         +:+ (if strings.HasSuffix pathStr "/" then "/" else "")
    /\ strings.HasPrefix (uri_Path uri) ("/" +:+ containerName) = true
    /\ strings.ContainsByte (RawQuery uri) " " = false.
Proof.
  unfold buildRequestURI. rewrite Hurl. eexists. split; [reflexivity|].
  cbn [Endpoint uri_Path RawQuery]. split; [done|].
  rewrite requestPath_no_dotdot by done. split; [done|]. split.
  - unfold strings.HasPrefix.
    destruct (kept (strings.Split pathStr "/")) as [|e rest].
    + cbn [strings.Join]. apply prefix_append.
    + rewrite Join_cons by done.
      rewrite <- (append_assoc "/" containerName), append_assoc.
      apply prefix_append.
  - by apply ReplaceByte_no_old.
Qed.

(** [sendRequest] once the container name and the URL are accepted: the
    request is sent once more than the transport answers
    [ErrConnectionClosed] in a row, 8 times at most, and the answer to the
    last round trip decides the result. *)
Lemma sendRequest_closed_form (dataPlaneInput : DataPlaneInput)
    (method path query : string) (headers : gmap string string) (body : bytes)
    (releaseResponse : bool) (uri : Uri) (w : World) :
  ContainerName dataPlaneInput <> "" ->
  buildRequestURI (URL dataPlaneInput) (ContainerName dataPlaneInput) query path
  = Ok uri ->
  let request := initRequest dataPlaneInput method uri headers body in
  let k := closedRun w request (length (roundTrips w)) 7 in
  let w1 := sent (snd (acquireResponse w)) (replicate (S k) request) in
  let failed (err : error) :=
    (Some (None, Some err),
     if IncludeResponseInError dataPlaneInput then w1 else snd (release w1)) in
  sendRequest dataPlaneInput method path query headers body releaseResponse w
  = match transport w (length (roundTrips w) + k) request with
    | Failed err => failed err
    | Answered http =>
        if (200 <=? StatusCode http) && (StatusCode http <? 300) then
          if releaseResponse then (Some (None, None), snd (release w1))
          else (Some (Some {| resp_Output := None; resp_Context := None;
                              resp_Error := None; HTTPResponse := Some http;
                              resp_ID := 0 |}, None), w1)
        else
          failed (if IncludeResponseInError dataPlaneInput
                  then ErrStatusCodeAndResponse (StatusCode http) http
                  else ErrStatusCode (StatusCode http))
    end.
Proof.
  intros Hc Huri request k w1 failed.
  rewrite (sendRequest_unfold _ _ _ _ _ _ _ uri) by done.
  fold request. rewrite retryLoop_closedRun.
  change (roundTrips (snd (acquireResponse w))) with (roundTrips w).
  change (transport (snd (acquireResponse w))) with (transport w).
  change (closedRun (snd (acquireResponse w)) request (length (roundTrips w)) 7)
    with k.
  fold w1. subst failed. cbv beta.
  destruct (transport w (length (roundTrips w) + k) request) as [http|err].
  - destruct ((200 <=? StatusCode http) && (StatusCode http <? 300)); cbn [negb];
      [done|].
    unfold cleanupWithError, bind, ret, release.
    by destruct (IncludeResponseInError dataPlaneInput).
  - unfold cleanupWithError, bind, ret, release.
    by destruct (IncludeResponseInError dataPlaneInput).
Qed.


Lemma closedRun_le (w : World) (request : HttpRequest) (n : nat) :
  forall from, (closedRun w request from n <= n)%nat.
Proof.
  induction n as [|n IH]; intros from; cbn; [lia|].
  destruct (is_ErrConnectionClosed _); [|lia]. specialize (IH (S from)). lia.
Qed.

(** X8: The round trips of [sendRequest]: once the container name and the URL
    are accepted, the request is sent once, and once more for every answer
    [ErrConnectionClosed] the transport gives in a row, 8 times at most; it
    is the same request every time, and nothing else is sent. *)
Theorem sendRequest_round_trips (dataPlaneInput : DataPlaneInput)
    (method path query : string) (headers : gmap string string) (body : bytes)
    (releaseResponse : bool) (uri : Uri) (w : World)
    (Hcontainer : ContainerName dataPlaneInput <> "")
    (Huri : buildRequestURI (URL dataPlaneInput) (ContainerName dataPlaneInput)
                            query path = Ok uri) :
  roundTrips (snd (sendRequest dataPlaneInput method path query headers body
                               releaseResponse w))
  = (roundTrips w
     ++ replicate
          (S (closedRun w (initRequest dataPlaneInput method uri headers body)
                        (length (roundTrips w)) 7))
          (initRequest dataPlaneInput method uri headers body))%list
  /\ (S (closedRun w (initRequest dataPlaneInput method uri headers body)
                   (length (roundTrips w)) 7) <= 8)%nat.
Proof.
  split; [|pose proof (closedRun_le w (initRequest dataPlaneInput method uri headers body)
                         7 (length (roundTrips w))); lia].
  rewrite (sendRequest_closed_form _ _ _ _ _ _ _ uri) by done. cbv zeta.
  destruct (transport w _ _) as [http|err].
  - destruct (_ && _); [by destruct releaseResponse|].
    by destruct (IncludeResponseInError dataPlaneInput).
  - by destruct (IncludeResponseInError dataPlaneInput).
Qed.

(** X9: What [sendRequest] returns, in every state: a result, never a panic, and
    never both a response and an error. A response is returned only when the
    caller did not ask for its release, and then it carries the answer of the
    server, whose status code is a 2xx one, and no output yet; without an
    error and without a response, the caller had asked for the release. *)
Theorem sendRequest_outcomes (dataPlaneInput : DataPlaneInput)
    (method path query : string) (headers : gmap string string) (body : bytes)
    (releaseResponse : bool) (w : World) :
  exists r w',
    sendRequest dataPlaneInput method path query headers body releaseResponse w
    = (Some r, w')
    /\ match r with
       | (Some response, None) =>
           releaseResponse = false
           /\ resp_Output response = None
           /\ exists http, HTTPResponse response = Some http
                           /\ 200 <= StatusCode http < 300
       | (None, None) => releaseResponse = true
       | (None, Some _) => True
       | (Some _, Some _) => False
       end.
Proof.
  destruct (decide (ContainerName dataPlaneInput = "")) as [Hc|Hc].
  { rewrite sendRequest_empty by done. by eexists _, _. }
  destruct (buildRequestURI (URL dataPlaneInput) (ContainerName dataPlaneInput)
              query path) as [uri|e|] eqn:Huri.
  - rewrite (sendRequest_closed_form _ _ _ _ _ _ _ uri) by done. cbv zeta.
    destruct (transport w _ _) as [http|err]; [|by eexists _, _].
    destruct (Z.leb_spec 200 (StatusCode http)), (Z.ltb_spec (StatusCode http) 300);
      cbn [andb]; try by eexists _, _.
    destruct releaseResponse; eexists _, _; (split; [reflexivity|]); [done|].
    split; [done|]. split; [done|]. exists http. split; [done|lia].
  - unfold sendRequest. rewrite bool_decide_eq_false_2 by done. rewrite Huri.
    by eexists _, _.
  - unfold buildRequestURI in Huri. by destruct (url_Parse _).
Qed.

(** X10: The responses [sendRequest] takes from the pool and gives back. With an
    empty container name none is taken. Otherwise one is taken; when the URL
    does not parse it is neither given back nor returned, and nothing is
    sent. When the URL parses, the response is given back exactly when it is
    not handed to the caller: it is kept when it is returned, and on an error
    when the input asks for the response in the error. *)
Theorem sendRequest_response_accounting (dataPlaneInput : DataPlaneInput)
    (method path query : string) (headers : gmap string string) (body : bytes)
    (releaseResponse : bool) (w : World) :
  exists r w',
    sendRequest dataPlaneInput method path query headers body releaseResponse w
    = (Some r, w')
    /\ (ContainerName dataPlaneInput = "" -> w' = w)
    /\ (ContainerName dataPlaneInput <> "" ->
        acquired w' = S (acquired w)
        /\ (url_Parse (URL dataPlaneInput) = None ->
            r = (None, Some (ErrParseURL (URL dataPlaneInput)))
            /\ released w' = released w /\ roundTrips w' = roundTrips w)
        /\ (url_Parse (URL dataPlaneInput) <> None ->
            released w'
            = match r with
              | (Some _, _) => released w
              | (None, None) => S (released w)
              | (None, Some _) =>
                  if IncludeResponseInError dataPlaneInput then released w
                  else S (released w)
              end)).
Proof.
  destruct (decide (ContainerName dataPlaneInput = "")) as [Hc|Hc].
  { rewrite sendRequest_empty by done. eexists _, _. by repeat split. }
  destruct (url_Parse (URL dataPlaneInput)) as [parsed|] eqn:Hurl.
  - rewrite (sendRequest_closed_form _ _ _ _ _ _ _
               {| Endpoint := Endpoint parsed;
                  uri_Path := requestPath (ContainerName dataPlaneInput) path;
                  RawQuery := strings.ReplaceByte query " " "%20" |})
      by (try done; unfold buildRequestURI; by rewrite Hurl).
    cbv zeta.
    destruct (transport w _ _) as [http|err].
    + destruct (_ && _).
      * destruct releaseResponse; eexists _, _; (split; [reflexivity|]);
          (split; [done|]); intros _; by repeat split.
      * destruct (IncludeResponseInError dataPlaneInput); eexists _, _;
          (split; [reflexivity|]); (split; [done|]); intros _; by repeat split.
    + destruct (IncludeResponseInError dataPlaneInput); eexists _, _;
        (split; [reflexivity|]); (split; [done|]); intros _; by repeat split.
  - unfold sendRequest, buildRequestURI. rewrite bool_decide_eq_false_2 by done.
    rewrite Hurl. eexists _, _. split; [reflexivity|]. split; [done|].
    intros _. by repeat split.
Qed.

(** X11: An answer of the server outside 2xx: when the server answers the first
    round trip with such a status code, [sendRequest] returns an error that
    carries the status code and no response, after that one round trip.
    When the input asks for the response in the error, the error carries the
    answer, [extractResponseFromError] gives it back, and the response is
    not released; otherwise the response is released. *)
Theorem sendRequest_status_error (dataPlaneInput : DataPlaneInput)
    (method path query : string) (headers : gmap string string) (body : bytes)
    (releaseResponse : bool) (uri : Uri) (http : HttpResponse) (w : World)
    (Hcontainer : ContainerName dataPlaneInput <> "")
    (Huri : buildRequestURI (URL dataPlaneInput) (ContainerName dataPlaneInput)
                            query path = Ok uri)
    (Hanswer : transport w (length (roundTrips w))
                 (initRequest dataPlaneInput method uri headers body)
               = Answered http)
    (Hstatus : StatusCode http < 200 \/ 300 <= StatusCode http) :
  exists err w',
    sendRequest dataPlaneInput method path query headers body releaseResponse w
    = (Some (None, Some err), w')
    /\ roundTrips w'
       = (roundTrips w ++ [initRequest dataPlaneInput method uri headers body])%list
    /\ (IncludeResponseInError dataPlaneInput = false ->
        err = ErrStatusCode (StatusCode http)
        /\ extractResponseFromError dataPlaneInput err = None
        /\ released w' = S (released w))
    /\ (IncludeResponseInError dataPlaneInput = true ->
        err = ErrStatusCodeAndResponse (StatusCode http) http
        /\ (HTTPResponse <$> extractResponseFromError dataPlaneInput err)
           = Some (Some http)
        /\ released w' = released w).
Proof.
  rewrite (sendRequest_closed_form _ _ _ _ _ _ _ uri) by done. cbv zeta.
  assert (closedRun w (initRequest dataPlaneInput method uri headers body)
                    (length (roundTrips w)) 7 = 0%nat) as ->.
  { cbn [closedRun]. by rewrite Hanswer. }
  rewrite Nat.add_0_r, Hanswer.
  assert ((200 <=? StatusCode http) && (StatusCode http <? 300) = false) as ->.
  { destruct (Z.leb_spec 200 (StatusCode http)), (Z.ltb_spec (StatusCode http) 300);
      cbn; try done; lia. }
  unfold extractResponseFromError.
  destruct (IncludeResponseInError dataPlaneInput); eexists _, _;
    (split; [reflexivity|]); (split; [done|]); by split.
Qed.


(** ** Items: attributes that cannot be encoded, and the errors of [PutItems] *)

Lemma encodeTypedAttributes_other (FF : float -> string) (attributes : Item)
    (name ty : string) :
  attributes !! name = Some (VOther ty) ->
  exists name' ty',
    attributes !! name' = Some (VOther ty')
    /\ encodeTypedAttributes FF attributes = Err (ErrUnexpectedAttributeType name').
Proof.
  intros Hl.
  destruct (encode_loop_other FF (map_to_list attributes) ∅) as (n' & ty' & Hin & Heq).
  { exists name, ty. by apply elem_of_map_to_list. }
  exists n', ty'. split; [by apply elem_of_map_to_list|exact Heq].
Qed.

Lemma putItem_total (dataPlaneInput : DataPlaneInput) (path functionName : string)
    (attributes : Item) (condition : string) (headers : gmap string string)
    (body : option (gmap string BodyValue)) (w : World) :
  exists r w',
    putItem dataPlaneInput path functionName attributes condition headers body w
    = (Some r, w').
Proof.
  unfold putItem.
  destruct (encode_loop_no_panic FormatFloat (map_to_list attributes) (Ok ∅))
    as [Hpanic _]; [done|done|].
  fold (encodeTypedAttributes FormatFloat attributes) in Hpanic.
  destruct (encodeTypedAttributes FormatFloat attributes) as [typed|e|];
    [|by eexists _, _|done].
  destruct (json_Marshal _); [|by eexists _, _].
  apply sendRequest_total.
Qed.

(** X16: An attribute of a type [encodeTypedAttributes] has no case for: [putItem]
    and with it [PutItemSync] return the error that names such an attribute
    and no response, and leave the state as it was: no response is taken
    from the pool and nothing is sent. *)
Theorem putItem_unexpected_attribute (putItemInput : PutItemInput) (w : World)
    (name ty : string)
    (Hother : pi_Attributes putItemInput !! name = Some (VOther ty)) :
  exists name' ty',
    pi_Attributes putItemInput !! name' = Some (VOther ty')
    /\ (forall body,
          putItem (pi_dpi putItemInput) (pi_Path putItemInput) putItemFunctionName
                  (pi_Attributes putItemInput) (pi_Condition putItemInput)
                  putItemHeaders body w
          = (Some (None, Some (ErrUnexpectedAttributeType name')), w))
    /\ PutItemSync putItemInput w
       = (Some (None, Some (ErrUnexpectedAttributeType name')), w).
Proof.
  destruct (encodeTypedAttributes_other FormatFloat _ _ _ Hother)
    as (name' & ty' & Hl & Henc).
  exists name', ty'. split; [done|].
  assert (forall body,
             putItem (pi_dpi putItemInput) (pi_Path putItemInput) putItemFunctionName
               (pi_Attributes putItemInput) (pi_Condition putItemInput)
               putItemHeaders body w
             = (Some (None, Some (ErrUnexpectedAttributeType name')), w)) as Hput.
  { intros body. unfold putItem. by rewrite Henc. }
  split; [done|]. unfold PutItemSync, bind. by rewrite Hput.
Qed.

(** The output of the loop of [PutItemsSync] is consistent and names items
    of the input only. *)
Definition putItemsConsistent (keys : list string) (out : PutItemsOutput) : Prop :=
  (Success out = true <-> Errors out = None)
  /\ forall errs, Errors out = Some errs ->
       errs <> ∅ /\ forall key, is_Some (errs !! key) -> key ∈ keys.

Lemma putItems_loop_consistent (putItemsInput : PutItemsInput)
    (entries : list (string * Item)) :
  forall (keys : list string) (putItemsOutput : PutItemsOutput) (w : World),
    putItemsConsistent keys putItemsOutput ->
    (forall key, key ∈ entries.*1 -> key ∈ keys) ->
    exists out w',
      foldM (putItemsStep putItemsInput) entries putItemsOutput w = (Some out, w')
      /\ putItemsConsistent keys out.
Proof.
  induction entries as [|[itemKey itemAttributes] entries IH];
    intros keys putItemsOutput w Hinv Hkeys.
  - by exists putItemsOutput, w.
  - cbn [foldM putItemsStep]. unfold bind at 1 2.
    destruct (putItem_total (pis_dpi putItemsInput)
                (pis_Path putItemsInput +:+ "/" +:+ itemKey) putItemFunctionName
                itemAttributes (pis_Condition putItemsInput) putItemHeaders None w)
      as (r & w1 & ->).
    assert (forall key, key ∈ entries.*1 -> key ∈ keys) as Hrest.
    { intros key Hin. apply Hkeys. cbn. by right. }
    destruct (snd r) as [err|]; unfold ret at 1; [|by apply IH].
    apply IH; [|done]. split; [done|]. intros errs [= <-]. split.
    + apply insert_non_empty.
    + intros key [e He]. destruct (decide (key = itemKey)) as [->|Hne].
      * apply Hkeys. cbn. by left.
      * rewrite lookup_insert_ne in He by done.
        destruct Hinv as [_ Herrs]. destruct (Errors putItemsOutput) as [errs0|].
        -- by apply (Herrs errs0 eq_refl).
        -- cbn in He. by rewrite lookup_empty in He.
Qed.

(** X18: [PutItemsSync] in every state: it returns a response and never an error
    of its own. In the output [Success] is true exactly when there is no map
    of errors; a map of errors is never empty, and it holds errors for item
    keys of the input only. *)
Theorem PutItemsSync_output (putItemsInput : PutItemsInput) (w : World) :
  exists response out w',
    PutItemsSync putItemsInput w = (Some (Some response, None), w')
    /\ resp_Output response = Some (OutPutItems out)
    /\ (Success out = true <-> Errors out = None)
    /\ forall errs, Errors out = Some errs ->
         errs <> ∅ /\ dom errs ⊆ dom (Items putItemsInput).
Proof.
  unfold PutItemsSync. cbv [bind allocateResponse acquireResponse ret].
  destruct (putItems_loop_consistent putItemsInput (map_to_list (Items putItemsInput))
              (map_to_list (Items putItemsInput)).*1
              {| Success := true; Errors := None |}
              {| transport := transport w; roundTrips := roundTrips w;
                 acquired := S (acquired w); released := released w;
                 logged := logged w; requestID := requestID w;
                 requestChan := requestChan w; responseChans := responseChans w |})
    as (out & w' & -> & Hsucc & Herrs); [by split|done|].
  eexists _, out, w'. split; [reflexivity|]. split; [done|]. split; [done|].
  intros errs Hout. destruct (Herrs errs Hout) as [Hne Hkeys]. split; [done|].
  intros key Hin. apply elem_of_dom in Hin. apply Hkeys in Hin.
  apply list_elem_of_fmap in Hin as ([k v] & -> & Hin).
  apply elem_of_map_to_list in Hin. apply elem_of_dom. by eexists.
Qed.


(** ** [PutOOSObjectSync]: the body and the headers of the request *)

(** The length of an io vector as the header [io-vec-sizes] writes it. *)
Definition ioVecSize (ioVec : bytes) : string := strconv.Itoa (Z.of_nat (length ioVec)).

Lemma fold_buffer (ioVecs : list bytes) (buffer : bytes) :
  fold_left (fun buffer ioVec => (buffer ++ ioVec)%list) ioVecs buffer
  = (buffer ++ concat ioVecs)%list.
Proof.
  revert buffer. induction ioVecs as [|ioVec ioVecs IH]; intros buffer; cbn.
  - by rewrite app_nil_r.
  - by rewrite IH, app_assoc.
Qed.

Lemma fold_sizes (ioVecs : list bytes) (before : list bytes) :
  before <> [] ->
  fold_left (fun sizes ioVec => sizes +:+ "," +:+ strconv.Itoa (Z.of_nat (length ioVec)))
            ioVecs (strings.Join (map ioVecSize before) ",")
  = strings.Join (map ioVecSize (before ++ ioVecs)) ",".
Proof.
  revert before. induction ioVecs as [|ioVec ioVecs IH]; intros before Hne; cbn.
  - by rewrite app_nil_r.
  - replace (before ++ ioVec :: ioVecs)%list with ((before ++ [ioVec]) ++ ioVecs)%list
      by (by rewrite <- app_assoc).
    rewrite <- IH by (by destruct before).
    f_equal. rewrite map_app. cbn [map].
    rewrite Join_snoc; [done|by destruct before].
Qed.

(** X19: The request of [PutOOSObjectSync], once the container name and the URL
    are accepted: a [PUT] whose body is the header followed by the io vectors
    of the data, in order; the header [io-vec-num] counts the header and the
    vectors, and [io-vec-sizes] lists their lengths in that order, separated
    by commas, so that the lengths listed add up to the length of the body.
    Nothing else is sent. *)
Theorem PutOOSObjectSync_request (putOOSObjectInput : PutOOSObjectInput) (uri : Uri)
    (w : World)
    (Hcontainer : ContainerName (oos_dpi putOOSObjectInput) <> "")
    (Huri : buildRequestURI (URL (oos_dpi putOOSObjectInput))
              (ContainerName (oos_dpi putOOSObjectInput)) ""
              (oos_Path putOOSObjectInput) = Ok uri) :
  exists (request : HttpRequest) (n : nat),
    roundTrips (snd (PutOOSObjectSync putOOSObjectInput w))
    = (roundTrips w ++ replicate (S n) request)%list
    /\ Method request = "PUT"
    /\ RequestURI request = uri
    /\ req_Body request
       = (oos_Header putOOSObjectInput ++ concat (oos_Data putOOSObjectInput))%list
    /\ ("io-vec-num",
        strconv.Itoa (Z.of_nat (length (oos_Data putOOSObjectInput)) + 1))
       ∈ req_Header request
    /\ ("io-vec-sizes",
        strings.Join (map ioVecSize (oos_Header putOOSObjectInput
                                     :: oos_Data putOOSObjectInput)) ",")
       ∈ req_Header request
    /\ length (req_Body request)
       = list_sum (map (@length byte) (oos_Header putOOSObjectInput
                                       :: oos_Data putOOSObjectInput)).
Proof.
  unfold PutOOSObjectSync. cbv zeta. unfold bind at 1.
  rewrite (sendRequest_closed_form _ _ _ _ _ _ _ uri) by done. cbv zeta.
  rewrite fold_buffer.
  change (strconv.Itoa (Z.of_nat (length (oos_Header putOOSObjectInput))))
    with (strings.Join (map ioVecSize [oos_Header putOOSObjectInput]) ",").
  rewrite fold_sizes by done. cbn [app].
  match goal with
  | |- context [closedRun w ?r ?from 7] =>
      exists r, (closedRun w r from 7)
  end.
  split.
  { destruct (transport w _ _) as [http|err].
    - destruct ((200 <=? StatusCode http) && (StatusCode http <? 300));
        by destruct (IncludeResponseInError (oos_dpi putOOSObjectInput)).
    - by destruct (IncludeResponseInError (oos_dpi putOOSObjectInput)). }
  cbn [Method RequestURI req_Body req_Header initRequest].
  split; [done|]. split; [done|]. split; [done|].
  split; [|split].
  - rewrite !elem_of_app. right. right. apply elem_of_map_to_list.
    rewrite lookup_insert_ne by done. rewrite lookup_insert_ne by done.
    by rewrite lookup_insert_eq.
  - rewrite !elem_of_app. right. right. apply elem_of_map_to_list.
    do 3 (rewrite lookup_insert_ne by done). by rewrite lookup_singleton_eq.
  - rewrite length_app. unfold list_sum. cbn [map fold_right]. f_equal.
    generalize (oos_Data putOOSObjectInput) as ioVecs.
    induction ioVecs as [|ioVec ioVecs IH]; [done|].
    cbn [concat map fold_right]. by rewrite length_app, IH.
Qed.


(** ** Responses that are neither returned nor released *)

(** X13: A body that does not decode. [sendRequestAndXMLUnmarshal], and with it
    [GetContainersSync] and [GetContainerContentsSync], releases the
    response when the XML of a 2xx answer does not decode, and returns the
    error of the decoder without a response. *)
Theorem sendRequestAndXMLUnmarshal_decode_error (dataPlaneInput : DataPlaneInput)
    (method path query : string) (headers : gmap string string) (body : bytes)
    (output : Output) (uri : Uri) (http : HttpResponse) (err : error) (w : World)
    (Hcontainer : ContainerName dataPlaneInput <> "")
    (Huri : buildRequestURI (URL dataPlaneInput) (ContainerName dataPlaneInput)
                            query path = Ok uri)
    (Hanswer : transport w (length (roundTrips w))
                 (initRequest dataPlaneInput method uri headers body)
               = Answered http)
    (Hstatus : 200 <= StatusCode http < 300)
    (Hdecode : snd (xml_Unmarshal (Body http) output) = Some err) :
  exists w',
    sendRequestAndXMLUnmarshal dataPlaneInput method path query headers body output w
    = (Some (None, Some err), w')
    /\ acquired w' = S (acquired w)
    /\ released w' = S (released w).
Proof.
  unfold sendRequestAndXMLUnmarshal, bind at 1.
  rewrite (sendRequest_closed_form _ _ _ _ _ _ _ uri) by done. cbv zeta.
  assert (closedRun w (initRequest dataPlaneInput method uri headers body)
                    (length (roundTrips w)) 7 = 0%nat) as ->.
  { cbn [closedRun]. by rewrite Hanswer. }
  rewrite Nat.add_0_r, Hanswer.
  assert ((200 <=? StatusCode http) && (StatusCode http <? 300) = true) as ->.
  { destruct (Z.leb_spec 200 (StatusCode http)), (Z.ltb_spec (StatusCode http) 300);
      cbn; try done; lia. }
  cbn [ResponseBody HTTPResponse]. unfold bind, ret.
  destruct (xml_Unmarshal (Body http) output) as [out e]. cbn in Hdecode. subst e.
  unfold release. by eexists.
Qed.

(** The body [GetRecordsSync] sends. *)
Definition getRecordsBody (getRecordsInput : GetRecordsInput) : bytes :=
  bytes_of ("{" +:+ quoted "Location" +:+ ": "
            +:+ quoted (gr_Location getRecordsInput) +:+ ", "
            +:+ quoted "Limit" +:+ ": "
            +:+ strconv.Itoa (gr_Limit getRecordsInput) +:+ "}").

(** X14: The operations that decode a JSON body ([GetClusterMDSync],
    [DescribeStreamSync], [SeekShardSync], [PutRecordsSync],
    [GetRecordsSync]) share their tail: when the JSON of a 2xx answer does
    not decode, they return the error of the decoder without a response, and
    the response taken from the pool is not released. Stated for
    [GetRecordsSync]. *)
Theorem GetRecordsSync_decode_error (getRecordsInput : GetRecordsInput)
    (uri : Uri) (http : HttpResponse) (err : error) (w : World)
    (Hcontainer : ContainerName (gr_dpi getRecordsInput) <> "")
    (Huri : buildRequestURI (URL (gr_dpi getRecordsInput))
              (ContainerName (gr_dpi getRecordsInput)) ""
              (gr_Path getRecordsInput) = Ok uri)
    (Hanswer : transport w (length (roundTrips w))
                 (initRequest (gr_dpi getRecordsInput) "PUT" uri getRecordsHeaders
                              (getRecordsBody getRecordsInput))
               = Answered http)
    (Hstatus : 200 <= StatusCode http < 300)
    (Hdecode : snd (json_Unmarshal (Body http)
                      (OutGetRecords {| NextLocation := ""; MSecBehindLatest := 0;
                                        RecordsBehindLatest := 0;
                                        gro_Records := [] |}))
               = Some err) :
  exists w',
    GetRecordsSync getRecordsInput w = (Some (None, Some err), w')
    /\ acquired w' = S (acquired w)
    /\ released w' = released w.
Proof.
  unfold GetRecordsSync. cbv zeta. fold (getRecordsBody getRecordsInput).
  unfold bind at 1.
  rewrite (sendRequest_closed_form _ _ _ _ _ _ _ uri) by done. cbv zeta.
  assert (closedRun w (initRequest (gr_dpi getRecordsInput) "PUT" uri
                                   getRecordsHeaders (getRecordsBody getRecordsInput))
                    (length (roundTrips w)) 7 = 0%nat) as ->.
  { cbn [closedRun]. by rewrite Hanswer. }
  rewrite Nat.add_0_r, Hanswer.
  assert ((200 <=? StatusCode http) && (StatusCode http <? 300) = true) as ->.
  { destruct (Z.leb_spec 200 (StatusCode http)), (Z.ltb_spec (StatusCode http) 300);
      cbn; try done; lia. }
  unfold unmarshalOutput. cbn [ResponseBody HTTPResponse]. unfold bind, ret.
  destruct (json_Unmarshal (Body http) _) as [out e]. cbn in Hdecode. subst e.
  by eexists.
Qed.


(** ** The queue of requests and the channels of responses *)

(** A computation that leaves the request channel, the response channels,
    the counter of request IDs and the transport as they are. *)
Definition quiet {A} (m : M A) : Prop :=
  forall w,
    requestChan (snd (m w)) = requestChan w
    /\ responseChans (snd (m w)) = responseChans w
    /\ requestID (snd (m w)) = requestID w
    /\ transport (snd (m w)) = transport w.

Lemma quiet_ret {A} (a : A) : quiet (ret a).
Proof. by intros w. Qed.

Lemma quiet_panic {A} : quiet (@panic A).
Proof. by intros w. Qed.

Lemma quiet_bind {A B} (m : M A) (k : A -> M B) :
  quiet m -> (forall a, quiet (k a)) -> quiet (bind m k).
Proof.
  intros Hm Hk w. unfold bind. destruct (Hm w) as (H1 & H2 & H3 & H4).
  destruct (m w) as [[a|] w1]; [|done].
  destruct (Hk a w1) as (K1 & K2 & K3 & K4). cbn [snd] in *.
  by rewrite K1, K2, K3, K4.
Qed.

Lemma quiet_release : quiet release.
Proof. by intros w. Qed.

Lemma quiet_log (message : string) : quiet (log message).
Proof. by intros w. Qed.

Lemma quiet_allocateResponse : quiet allocateResponse.
Proof. by intros w. Qed.

Lemma quiet_foldM {A B} (f : B -> A -> M B) (l : list A) (b : B) :
  (forall b a, quiet (f b a)) -> quiet (foldM f l b).
Proof.
  intros Hf. revert b. induction l as [|a l IH]; intros b; [apply quiet_ret|].
  cbn [foldM]. apply quiet_bind; [apply Hf|apply IH].
Qed.

Lemma quiet_retryLoop (n : nat) (request : HttpRequest) (last : TransportResult) :
  quiet (retryLoop n request last).
Proof.
  revert last. induction n as [|n IH]; intros last; [apply quiet_ret|].
  cbn [retryLoop]. apply quiet_bind; [by intros w|].
  intros r. destruct (is_ErrConnectionClosed r); [apply IH|apply quiet_ret].
Qed.

Lemma quiet_ResponseBody (r : option Response) : quiet (ResponseBody r).
Proof. destruct r as [[? ? ? [h|] ?]|]; by intros w. Qed.

Lemma quiet_ResponseHeaderPeek (r : option Response) (key : string) :
  quiet (ResponseHeaderPeek r key).
Proof. destruct r as [[? ? ? [h|] ?]|]; by intros w. Qed.

Ltac quiet_step :=
  first
    [ apply quiet_ret | apply quiet_panic | apply quiet_release | apply quiet_log
    | apply quiet_allocateResponse | apply quiet_retryLoop
    | apply quiet_ResponseBody | apply quiet_ResponseHeaderPeek
    | apply quiet_bind; [|intros ?]
    | apply quiet_foldM; intros ? ?
    | match goal with
      | |- quiet (match ?x with _ => _ end) => destruct x
      | |- quiet (let _ := _ in _) => cbv zeta
      end ].

Lemma quiet_sendRequest (dataPlaneInput : DataPlaneInput)
    (method path query : string) (headers : gmap string string) (body : bytes)
    (releaseResponse : bool) :
  quiet (sendRequest dataPlaneInput method path query headers body releaseResponse).
Proof. unfold sendRequest, cleanupWithError. repeat quiet_step. Qed.


Ltac quiet_op :=
  repeat first [ apply quiet_sendRequest | quiet_step ].

Lemma quiet_putItem (dataPlaneInput : DataPlaneInput) (path functionName : string)
    (attributes : Item) (condition : string) (headers : gmap string string)
    (body : option (gmap string BodyValue)) :
  quiet (putItem dataPlaneInput path functionName attributes condition headers body).
Proof. unfold putItem. quiet_op. Qed.

Lemma quiet_parseGetItemsResponse (getItemsInput : GetItemsInput)
    (response : option Response) :
  quiet (parseGetItemsResponse getItemsInput response).
Proof.
  unfold parseGetItemsResponse, getItemsParseJSONResponse, getItemsParseCAPNPResponse.
  quiet_op.
Qed.

Lemma quiet_DeleteObjectSync (deleteObjectInput : DeleteObjectInput) :
  quiet (DeleteObjectSync deleteObjectInput).
Proof. unfold DeleteObjectSync. quiet_op. Qed.

Lemma quiet_sendRequestAndXMLUnmarshal (dataPlaneInput : DataPlaneInput)
    (method path query : string) (headers : gmap string string) (body : bytes)
    (output : Output) :
  quiet (sendRequestAndXMLUnmarshal dataPlaneInput method path query headers body
           output).
Proof. unfold sendRequestAndXMLUnmarshal. quiet_op. Qed.

(** No synchronous operation touches the request channel, the response
    channels or the counter of request IDs. *)
Lemma quiet_workerSwitch (input : Input) : quiet (workerSwitch input).
Proof.
  destruct input; cbn [workerSwitch]; unfold errorOnly.
  all: try (apply quiet_bind; [|intros ?; apply quiet_ret]).
  all: try apply quiet_log.
  - unfold PutObjectSync. quiet_op.
  - unfold GetObjectSync. quiet_op.
  - apply quiet_DeleteObjectSync.
  - unfold GetItemSync. quiet_op.
  - unfold GetItemsSync. repeat first [apply quiet_parseGetItemsResponse | apply quiet_sendRequest | quiet_step].
  - unfold PutItemSync, withMtimeOutput, parseMtimeHeader.
    repeat first [apply quiet_putItem | quiet_step].
  - unfold PutItemsSync, putItemsStep.
    repeat first [apply quiet_putItem | quiet_step].
  - unfold UpdateItemSync, withMtimeOutput, parseMtimeHeader, updateItemWithExpression.
    repeat first [apply quiet_putItem | apply quiet_sendRequest | quiet_step].
  - unfold CreateStreamSync. quiet_op.
  - unfold DescribeStreamSync, unmarshalOutput. quiet_op.
  - unfold DeleteStreamSync, GetContainerContentsSync.
    repeat first [apply quiet_sendRequestAndXMLUnmarshal | apply quiet_DeleteObjectSync
                 | quiet_step].
  - unfold GetRecordsSync, unmarshalOutput. quiet_op.
  - unfold PutRecordsSync, unmarshalOutput. quiet_op.
  - unfold PutChunkSync. quiet_op.
  - unfold SeekShardSync, unmarshalOutput. quiet_op.
  - unfold GetContainersSync. apply quiet_sendRequestAndXMLUnmarshal.
  - unfold GetContainerContentsSync. apply quiet_sendRequestAndXMLUnmarshal.
  - unfold GetClusterMDSync, unmarshalOutput. quiet_op.
  - unfold CheckPathExistsSync. quiet_op.
Qed.


(** X24: A request and its response. A call of the asynchronous interface on an
    empty request channel returns the request it enqueued, whose ID is the
    one after the last ID given. The next step of a worker takes that request
    off the channel; unless the operation panics, it puts one response on the
    channel of the caller, after the responses already there, with the ID of
    the request and the context of the caller, and it leaves the other
    response channels as they were. *)
Theorem async_request_response (input : Input) (context : option Value)
    (responseChan : N) (w : World)
    (Hidle : requestChan w = []) :
  exists request w1 w2 delivered,
    sendRequestToWorker input context responseChan w
    = (Some (Some request, None), w1)
    /\ req_ID request = (requestID w + 1) mod 2 ^ 64
    /\ requestChan w1 = [request]
    /\ workerStep w1 = Some (delivered, w2)
    /\ requestChan w2 = []
    /\ match delivered with
       | Some _ =>
           exists response,
             responseChans w2
             = <[responseChan :=
                   (default [] (responseChans w !! responseChan) ++ [response])%list]>
                 (responseChans w)
             /\ resp_ID response = req_ID request
             /\ resp_Context response = context
       | None => responseChans w2 = responseChans w
       end.
Proof.
  pose (request := {| req_ID := (requestID w + 1) mod 2 ^ 64; req_Input := input;
                      req_Context := context; ResponseChan := responseChan;
                      SendTimeNanoseconds := time_Now_UnixNano w |}).
  pose (w0 := {| transport := transport w; roundTrips := roundTrips w;
                 acquired := acquired w; released := released w;
                 logged := logged w; requestID := (requestID w + 1) mod 2 ^ 64;
                 requestChan := []; responseChans := responseChans w |}).
  destruct (quiet_workerSwitch input w0) as (Hq & Hr & _ & _).
  cbn [requestChan responseChans w0] in Hq, Hr.
  exists request,
    {| transport := transport w; roundTrips := roundTrips w;
       acquired := acquired w; released := released w;
       logged := logged w; requestID := (requestID w + 1) mod 2 ^ 64;
       requestChan := [request]; responseChans := responseChans w |}.
  unfold sendRequestToWorker, workerStep. rewrite Hidle.
  cbn [app requestChan transport roundTrips acquired released logged requestID
       responseChans].
  fold w0. unfold workerHandle, bind. cbn [req_Input ResponseChan request].
  destruct (workerSwitch input w0) as [[r|] w1]; cbn [snd] in Hq, Hr.
  - eexists _, (Some tt). split; [reflexivity|]. split; [done|]. split; [done|].
    split; [reflexivity|]. cbn [sendResponse requestChan responseChans snd].
    split; [done|]. eexists. rewrite Hr. split; [reflexivity|]. by split.
  - eexists _, None. split; [reflexivity|]. split; [done|]. split; [done|].
    split; [reflexivity|]. by split.
Qed.

End RequestProperties.

(** ** The modification time header, written and read back *)

Fixpoint allChars (p : ascii -> bool) (s : string) : bool :=
  match s with
  | EmptyString => true
  | String c s' => p c && allChars p s'
  end.

Lemma allChars_app (p : ascii -> bool) (a b : string) :
  allChars p (a +:+ b) = allChars p a && allChars p b.
Proof.
  induction a as [|c a IH]; [done|].
  rewrite append_cons. cbn [allChars]. by rewrite IH, andb_assoc.
Qed.

Lemma allChars_rev (p : ascii -> bool) (s : string) :
  allChars p (strings.rev s) = allChars p s.
Proof.
  induction s as [|c s IH]; [done|].
  rewrite rev_cons, allChars_app, IH. cbn [allChars].
  by rewrite andb_true_r, andb_comm.
Qed.

Lemma allChars_ContainsByte (s : string) (c : ascii) :
  allChars (fun x => negb (Ascii.eqb x c)) s = true ->
  strings.ContainsByte s c = false.
Proof.
  induction s as [|x s IH]; [done|]. cbn [allChars strings.ContainsByte].
  intros Hall. apply andb_true_iff in Hall as [Hx Hs].
  rewrite IH by done. by destruct (Ascii.eqb x c).
Qed.

Lemma allChars_string_of_digits_le (p : ascii -> bool) (ds : list Z) (acc : string) :
  (forall d, 0 <= d <= 9 -> p (strconv.digit_char d) = true) ->
  Forall (fun d => 0 <= d <= 9) ds ->
  allChars p acc = true ->
  allChars p (strconv.string_of_digits_le ds acc) = true.
Proof.
  intros Hp Hall. revert acc. induction Hall as [|d ds Hd Hds IH]; intros acc Hacc.
  - done.
  - cbn [strconv.string_of_digits_le]. apply IH. cbn [allChars].
    by rewrite Hp, Hacc.
Qed.

(** The bytes of a number written by [strconv.Itoa]: digits, after a minus
    sign when the number is negative. *)
Lemma allChars_Itoa (p : ascii -> bool) (n : Z) :
  p "-"%char = true ->
  (forall d, 0 <= d <= 9 -> p (strconv.digit_char d) = true) ->
  is_int n ->
  allChars p (strconv.Itoa n) = true.
Proof.
  unfold is_int, is_int64. change (2 ^ 63) with 9223372036854775808.
  intros Hminus Hp Hn.
  assert (forall m, 0 <= m < 2 ^ 64 -> allChars p (strconv.FormatUint m) = true) as Hu.
  { intros m Hm. unfold strconv.FormatUint.
    apply allChars_string_of_digits_le; [done| |done].
    apply digits_le_spec. change (10 ^ Z.of_nat 21) with 1000000000000000000000.
    lia. }
  unfold strconv.Itoa, strconv.FormatInt. destruct (n <? 0) eqn:Hneg.
  - cbn [allChars]. rewrite Hminus, Hu by lia. reflexivity.
  - apply Hu. lia.
Qed.

Lemma digit_char_cases (p : ascii -> bool) :
  p "0"%char = true -> p "1"%char = true -> p "2"%char = true ->
  p "3"%char = true -> p "4"%char = true -> p "5"%char = true ->
  p "6"%char = true -> p "7"%char = true -> p "8"%char = true ->
  p "9"%char = true ->
  forall d, 0 <= d <= 9 -> p (strconv.digit_char d) = true.
Proof.
  intros H0 H1 H2 H3 H4 H5 H6 H7 H8 H9 d Hd.
  assert (d = 0 \/ d = 1 \/ d = 2 \/ d = 3 \/ d = 4 \/ d = 5 \/ d = 6 \/ d = 7
          \/ d = 8 \/ d = 9) as Hcases by lia.
  repeat (destruct Hcases as [-> | Hcases]; [assumption|]). by subst.
Qed.

Lemma Itoa_no_byte (n : Z) (c : ascii) :
  is_int n ->
  allChars (fun x => negb (Ascii.eqb x c)) "-0123456789" = true ->
  strings.ContainsByte (strconv.Itoa n) c = false.
Proof.
  intros Hn Hc. apply allChars_ContainsByte.
  cbn [allChars] in Hc. repeat (apply andb_true_iff in Hc as [? Hc]).
  apply allChars_Itoa; [done| |done].
  by apply (digit_char_cases (fun x => negb (Ascii.eqb x c))).
Qed.

Lemma TrimLeft_no_space (s : string) :
  allChars (fun c => negb (strings.asciiSpace c)) s = true ->
  strings.TrimLeft s = s.
Proof.
  destruct s as [|c s]; [done|]. cbn [allChars strings.TrimLeft].
  intros Hall. apply andb_true_iff in Hall as [Hc _].
  by destruct (strings.asciiSpace c).
Qed.

Lemma TrimSpace_no_space (s : string) :
  allChars (fun c => negb (strings.asciiSpace c)) s = true ->
  strings.TrimSpace s = s /\ strings.TrimSpace (s +:+ " ") = s.
Proof.
  intros Hall. unfold strings.TrimSpace. split.
  - rewrite (TrimLeft_no_space s) by done.
    rewrite TrimLeft_no_space by (by rewrite allChars_rev).
    apply rev_involutive.
  - destruct s as [|c s]; [done|].
    assert (strings.TrimLeft (String c s +:+ " ") = String c s +:+ " ") as ->.
    { rewrite append_cons. cbn [strings.TrimLeft allChars] in *.
      apply andb_true_iff in Hall as [Hc _]. by destruct (strings.asciiSpace c). }
    rewrite rev_append.
    change (strings.rev " ") with " ". rewrite append_cons, append_nil_l.
    cbn [strings.TrimLeft]. change (strings.asciiSpace " ") with true. cbv iota.
    rewrite TrimLeft_no_space by (by rewrite allChars_rev).
    apply rev_involutive.
Qed.

Lemma Split_go_skip (sep : string) (t cur rest : string) :
  strings.Split_go sep (String.length t) cur (t +:+ rest)
  = strings.Split_go sep 0 cur rest.
Proof.
  induction t as [|c t IH]; [done|]. rewrite append_cons. by cbn.
Qed.

Lemma Split_go_no_first (c : ascii) (t s cur rest : string) :
  strings.ContainsByte s c = false ->
  strings.Split_go (String c t) 0 cur (s +:+ rest)
  = strings.Split_go (String c t) 0 (cur +:+ s) rest.
Proof.
  revert cur. induction s as [|x s IH]; intros cur Hs.
  - by rewrite append_nil_l, append_nil_r.
  - cbn [strings.ContainsByte] in Hs. apply orb_false_elim in Hs as [Hx Hs].
    rewrite append_cons. cbn [strings.Split_go String.prefix].
    destruct (ascii_dec c x) as [->|Hne]; [by rewrite Ascii.eqb_refl in Hx|].
    rewrite IH by done. by rewrite append_assoc.
Qed.

(** A string cut at the one place its separator stands. *)
Lemma Split_two (c : ascii) (t a b : string) :
  strings.ContainsByte a c = false -> strings.ContainsByte b c = false ->
  strings.Split (a +:+ String c t +:+ b) (String c t) = [a; b].
Proof.
  intros Ha Hb. unfold strings.Split.
  rewrite Split_go_no_first, append_nil_l by done.
  rewrite append_cons. cbn [strings.Split_go].
  assert (String.prefix (String c t) (String c (t +:+ b)) = true) as ->.
  { rewrite <- append_cons. apply prefix_append. }
  cbn [String.length Nat.sub]. rewrite Nat.sub_0_r, Split_go_skip.
  rewrite <- (append_nil_r b) at 1. rewrite Split_go_no_first by done.
  by rewrite append_nil_l.
Qed.

(** The header the server writes for the modification time
    [(mtimeSecs, mtimeNSecs)], for any two numbers of the range of [int]. *)
Definition mtimeHeaderOf (mtimeSecs mtimeNSecs : Z) : string :=
  "__mtime_secs==" +:+ strconv.Itoa mtimeSecs
  +:+ " and __mtime_nsecs==" +:+ strconv.Itoa mtimeNSecs.

Lemma trimAndParseInt_Itoa (n : Z) :
  is_int n ->
  trimAndParseInt (strconv.Itoa n) = (n, None)
  /\ trimAndParseInt (strconv.Itoa n +:+ " ") = (n, None).
Proof.
  intros Hn. unfold trimAndParseInt.
  destruct (TrimSpace_no_space (strconv.Itoa n)) as [-> ->].
  - apply allChars_Itoa; [done| |done].
    by apply (digit_char_cases (fun c => negb (strings.asciiSpace c))).
  - split; by apply Atoi_Itoa.
Qed.

Lemma parseMtimeExpression_secs (acc : Z * Z) (n : Z) :
  is_int n ->
  parseMtimeExpression acc ("__mtime_secs==" +:+ strconv.Itoa n +:+ " ")
  = Ok (n, snd acc).
Proof.
  intros Hn. unfold parseMtimeExpression.
  assert ("__mtime_secs==" +:+ strconv.Itoa n +:+ " "
          = "__mtime_secs" +:+ String "=" "=" +:+ (strconv.Itoa n +:+ " "))
    as -> by reflexivity.
  rewrite (Split_two "=" "=");
    [|reflexivity|rewrite ContainsByte_app, Itoa_no_byte by done; reflexivity].
  change (strings.TrimSpace "__mtime_secs") with "__mtime_secs".
  rewrite bool_decide_eq_true_2 by done.
  destruct (trimAndParseInt_Itoa n Hn) as [_ ->]. done.
Qed.

Lemma parseMtimeExpression_nsecs (acc : Z * Z) (n : Z) :
  is_int n ->
  parseMtimeExpression acc (" __mtime_nsecs==" +:+ strconv.Itoa n)
  = Ok (fst acc, n).
Proof.
  intros Hn. unfold parseMtimeExpression.
  assert (" __mtime_nsecs==" +:+ strconv.Itoa n
          = " __mtime_nsecs" +:+ String "=" "=" +:+ strconv.Itoa n)
    as -> by reflexivity.
  rewrite (Split_two "=" "="); [|reflexivity|by apply Itoa_no_byte].
  change (strings.TrimSpace " __mtime_nsecs") with "__mtime_nsecs".
  rewrite bool_decide_eq_false_2 by done.
  rewrite bool_decide_eq_true_2 by done.
  destruct (trimAndParseInt_Itoa n Hn) as [-> _]. done.
Qed.

Lemma parseMtimeHeaderValue_Itoa (mtimeSecs mtimeNSecs : Z) :
  is_int mtimeSecs -> is_int mtimeNSecs ->
  parseMtimeHeaderValue (mtimeHeaderOf mtimeSecs mtimeNSecs)
  = Ok (mtimeSecs, mtimeNSecs).
Proof.
  intros Hsecs Hnsecs. unfold parseMtimeHeaderValue, mtimeHeaderOf.
  assert ("__mtime_secs==" +:+ strconv.Itoa mtimeSecs
          +:+ " and __mtime_nsecs==" +:+ strconv.Itoa mtimeNSecs
          = ("__mtime_secs==" +:+ strconv.Itoa mtimeSecs +:+ " ")
            +:+ String "a" "nd"
            +:+ (" __mtime_nsecs==" +:+ strconv.Itoa mtimeNSecs))
    as -> by (by rewrite !append_assoc).
  rewrite (Split_two "a" "nd").
  - unfold parseMtimeLoop. cbn [fold_left].
    rewrite parseMtimeExpression_secs by done.
    by rewrite parseMtimeExpression_nsecs by done.
  - rewrite !ContainsByte_app, Itoa_no_byte by done. reflexivity.
  - rewrite !ContainsByte_app, Itoa_no_byte by done. reflexivity.
Qed.

(** X6: The header of the literal shape
    [__mtime_secs==<secs> and __mtime_nsecs==<nsecs>], written with
    [strconv.Itoa] for any two numbers of the range of [int], negative ones
    among them, parses to these two numbers. *)
Theorem parseMtimeHeader_reads_back (mtimeSecs mtimeNSecs : Z)
    (Hsecs : is_int mtimeSecs) (Hnsecs : is_int mtimeNSecs) :
  parseMtimeHeaderValue (mtimeHeaderOf mtimeSecs mtimeNSecs)
  = Ok (mtimeSecs, mtimeNSecs)
  /\ forall (response : Response) (http : HttpResponse) (w : World),
       HTTPResponse response = Some http ->
       HeaderPeek http "X-v3io-transaction-verifier"
       = mtimeHeaderOf mtimeSecs mtimeNSecs ->
       parseMtimeHeader (Some response) w = (Some (mtimeSecs, mtimeNSecs, None), w).
Proof.
  pose proof (parseMtimeHeaderValue_Itoa mtimeSecs mtimeNSecs Hsecs Hnsecs) as Hvalue.
  split; [done|]. intros response http w Hhttp Hheader.
  destruct response as [out ctx e h id]. cbn in Hhttp. subst h.
  unfold parseMtimeHeader, bind. cbn [ResponseHeaderPeek HTTPResponse]. unfold ret.
  by rewrite Hheader, Hvalue.
Qed.

Lemma parseMtimeHeader_reads_back_witness :
  parseMtimeHeaderValue (mtimeHeaderOf (-17) 1581605100) = Ok (-17, 1581605100)
  /\ forall (response : Response) (http : HttpResponse) (w : World),
       HTTPResponse response = Some http ->
       HeaderPeek http "X-v3io-transaction-verifier"
       = mtimeHeaderOf (-17) 1581605100 ->
       parseMtimeHeader (Some response) w = (Some (-17, 1581605100, None), w).
Proof.
  apply parseMtimeHeader_reads_back; unfold is_int, is_int64; lia.
Defined.

(** ** Unsigned attributes *)

Lemma ParseInt_FormatUint (n : Z) :
  is_uint64 n ->
  strconv.ParseInt (strconv.FormatUint n) 10 64
  = if 2 ^ 63 <=? n then (2 ^ 63 - 1, Some strconv.ErrRange) else (n, None).
Proof.
  unfold is_uint64. intros Hn.
  destruct (positional_FormatUint n) as [Hpos Hne]; [done|].
  destruct (FormatUint_head n) as (c & s' & Hs & Hplus & Hminus); [done|].
  assert (strconv.ParseUint (strconv.FormatUint n) 10 64 = (n, None)) as Hp.
  { apply ParseUint_positional; try done; lia. }
  rewrite Hs in *. cbn [strconv.ParseInt].
  replace (Ascii.eqb c "-") with false by (symmetry; by apply Ascii.eqb_neq).
  replace (Ascii.eqb c "+") with false by (symmetry; by apply Ascii.eqb_neq).
  cbn [orb]. rewrite Hp. change (64 - 1) with 63. cbn [negb andb].
  by destruct (2 ^ 63 <=? n).
Qed.

Section UnsignedAttributes.

Variable FormatFloat : float -> string.
Variable ParseFloat : string -> option float.

(** X4: An attribute of type [uint64]: it is written as a number, and read
    back as an [int] of the same value when it is below 2^63. From 2^63 on
    it never comes back as an integer: it is read as the float the parser
    makes of its digits, or gives an error when the parser makes none. *)
Theorem uint64_attribute_read_back (attributeName : string) (n : Z)
    (Hrange : is_uint64 n) :
  encodeValue FormatFloat attributeName (VUint64 n)
  = Ok {[ "N" := VString (strconv.FormatUint n) ]}
  /\ (n < 2 ^ 63 ->
      decodeValue ParseFloat attributeName {[ "N" := VString (strconv.FormatUint n) ]}
      = Ok (Some (VInt n)))
  /\ (2 ^ 63 <= n ->
      decodeValue ParseFloat attributeName {[ "N" := VString (strconv.FormatUint n) ]}
      = match ParseFloat (strconv.FormatUint n) with
        | Some floatValue => Ok (Some (VFloat64 floatValue))
        | None => Err (ErrNotIntOrFloat attributeName (strconv.FormatUint n))
        end).
Proof.
  split; [done|].
  unfold decodeValue. rewrite lookup_singleton_eq. unfold strconv.Atoi.
  rewrite ParseInt_FormatUint by done.
  split; intros Hn.
  - by destruct (Z.leb_spec (2 ^ 63) n); [lia|].
  - by destruct (Z.leb_spec (2 ^ 63) n); [|lia].
Qed.

End UnsignedAttributes.

Lemma uint64_attribute_read_back_witness :
  encodeValue sampleFormatFloat "count" (VUint64 18446744073709551615)
  = Ok {[ "N" := VString (strconv.FormatUint 18446744073709551615) ]}
  /\ (18446744073709551615 < 2 ^ 63 ->
      decodeValue sampleParseFloat "count"
        {[ "N" := VString (strconv.FormatUint 18446744073709551615) ]}
      = Ok (Some (VInt 18446744073709551615)))
  /\ (2 ^ 63 <= 18446744073709551615 ->
      decodeValue sampleParseFloat "count"
        {[ "N" := VString (strconv.FormatUint 18446744073709551615) ]}
      = match sampleParseFloat (strconv.FormatUint 18446744073709551615) with
        | Some floatValue => Ok (Some (VFloat64 floatValue))
        | None => Err (ErrNotIntOrFloat "count"
                         (strconv.FormatUint 18446744073709551615))
        end).
Proof.
  apply uint64_attribute_read_back. unfold is_uint64. lia.
Defined.

(** ** The attributes of a capnp item over several value sections *)

(** Two errors that are the same but for the indices that the error of an
    unreadable value names. *)
Definition same_error (e1 e2 : error) : Prop :=
  match e1, e2 with
  | ErrCapnpValue _ _, ErrCapnpValue _ _ => True
  | _, _ => e1 = e2
  end.

(** Two results of the same outcome: the same value, errors that are the
    same but for those indices, or a panic each. *)
Definition same_result {A} (r1 r2 : Res error A) : Prop :=
  match r1, r2 with
  | Ok a1, Ok a2 => a1 = a2
  | Err e1, Err e2 => same_error e1 e2
  | Panic, Panic => True
  | _, _ => False
  end.

Lemma same_error_refl (e : error) : same_error e e.
Proof. by destruct e. Qed.

Lemma same_result_refl {A} (r : Res error A) : same_result r r.
Proof. destruct r; cbn; [done|apply same_error_refl|done]. Qed.

Lemma decodeCapnpAttribute_sections (values : list attributeValuesSection)
    (attributeNames : list string) (attributes : Item) (attrPtr : Z * Z) :
  cumulative 0 values -> values <> [] ->
  same_result
    (decodeCapnpAttribute values attributeNames attributes attrPtr)
    (decodeCapnpAttribute
       [ {| accumulatedPreviousSectionsLength := Z.of_nat (length (allValues values));
            data := allValues values |} ]
       attributeNames attributes attrPtr).
Proof.
  intros Hcum Hsome. unfold decodeCapnpAttribute. cbv zeta.
  destruct (index attributeNames (wrap_int64 (fst attrPtr))) as [attributeName|];
    [|done].
  destruct (getSectionAndIndex_lookup values (wrap_int64 (snd attrPtr)) Hcum Hsome)
    as (sectIdx & valIdx & section & -> & -> & ->).
  cbn [getSectionAndIndex].
  set (merged := {| accumulatedPreviousSectionsLength :=
                      Z.of_nat (length (allValues values));
                    data := allValues values |}).
  change (index [merged] 0) with (Some merged).
  cbv beta iota. change (data merged) with (allValues values).
  destruct (index (allValues values) (wrap_int64 (snd attrPtr))) as [[value|]|];
    [apply same_result_refl|done..].
Qed.

Lemma decodeCapnpAttributes_from (values values' : list attributeValuesSection)
    (attributeNames : list string) (keyValues : list (Z * Z)) :
  (forall attributes attrPtr,
      same_result (decodeCapnpAttribute values attributeNames attributes attrPtr)
                  (decodeCapnpAttribute values' attributeNames attributes attrPtr)) ->
  forall acc acc' : Res error Item,
    same_result acc acc' ->
    same_result
      (fold_left
         (fun acc attrPtr =>
            match acc with
            | Ok attributes =>
                decodeCapnpAttribute values attributeNames attributes attrPtr
            | _ => acc
            end) keyValues acc)
      (fold_left
         (fun acc attrPtr =>
            match acc with
            | Ok attributes =>
                decodeCapnpAttribute values' attributeNames attributes attrPtr
            | _ => acc
            end) keyValues acc').
Proof.
  intros Hstep. induction keyValues as [|attrPtr keyValues IH]; intros acc acc' Hacc;
    [done|].
  cbn [fold_left]. apply IH.
  destruct acc as [attributes|e|], acc' as [attributes'|e'|]; try done.
  cbn in Hacc. subst attributes'. apply Hstep.
Qed.

(** X22: The sections of values do not show in the attributes
    [decodeCapnpAttributes] decodes: with accumulated lengths as
    [getItemsParseCAPNPResponse] builds them, decoding against the sections
    and decoding against one section that holds the values of all of them in
    order have the same outcome, whatever the indices of the item: the same
    attributes when one of them succeeds, a panic in both when an index is
    out of range, and an error in both otherwise, the same one but for the
    section and the index that the error of an unreadable value names. *)
Theorem decodeCapnpAttributes_sections (keyValues : list (Z * Z))
    (values : list attributeValuesSection) (attributeNames : list string)
    (Hcumulative : cumulative 0 values) (Hsome : values <> []) :
  same_result
    (decodeCapnpAttributes keyValues values attributeNames)
    (decodeCapnpAttributes keyValues
       [ {| accumulatedPreviousSectionsLength := Z.of_nat (length (allValues values));
            data := allValues values |} ]
       attributeNames).
Proof.
  unfold decodeCapnpAttributes. apply decodeCapnpAttributes_from; [|done].
  intros attributes attrPtr. by apply decodeCapnpAttribute_sections.
Qed.

Lemma decodeCapnpAttributes_sections_witness :
  same_result
    (decodeCapnpAttributes [(0, 2); (1, 0)] sampleSections ["ok"; "one"])
    (decodeCapnpAttributes [(0, 2); (1, 0)]
       [ {| accumulatedPreviousSectionsLength :=
              Z.of_nat (length (allValues sampleSections));
            data := allValues sampleSections |} ]
       ["ok"; "one"]).
Proof.
  apply decodeCapnpAttributes_sections.
  - cbn. repeat split; reflexivity.
  - discriminate.
Defined.

(** The indices that the error of an unreadable value names do show the
    sections: the first value of a second section is value 0 of section 1,
    and value 2 of the one section that holds all values. *)
Lemma decodeCapnpAttributes_error_indices :
  let sections :=
    [ {| accumulatedPreviousSectionsLength := 2;
         data := [Some (Which_qword 1); Some (Which_qword 2)] |};
      {| accumulatedPreviousSectionsLength := 3; data := [None] |} ] in
  decodeCapnpAttributes [(0, 2)] sections ["ok"] = Err (ErrCapnpValue 1 0)
  /\ decodeCapnpAttributes [(0, 2)]
       [ {| accumulatedPreviousSectionsLength := 3;
            data := allValues sections |} ]
       ["ok"]
     = Err (ErrCapnpValue 0 2).
Proof. by vm_compute. Qed.

(** ** [PutItemSync]: the modification time of the item written *)

(** The body [putItem] encodes for [PutItemSync]. *)
Definition putItemBody (putItemInput : PutItemInput) (typedAttributes : TypedItem)
  : gmap string BodyValue :=
  let body :=
    <["Item" := BTypedItem typedAttributes]>
      (default ∅ (if negb (bool_decide (pi_UpdateMode putItemInput = ""))
                  then Some {[ "UpdateMode" := BString (pi_UpdateMode putItemInput) ]}
                  else None)) in
  if negb (bool_decide (pi_Condition putItemInput = ""))
  then <["ConditionExpression" := BString (pi_Condition putItemInput)]> body
  else body.

Section PutItemProperties.

Context `{External}.

(** X17: [PutItemSync] when the server accepts the item at the first round trip.
    When the answer carries the header [X-v3io-transaction-verifier] in the
    shape [__mtime_secs==<secs> and __mtime_nsecs==<nsecs>], the response
    returned holds these two numbers as its output. When the answer carries
    no such header, [PutItemSync] returns an error although the item was
    written, and neither returns nor releases the response. *)
Theorem PutItemSync_modification_time (putItemInput : PutItemInput)
    (typedAttributes : TypedItem) (encodedBody : bytes) (uri : Uri)
    (http : HttpResponse) (w : World)
    (Hcontainer : ContainerName (pi_dpi putItemInput) <> "")
    (Huri : buildRequestURI (URL (pi_dpi putItemInput))
              (ContainerName (pi_dpi putItemInput)) "" (pi_Path putItemInput)
            = Ok uri)
    (Hencode : encodeTypedAttributes FormatFloat (pi_Attributes putItemInput)
               = Ok typedAttributes)
    (Hmarshal : json_Marshal (putItemBody putItemInput typedAttributes)
                = Some encodedBody)
    (Hanswer : transport w (length (roundTrips w))
                 (initRequest (pi_dpi putItemInput) "PUT" uri putItemHeaders
                              encodedBody)
               = Answered http)
    (Hstatus : 200 <= StatusCode http < 300) :
  (forall mtimeSecs mtimeNSecs,
      is_int mtimeSecs -> is_int mtimeNSecs ->
      HeaderPeek http "X-v3io-transaction-verifier"
      = mtimeHeaderOf mtimeSecs mtimeNSecs ->
      exists response w',
        PutItemSync putItemInput w = (Some (Some response, None), w')
        /\ resp_Output response
           = Some (OutPutItem {| pi_MtimeSecs := mtimeSecs;
                                 pi_MtimeNSecs := mtimeNSecs |})
        /\ HTTPResponse response = Some http)
  /\ (Header http !! "X-v3io-transaction-verifier" = None ->
      exists w',
        PutItemSync putItemInput w = (Some (None, Some (ErrMtimeSymbol "")), w')
        /\ roundTrips w'
           = (roundTrips w ++ [initRequest (pi_dpi putItemInput) "PUT" uri
                                           putItemHeaders encodedBody])%list
        /\ acquired w' = S (acquired w)
        /\ released w' = released w).
Proof.
  assert (exists w1,
             putItem (pi_dpi putItemInput) (pi_Path putItemInput) putItemFunctionName
               (pi_Attributes putItemInput) (pi_Condition putItemInput) putItemHeaders
               (if negb (bool_decide (pi_UpdateMode putItemInput = ""))
                then Some {[ "UpdateMode" := BString (pi_UpdateMode putItemInput) ]}
                else None) w
             = (Some (Some {| resp_Output := None; resp_Context := None;
                              resp_Error := None; HTTPResponse := Some http;
                              resp_ID := 0 |}, None), w1)
             /\ roundTrips w1
                = (roundTrips w ++ [initRequest (pi_dpi putItemInput) "PUT" uri
                                                putItemHeaders encodedBody])%list
             /\ acquired w1 = S (acquired w) /\ released w1 = released w)
    as (w1 & Hput & Htrips & Hacq & Hrel).
  { unfold putItem. rewrite Hencode. cbv zeta.
    change (json_Marshal _) with (json_Marshal (putItemBody putItemInput typedAttributes)).
    rewrite Hmarshal.
    rewrite (sendRequest_closed_form _ _ _ _ _ _ _ uri) by done. cbv zeta.
    assert (closedRun w (initRequest (pi_dpi putItemInput) "PUT" uri putItemHeaders
                                     encodedBody)
                      (length (roundTrips w)) 7 = 0%nat) as ->.
    { cbn [closedRun]. by rewrite Hanswer. }
    rewrite Nat.add_0_r, Hanswer.
    assert ((200 <=? StatusCode http) && (StatusCode http <? 300) = true) as ->.
    { destruct (Z.leb_spec 200 (StatusCode http)), (Z.ltb_spec (StatusCode http) 300);
        cbn; try done; lia. }
    by eexists. }
  split.
  - intros mtimeSecs mtimeNSecs Hsecs Hnsecs Hheader.
    unfold PutItemSync. cbv zeta. unfold bind at 1. rewrite Hput.
    unfold withMtimeOutput, parseMtimeHeader, bind.
    cbn [ResponseHeaderPeek HTTPResponse]. unfold ret.
    rewrite Hheader, parseMtimeHeaderValue_Itoa by done.
    by eexists _, _.
  - intros Hmissing.
    unfold PutItemSync. cbv zeta. unfold bind at 1. rewrite Hput.
    unfold withMtimeOutput, parseMtimeHeader, bind.
    cbn [ResponseHeaderPeek HTTPResponse]. unfold ret.
    unfold HeaderPeek. rewrite Hmissing. cbn [default].
    change (parseMtimeHeaderValue "") with
      (Err (ErrMtimeSymbol "") : Res error (Z * Z)).
    by eexists.
Qed.

End PutItemProperties.

(** ** The further properties on the sample transports *)

(** The URI of the sample object, and a transport that gives every request
    the same answer. *)
Definition sampleObjectUri : Uri :=
  {| Endpoint := "http://v3io:8081"; uri_Path := "/bigdata/object"; RawQuery := "" |}.

Definition alwaysAnswers (http : HttpResponse) : nat -> HttpRequest -> TransportResult :=
  fun _ _ => Answered http.

(** An answer to a [PutItem] with the modification time of the item. *)
Definition sampleWritten : HttpResponse :=
  {| StatusCode := 200;
     Header := {[ "X-v3io-transaction-verifier"
                  := "__mtime_secs==1581605100 and __mtime_nsecs==498349956" ]};
     Body := [] |}.

Definition samplePutItemInput (attributes : Item) : PutItemInput :=
  {| pi_dpi := sampleDataPlaneInput "bigdata"; pi_Path := "/object";
     pi_Condition := ""; pi_Attributes := attributes; pi_UpdateMode := "" |}.

Definition sampleGetRecordsInput : GetRecordsInput :=
  {| gr_dpi := sampleDataPlaneInput "bigdata"; gr_Path := "/object";
     gr_Location := "AQAAAAAAAAAAAAAAAAAAAA=="; gr_Limit := 10 |}.

(** The sample environment with decoders that reject every body. *)
Definition rejectingExternal : External := {|
  url_Parse := @url_Parse sampleExternal;
  url_QueryEscape := @url_QueryEscape sampleExternal;
  FormatFloat := sampleFormatFloat;
  ParseFloat := sampleParseFloat;
  json_Marshal := @json_Marshal sampleExternal;
  json_Marshal_DirAttributes := @json_Marshal_DirAttributes sampleExternal;
  json_Marshal_PutChunkInput := @json_Marshal_PutChunkInput sampleExternal;
  json_Unmarshal := fun _ output => (output, Some (ErrUnmarshal "json"));
  xml_Unmarshal := fun _ output => (output, Some (ErrUnmarshal "xml"));
  json_Unmarshal_Item := fun _ => (∅, Some (ErrUnmarshal "json"));
  json_Unmarshal_GetItemsResponse := fun _ =>
    ({| gir_Items := []; gir_NextMarker := ""; LastItemIncluded := "";
        gir_Scattered := "" |}, Some (ErrUnmarshal "json"));
  readAllCapnpMessages := fun _ => [];
  time_Now_UnixNano := fun _ => 0;
  getClusterMDHeaders := ∅;
  getItemHeaders := ∅;
  getItemsHeaders := ∅;
  getItemsHeadersCapnp := ∅;
  putItemHeaders := ∅;
  updateItemHeaders := ∅;
  createStreamHeaders := ∅;
  describeStreamHeaders := ∅;
  seekShardsHeaders := ∅;
  putRecordsHeaders := ∅;
  putChunkHeaders := ∅;
  getRecordsHeaders := ∅;
  putOOSObjectHeaders := ∅;
  putItemFunctionName := "PutItem";
  updateItemFunctionName := "UpdateItem";
  seekShardsInputTypeToString := fun _ => "EARLIEST"
|}.

Lemma buildRequestURI_normal_form_witness :
  exists uri,
    buildRequestURI "http://v3io:8081" "bigdata" "a b" "/dir//./file/" = Ok uri
    /\ Endpoint uri = "http://v3io:8081"
    /\ uri_Path uri = "/bigdata/dir/file/"
    /\ strings.HasPrefix (uri_Path uri) "/bigdata" = true
    /\ strings.ContainsByte (RawQuery uri) " " = false.
Proof.
  apply (buildRequestURI_normal_form "http://v3io:8081" "bigdata" "a b" "/dir//./file/"
           {| Endpoint := "http://v3io:8081"; uri_Path := ""; RawQuery := "" |}).
  - reflexivity.
  - repeat split; discriminate.
  - unfold no_dotdot. vm_compute. repeat constructor; discriminate.
Defined.

Lemma sendRequest_round_trips_witness :
  exists request n,
    roundTrips (snd (sendRequest (sampleDataPlaneInput "bigdata") "DELETE" "/object"
                                 "" ∅ [] true (startWorld (closedThenAnswered 3))))
    = replicate (S n) request
    /\ (S n <= 8)%nat.
Proof.
  eexists _, _.
  apply (sendRequest_round_trips (sampleDataPlaneInput "bigdata") "DELETE" "/object"
           "" ∅ [] true sampleObjectUri (startWorld (closedThenAnswered 3))).
  - discriminate.
  - reflexivity.
Defined.

Lemma sendRequest_status_error_witness :
  exists w',
    sendRequest (sampleDataPlaneInput "bigdata") "DELETE" "/object" "" ∅ [] true
                (startWorld (alwaysAnswers serverError))
    = (Some (None, Some (ErrStatusCode 500)), w')
    /\ released w' = 1%nat.
Proof.
  destruct (sendRequest_status_error (sampleDataPlaneInput "bigdata") "DELETE"
              "/object" "" ∅ [] true sampleObjectUri serverError
              (startWorld (alwaysAnswers serverError)))
    as (err & w' & Hrun & _ & Hreleased & _).
  - discriminate.
  - reflexivity.
  - reflexivity.
  - right. cbn. lia.
  - destruct (Hreleased eq_refl) as (-> & _ & Hrel). by exists w'.
Defined.

Lemma putItem_unexpected_attribute_witness :
  PutItemSync (samplePutItemInput {[ "bad" := VOther "complex128" ]})
              (startWorld connectionRefused)
  = (Some (None, Some (ErrUnexpectedAttributeType "bad")),
     startWorld connectionRefused).
Proof.
  destruct (putItem_unexpected_attribute
              (samplePutItemInput {[ "bad" := VOther "complex128" ]})
              (startWorld connectionRefused) "bad" "complex128")
    as (name & ty & Hname & _ & Hrun).
  - reflexivity.
  - cbn in Hname. apply lookup_singleton_Some in Hname as [<- _]. exact Hrun.
Defined.

Lemma PutOOSObjectSync_request_witness :
  exists (request : HttpRequest) (n : nat),
    roundTrips (snd (PutOOSObjectSync samplePutOOSObjectInput
                       (startWorld connectionRefused)))
    = replicate (S n) request
    /\ Method request = "PUT"
    /\ RequestURI request = sampleObjectUri
    /\ req_Body request = ["h"; "d"]%byte
    /\ ("io-vec-num", "2") ∈ req_Header request
    /\ ("io-vec-sizes", "1,1") ∈ req_Header request
    /\ length (req_Body request) = 2%nat.
Proof.
  apply (PutOOSObjectSync_request samplePutOOSObjectInput sampleObjectUri
           (startWorld connectionRefused)).
  - discriminate.
  - reflexivity.
Defined.

Lemma sendRequestAndXMLUnmarshal_decode_error_witness :
  exists w',
    @GetContainersSync rejectingExternal
      {| gc_dpi := sampleDataPlaneInput "bigdata" |}
      (startWorld (alwaysAnswers sampleListing))
    = (Some (None, Some (ErrUnmarshal "xml")), w')
    /\ acquired w' = 1%nat
    /\ released w' = 1%nat.
Proof.
  apply (@sendRequestAndXMLUnmarshal_decode_error rejectingExternal
           (sampleDataPlaneInput "bigdata") "GET" "" "" ∅ []
           (OutGetContainers {| Results := [] |})
           {| Endpoint := "http://v3io:8081"; uri_Path := "/bigdata"; RawQuery := "" |}
           sampleListing (ErrUnmarshal "xml")
           (startWorld (alwaysAnswers sampleListing))).
  - discriminate.
  - reflexivity.
  - reflexivity.
  - cbn. lia.
  - reflexivity.
Defined.

Lemma GetRecordsSync_decode_error_witness :
  exists w',
    @GetRecordsSync rejectingExternal sampleGetRecordsInput
      (startWorld (alwaysAnswers sampleListing))
    = (Some (None, Some (ErrUnmarshal "json")), w')
    /\ acquired w' = 1%nat
    /\ released w' = 0%nat.
Proof.
  apply (@GetRecordsSync_decode_error rejectingExternal sampleGetRecordsInput
           sampleObjectUri sampleListing (ErrUnmarshal "json")
           (startWorld (alwaysAnswers sampleListing))).
  - discriminate.
  - reflexivity.
  - reflexivity.
  - cbn. lia.
  - reflexivity.
Defined.

Lemma async_request_response_witness :
  exists request w1 w2 delivered,
    sendRequestToWorker
      (InDeleteObject {| do_dpi := sampleDataPlaneInput "bigdata";
                         do_Path := "/object" |})
      (Some (VString "caller")) 7%N (startWorld connectionRefused)
    = (Some (Some request, None), w1)
    /\ req_ID request = (requestID (startWorld connectionRefused) + 1) mod 2 ^ 64
    /\ requestChan w1 = [request]
    /\ workerStep w1 = Some (delivered, w2)
    /\ requestChan w2 = []
    /\ match delivered with
       | Some _ =>
           exists response,
             responseChans w2
             = <[7%N :=
                   (default [] (responseChans (startWorld connectionRefused) !! 7%N)
                    ++ [response])%list]>
                 (responseChans (startWorld connectionRefused))
             /\ resp_ID response = req_ID request
             /\ resp_Context response = Some (VString "caller")
       | None => responseChans w2 = responseChans (startWorld connectionRefused)
       end.
Proof. apply async_request_response. reflexivity. Defined.


Lemma worker_delivers_sync_witness :
  exists response,
    resp_Output response = None
    /\ resp_Error response = Some (ErrTransport "connection refused")
    /\ resp_ID response = 5
    /\ resp_Context response = Some (VString "caller").
Proof.
  destruct (worker_delivers_sync
              {| req_ID := 5;
                 req_Input := InDeleteObject {| do_dpi := sampleDataPlaneInput "bigdata";
                                                do_Path := "/object" |};
                 req_Context := Some (VString "caller"); ResponseChan := 7%N;
                 SendTimeNanoseconds := 0 |}
              (errorOnly (DeleteObjectSync {| do_dpi := sampleDataPlaneInput "bigdata";
                                              do_Path := "/object" |}))
              (startWorld connectionRefused)
              (snd (errorOnly (DeleteObjectSync
                                 {| do_dpi := sampleDataPlaneInput "bigdata";
                                    do_Path := "/object" |})
                              (startWorld connectionRefused)))
              (None, Some (ErrTransport "connection refused")))
    as (response & _ & Hout & Herr & Hid & Hctx & _).
  - reflexivity.
  - discriminate.
  - discriminate.
  - reflexivity.
  - exists response. by repeat split.
Defined.

Lemma PutItemSync_modification_time_witness :
  exists response w',
    PutItemSync (samplePutItemInput {[ "age" := VInt 30 ]})
                (startWorld (alwaysAnswers sampleWritten))
    = (Some (Some response, None), w')
    /\ resp_Output response
       = Some (OutPutItem {| pi_MtimeSecs := 1581605100;
                             pi_MtimeNSecs := 498349956 |})
    /\ HTTPResponse response = Some sampleWritten.
Proof.
  destruct (PutItemSync_modification_time
              (samplePutItemInput {[ "age" := VInt 30 ]})
              {[ "age" := {[ "N" := VString "30" ]} ]} [] sampleObjectUri
              sampleWritten (startWorld (alwaysAnswers sampleWritten)))
    as [Hmtime _].
  - discriminate.
  - reflexivity.
  - reflexivity.
  - reflexivity.
  - reflexivity.
  - cbn. lia.
  - apply (Hmtime 1581605100 498349956); [unfold is_int, is_int64; lia..|reflexivity].
Defined.

(** ** [GetItemsSync]: a response and an error *)

(** The headers [GetItemsSync] sends. *)
Definition getItemsRequestHeaders `{External} (getItemsInput : GetItemsInput)
  : gmap string string :=
  let commonHeaders :=
    if RequestJSONResponse getItemsInput then getItemsHeaders
    else getItemsHeadersCapnp in
  if 0 <? strings.len (MtimeSec (gis_dpi getItemsInput)) then
    <["conditional-mtime-nsec" := MtimeNsec (gis_dpi getItemsInput)]>
      (<["conditional-mtime-sec" := MtimeSec (gis_dpi getItemsInput)]>
         commonHeaders)
  else commonHeaders.

Section GetItemsProperties.

Context `{External}.

(** X15: [GetItemsSync] on a 2xx answer in JSON whose body does not decode:
    unlike the other operations it returns the response together with the
    error of the decoder. The response holds the answer of the server; its
    [Output] is set, to the nil [*GetItemsOutput] of the parser, which holds
    no output; and the response is not released: that is left to the
    caller. *)
Theorem GetItemsSync_parse_error (getItemsInput : GetItemsInput)
    (marshalledBody : bytes) (uri : Uri) (http : HttpResponse) (err : error)
    (w : World)
    (Hcontainer : ContainerName (gis_dpi getItemsInput) <> "")
    (Huri : buildRequestURI (URL (gis_dpi getItemsInput))
              (ContainerName (gis_dpi getItemsInput)) "" (gis_Path getItemsInput)
            = Ok uri)
    (Hmarshal : json_Marshal (getItemsBody getItemsInput) = Some marshalledBody)
    (Hanswer : transport w (length (roundTrips w))
                 (initRequest (gis_dpi getItemsInput) "PUT" uri
                              (getItemsRequestHeaders getItemsInput) marshalledBody)
               = Answered http)
    (Hstatus : 200 <= StatusCode http < 300)
    (Hjson : HeaderPeek http "Content-Type" <> "application/octet-capnp")
    (Hdecode : snd (json_Unmarshal_GetItemsResponse (Body http)) = Some err) :
  exists response w',
    GetItemsSync getItemsInput w = (Some (Some response, Some err), w')
    /\ HTTPResponse response = Some http
    /\ resp_Output response = Some OutGetItemsNil
    /\ acquired w' = S (acquired w)
    /\ released w' = released w.
Proof.
  unfold GetItemsSync. rewrite Hmarshal. cbv zeta.
  fold (getItemsRequestHeaders getItemsInput). unfold bind at 1.
  rewrite (sendRequest_closed_form _ _ _ _ _ _ _ uri) by done. cbv zeta.
  assert (closedRun w (initRequest (gis_dpi getItemsInput) "PUT" uri
                                   (getItemsRequestHeaders getItemsInput)
                                   marshalledBody)
                    (length (roundTrips w)) 7 = 0%nat) as ->.
  { cbn [closedRun]. by rewrite Hanswer. }
  rewrite Nat.add_0_r, Hanswer.
  assert ((200 <=? StatusCode http) && (StatusCode http <? 300) = true) as ->.
  { destruct (Z.leb_spec 200 (StatusCode http)), (Z.ltb_spec (StatusCode http) 300);
      cbn; try done; lia. }
  unfold parseGetItemsResponse, bind. cbn [ResponseHeaderPeek HTTPResponse]. unfold ret.
  rewrite bool_decide_eq_false_2 by done. cbn [negb].
  unfold getItemsParseJSONResponse, bind. cbn [ResponseBody HTTPResponse]. unfold ret.
  destruct (json_Unmarshal_GetItemsResponse (Body http)) as [resp e].
  cbn in Hdecode. subst e. by eexists _, _.
Qed.

End GetItemsProperties.

Lemma GetItemsSync_parse_error_witness :
  exists response w',
    @GetItemsSync rejectingExternal sampleGetItemsInput
      (startWorld (alwaysAnswers sampleListing))
    = (Some (Some response, Some (ErrUnmarshal "json")), w')
    /\ HTTPResponse response = Some sampleListing
    /\ resp_Output response = Some OutGetItemsNil
    /\ acquired w' = 1%nat
    /\ released w' = 0%nat.
Proof.
  apply (@GetItemsSync_parse_error rejectingExternal sampleGetItemsInput []
           {| Endpoint := "http://v3io:8081"; uri_Path := "/bigdata/table/";
              RawQuery := "" |}
           sampleListing (ErrUnmarshal "json")
           (startWorld (alwaysAnswers sampleListing))).
  - discriminate.
  - reflexivity.
  - reflexivity.
  - reflexivity.
  - cbn. lia.
  - discriminate.
  - reflexivity.
Defined.

(** ** The operations that return an error only *)

(** The inputs of the operations that return an error and no response. *)
Definition returnsErrorOnly (input : Input) : bool :=
  match input with
  | InPutObject _ | InDeleteObject _ | InUpdateObject _ | InCreateStream _
  | InCheckPathExists _ | InPutChunk _ | InPutOOSObject _ => true
  | _ => false
  end.

Section ErrorOnlyProperties.

Context `{External}.

Lemma sendRequest_released (dataPlaneInput : DataPlaneInput)
    (method path query : string) (headers : gmap string string) (body : bytes)
    (w : World) :
  IncludeResponseInError dataPlaneInput = false ->
  url_Parse (URL dataPlaneInput) <> None ->
  exists err w',
    sendRequest dataPlaneInput method path query headers body true w
    = (Some (None, err), w')
    /\ (acquired w' + released w = acquired w + released w')%nat.
Proof.
  intros Hinclude Hurl.
  destruct (decide (ContainerName dataPlaneInput = "")) as [Hc|Hc].
  { rewrite sendRequest_empty by done. by eexists _, _. }
  destruct (url_Parse (URL dataPlaneInput)) as [parsed|] eqn:Hparsed; [|done].
  rewrite (sendRequest_closed_form _ _ _ _ _ _ _
             {| Endpoint := Endpoint parsed;
                uri_Path := requestPath (ContainerName dataPlaneInput) path;
                RawQuery := strings.ReplaceByte query " " "%20" |})
    by (try done; unfold buildRequestURI; by rewrite Hparsed).
  cbv zeta. rewrite Hinclude.
  destruct (transport w _ _) as [http|err].
  - destruct (_ && _); eexists _, _; (split; [reflexivity|]); cbn; lia.
  - eexists _, _. split; [reflexivity|]. cbn. lia.
Qed.

(** X12: No response is left behind by the operations that return an error only
    ([PutObjectSync], [DeleteObjectSync], [UpdateObjectSync],
    [CreateStreamSync], [CheckPathExistsSync], [PutChunkSync],
    [PutOOSObjectSync]): when the input does not ask for the response in the
    error and its URL parses, the operation returns, and it has given back to
    the pool every response it took from it, whatever the transport
    answers. *)
Theorem error_only_operations_release (input : Input) (dataPlaneInput : DataPlaneInput)
    (operation : M (option Response * option error)) (w : World)
    (Honly : returnsErrorOnly input = true)
    (Hop : syncOperation input = Some operation)
    (Hdpi : dataPlaneInputOf input = Some dataPlaneInput)
    (Hinclude : IncludeResponseInError dataPlaneInput = false)
    (Hurl : url_Parse (URL dataPlaneInput) <> None) :
  exists err w',
    operation w = (Some (None, err), w')
    /\ (acquired w' + released w = acquired w + released w')%nat.
Proof.
  destruct input; cbn in Honly; try discriminate;
    cbn in Hop, Hdpi; injection Hop as <-; injection Hdpi as <-;
    unfold errorOnly, bind at 1.
  - unfold PutObjectSync, bind. cbv zeta.
    destruct (sendRequest_released (po_dpi i) "PUT" (po_Path i) ""
                (if Append i then {[ "Range" := "-1" ]} else ∅) (po_Body i) w
                Hinclude Hurl) as (err & w' & -> & Hbal).
    by eexists _, _.
  - unfold DeleteObjectSync, bind.
    destruct (sendRequest_released (do_dpi i) "DELETE" (do_Path i) "" ∅ [] w
                Hinclude Hurl) as (err & w' & -> & Hbal).
    by eexists _, _.
  - unfold UpdateObjectSync. cbv zeta.
    destruct (json_Marshal_DirAttributes _) as [marshaled|]; [|by eexists _, _].
    unfold bind.
    destruct (sendRequest_released (uo_dpi i) "PUT" (uo_Path i) ""
                {[ "X-v3io-function" := "DirSetAttr" ]} marshaled w
                Hinclude Hurl) as (err & w' & -> & Hbal).
    by eexists _, _.
  - unfold CreateStreamSync, bind. cbv zeta.
    match goal with
    | |- context [sendRequest ?d ?m ?p ?q ?h ?b true w] =>
        destruct (sendRequest_released d m p q h b w Hinclude Hurl)
          as (err & w' & -> & Hbal)
    end.
    by eexists _, _.
  - unfold PutChunkSync.
    destruct (json_Marshal_PutChunkInput _) as [buffer|]; [|by eexists _, _].
    unfold bind.
    destruct (sendRequest_released (pc_dpi i) "POST" (pc_Path i) ""
                putChunkHeaders buffer w Hinclude Hurl) as (err & w' & -> & Hbal).
    by eexists _, _.
  - unfold CheckPathExistsSync, bind.
    destruct (sendRequest_released (cpe_dpi i) "HEAD" (cpe_Path i) "" ∅ [] w
                Hinclude Hurl) as (err & w' & -> & Hbal).
    by eexists _, _.
  - unfold PutOOSObjectSync, bind. cbv zeta.
    match goal with
    | |- context [sendRequest ?d ?m ?p ?q ?h ?b true w] =>
        destruct (sendRequest_released d m p q h b w Hinclude Hurl)
          as (err & w' & -> & Hbal)
    end.
    by eexists _, _.
Qed.

End ErrorOnlyProperties.

Lemma error_only_operations_release_witness :
  exists err w',
    errorOnly (PutObjectSync {| po_dpi := sampleDataPlaneInput "bigdata";
                                po_Path := "/object"; po_Offset := 0;
                                po_Body := ["d"]%byte; Append := true |})
              (startWorld (closedThenAnswered 2))
    = (Some (None, err), w')
    /\ (acquired w' + released (startWorld (closedThenAnswered 2))
        = acquired (startWorld (closedThenAnswered 2)) + released w')%nat.
Proof.
  apply (error_only_operations_release
           (InPutObject {| po_dpi := sampleDataPlaneInput "bigdata";
                           po_Path := "/object"; po_Offset := 0;
                           po_Body := ["d"]%byte; Append := true |})
           (sampleDataPlaneInput "bigdata")).
  - reflexivity.
  - reflexivity.
  - reflexivity.
  - reflexivity.
  - discriminate.
Defined.

(** ** The order of the requests *)

Section QueueProperties.

Context `{External}.

(** X25: Two calls of the asynchronous interface on an empty request channel: the
    requests wait in the order of the calls, the ID of the second is the one
    after the ID of the first, and the next step of a worker serves the first
    and leaves the second on the channel; unless the operation panics, the
    response it delivers, on the channel of the first caller, has the ID of
    the first request. *)
Theorem async_requests_in_order (input1 input2 : Input)
    (context1 context2 : option Value) (responseChan1 responseChan2 : N) (w : World)
    (Hidle : requestChan w = []) :
  exists request1 request2 w1 w2 w3 delivered,
    sendRequestToWorker input1 context1 responseChan1 w
    = (Some (Some request1, None), w1)
    /\ sendRequestToWorker input2 context2 responseChan2 w1
       = (Some (Some request2, None), w2)
    /\ requestChan w2 = [request1; request2]
    /\ req_ID request2 = (req_ID request1 + 1) mod 2 ^ 64
    /\ workerStep w2 = Some (delivered, w3)
    /\ requestChan w3 = [request2]
    /\ (delivered <> None ->
        exists response,
          responseChans w3 !! responseChan1
          = Some (default [] (responseChans w !! responseChan1) ++ [response])%list
          /\ resp_ID response = req_ID request1
          /\ resp_Context response = context1).
Proof.
  pose (request1 := {| req_ID := (requestID w + 1) mod 2 ^ 64; req_Input := input1;
                       req_Context := context1; ResponseChan := responseChan1;
                       SendTimeNanoseconds := time_Now_UnixNano w |}).
  pose (w1 := {| transport := transport w; roundTrips := roundTrips w;
                 acquired := acquired w; released := released w;
                 logged := logged w; requestID := (requestID w + 1) mod 2 ^ 64;
                 requestChan := [request1]; responseChans := responseChans w |}).
  pose (request2 := {| req_ID := (requestID w1 + 1) mod 2 ^ 64; req_Input := input2;
                       req_Context := context2; ResponseChan := responseChan2;
                       SendTimeNanoseconds := time_Now_UnixNano w1 |}).
  pose (w2 := {| transport := transport w; roundTrips := roundTrips w;
                 acquired := acquired w; released := released w;
                 logged := logged w; requestID := (requestID w1 + 1) mod 2 ^ 64;
                 requestChan := [request1; request2];
                 responseChans := responseChans w |}).
  pose (w0 := {| transport := transport w; roundTrips := roundTrips w;
                 acquired := acquired w; released := released w;
                 logged := logged w; requestID := (requestID w1 + 1) mod 2 ^ 64;
                 requestChan := [request2]; responseChans := responseChans w |}).
  destruct (quiet_workerSwitch input1 w0) as (Hq & Hr & _ & _).
  cbn [requestChan responseChans w0] in Hq, Hr.
  exists request1, request2, w1, w2.
  assert (workerStep w2 = Some (workerHandle request1 w0)) as -> by reflexivity.
  unfold workerHandle, bind. cbn [req_Input ResponseChan request1].
  destruct (workerSwitch input1 w0) as [[r|] w3]; cbn [snd] in Hq, Hr.
  - eexists _, (Some tt).
    split; [unfold sendRequestToWorker; by rewrite Hidle|].
    split; [reflexivity|]. split; [done|]. split; [done|].
    split; [reflexivity|]. cbn [sendResponse requestChan responseChans snd].
    split; [done|]. intros _. eexists. rewrite lookup_insert_eq, Hr.
    split; [reflexivity|]. by split.
  - eexists _, None.
    split; [unfold sendRequestToWorker; by rewrite Hidle|].
    split; [reflexivity|]. split; [done|]. split; [done|].
    split; [reflexivity|]. by split.
Qed.

End QueueProperties.

Lemma async_requests_in_order_witness :
  exists request1 request2 w1 w2 w3 delivered,
    sendRequestToWorker
      (InDeleteObject {| do_dpi := sampleDataPlaneInput "bigdata"; do_Path := "/a" |})
      (Some (VString "first")) 1%N (startWorld connectionRefused)
    = (Some (Some request1, None), w1)
    /\ sendRequestToWorker
         (InDeleteObject {| do_dpi := sampleDataPlaneInput "bigdata"; do_Path := "/b" |})
         (Some (VString "second")) 2%N w1
       = (Some (Some request2, None), w2)
    /\ requestChan w2 = [request1; request2]
    /\ req_ID request2 = (req_ID request1 + 1) mod 2 ^ 64
    /\ workerStep w2 = Some (delivered, w3)
    /\ requestChan w3 = [request2]
    /\ (delivered <> None ->
        exists response,
          responseChans w3 !! 1%N
          = Some (default [] (responseChans (startWorld connectionRefused) !! 1%N)
                  ++ [response])%list
          /\ resp_ID response = req_ID request1
          /\ resp_Context response = Some (VString "first")).
Proof. apply async_requests_in_order. reflexivity. Defined.
